(** * Weather ETL pipeline

    A shallow embedding of the Python sources under [weather_pipeline/src]
    ([weather_api.py], [pipeline.py], [models.py], [api.py], [scheduler.py],
    [config.py]) and the properties of the retry, orchestration, storage and
    scheduling discipline proved about it.

    Conventions.
    - A Python [str] is the list of its code points ([pystr]); [py "abc"]
      writes an ASCII literal.
    - A value decoded from JSON is a [pyval]; Python's [None] is [PyNone].
    - A Python [float] is a binary64 primitive float, so [k - 273.15] is the
      very operation CPython performs.
    - An [int] is a [Z]; a [datetime] is the number of microseconds since the
      Unix epoch, UTC.
    - Code with side effects lives in the monad [M]: a computation takes the
      program state (the outside world, the trace of observable actions, the
      rows of the [weather_observations] table) and returns either a value or
      a raised exception together with the state it left behind.  Only
      subclasses of [Exception] are modelled; [KeyboardInterrupt] and
      [SystemExit] are outside the model.
    - A logger call is recorded in the trace with its level and the static
      text of its message template; the interpolated values are dropped. *)

From Stdlib Require Import ZArith NArith List String Ascii Bool Lia.
From Stdlib Require Import Floats.PrimFloat Floats.SpecFloat Floats.FloatOps.
From Stdlib Require Import Sorting.Sorted Sorting.Permutation.
Import ListNotations.
Local Open Scope Z_scope.

Set Implicit Arguments.
Set Warnings "-register-all,-inexact-float".

(* ================================================================== *)
(** ** Python strings *)

Definition pystr : Type := list N.

Definition py (s : string) : pystr :=
  List.map N_of_ascii (list_ascii_of_string s).

Fixpoint pystr_eqb (a b : pystr) : bool :=
  match a, b with
  | [], [] => true
  | x :: a', y :: b' => N.eqb x y && pystr_eqb a' b'
  | _, _ => false
  end.

(** [str.isspace] for one character, as CPython's [_PyUnicode_IsWhitespace]. *)
Definition Py_UNICODE_ISSPACE (c : N) : bool :=
  (((0x09 <=? c) && (c <=? 0x0D)) || ((0x1C <=? c) && (c <=? 0x20))
   || (c =? 0x85) || (c =? 0xA0) || (c =? 0x1680)
   || ((0x2000 <=? c) && (c <=? 0x200A))
   || (c =? 0x2028) || (c =? 0x2029) || (c =? 0x202F) || (c =? 0x205F)
   || (c =? 0x3000))%N.

(** [s.lstrip()], [s.rstrip()], [s.strip()] with no argument. *)
Fixpoint lstrip (s : pystr) : pystr :=
  match s with
  | c :: r => if Py_UNICODE_ISSPACE c then lstrip r else s
  | [] => []
  end.

Definition rstrip (s : pystr) : pystr := rev (lstrip (rev s)).

Definition strip (s : pystr) : pystr := rstrip (lstrip s).

(** [s.lstrip(ch)] for a one-character argument. *)
Fixpoint lstrip_char (ch : N) (s : pystr) : pystr :=
  match s with
  | c :: r => if N.eqb c ch then lstrip_char ch r else s
  | [] => []
  end.

(** [s.replace(ch, '', 1)]: the first occurrence of [ch] is dropped. *)
Fixpoint replace_first_by_empty (ch : N) (s : pystr) : pystr :=
  match s with
  | c :: r => if N.eqb c ch then r else c :: replace_first_by_empty ch r
  | [] => []
  end.

(** [s.split(sep)] for a one-character separator: never the empty list. *)
Fixpoint split (sep : N) (s : pystr) : list pystr :=
  match s with
  | [] => [[]]
  | c :: r =>
      if N.eqb c sep then [] :: split sep r
      else match split sep r with
           | p :: ps => (c :: p) :: ps
           | [] => [[c]]
           end
  end.

(** [ch in s]. *)
Definition contains (ch : N) (s : pystr) : bool := existsb (N.eqb ch) s.

Definition comma : N := 0x2C.
Definition dot : N := 0x2E.
Definition minus : N := 0x2D.
Definition percent : N := 0x25.
Definition underscore : N := 0x5F.

(* ================================================================== *)
(** ** Python values, exceptions, results *)

Inductive pyval : Type :=
| PyNone
| PyBool (b : bool)
| PyInt (z : Z)
| PyFloat (f : float)
| PyStr (s : pystr)
| PyList (l : list pyval)
| PyDict (kvs : list (pystr * pyval)).

Inductive exn : Type :=
| AttributeError | TypeError | KeyError | IndexError | ValueError
| OverflowError | OSError | RuntimeError
| ConnectionError | Timeout | HTTPError      (* requests.exceptions.* *)
| JSONDecodeError
| SQLAlchemyError
| ImportError | BotoCoreError | ClientError
| WeatherAPIError.

(** [isinstance(e, requests.exceptions.RequestException)]. *)
Definition is_RequestException (e : exn) : bool :=
  match e with
  | ConnectionError | Timeout | HTTPError => true
  | _ => false
  end.

Definition is_JSONDecodeError (e : exn) : bool :=
  match e with JSONDecodeError => true | _ => false end.

Definition is_WeatherAPIError (e : exn) : bool :=
  match e with WeatherAPIError => true | _ => false end.

Inductive result (A : Type) : Type :=
| Ok (a : A)
| Raise (e : exn).
Arguments Ok {A} a.
Arguments Raise {A} e.

Definition is_ok {A} (r : result A) : bool :=
  match r with Ok _ => true | Raise _ => false end.

(** [d.get(key)] on the entries of a dict: [None] when the key is absent. *)
Fixpoint dict_get (key : pystr) (kvs : list (pystr * pyval)) : option pyval :=
  match kvs with
  | [] => None
  | (k, v) :: rest => if pystr_eqb k key then Some v else dict_get key rest
  end.

(** [v.get(key, default)]: only a dict has the method. *)
Definition py_get (v : pyval) (key : pystr) (default : pyval) : result pyval :=
  match v with
  | PyDict kvs =>
      Ok (match dict_get key kvs with Some x => x | None => default end)
  | _ => Raise AttributeError
  end.

(** Truth value of a Python object. *)
Definition truthy (v : pyval) : bool :=
  match v with
  | PyNone => false
  | PyBool b => b
  | PyInt z => negb (z =? 0)
  | PyFloat f => negb (PrimFloat.eqb f 0%float)
  | PyStr s => match s with [] => false | _ => true end
  | PyList l => match l with [] => false | _ => true end
  | PyDict kvs => match kvs with [] => false | _ => true end
  end.

(** [a or b]. *)
Definition py_or (a b : pyval) : pyval := if truthy a then a else b.

(** [v[0]].  A dict decoded from JSON has only string keys, so the key [0]
    is never found. *)
Definition py_index0 (v : pyval) : result pyval :=
  match v with
  | PyList (x :: _) => Ok x
  | PyList [] => Raise IndexError
  | PyStr (c :: _) => Ok (PyStr [c])
  | PyStr [] => Raise IndexError
  | PyDict _ => Raise KeyError
  | _ => Raise TypeError
  end.

(** [float(n)] for an int: correctly rounded, [OverflowError] when the
    rounded value is not finite. *)
Definition int_to_float (z : Z) : option float :=
  match binary_normalize prec emax z 0 false with
  | S754_infinity _ => None
  | sf => Some (SF2Prim sf)
  end.

(** [273.15] as CPython reads the literal: the nearest binary64 value. *)
Definition KELVIN_OFFSET : float := 0x1.1126666666666p+8%float.

(** [v - 273.15] for a value that is not [None]. *)
Definition minus_273_15 (v : pyval) : result float :=
  match v with
  | PyFloat f => Ok (PrimFloat.sub f KELVIN_OFFSET)
  | PyInt z =>
      match int_to_float z with
      | Some f => Ok (PrimFloat.sub f KELVIN_OFFSET)
      | None => Raise OverflowError
      end
  | PyBool b =>
      Ok (PrimFloat.sub (if b then 1%float else 0%float) KELVIN_OFFSET)
  | _ => Raise TypeError
  end.

(** [v - 273.15 if v is not None else None]. *)
Definition celsius_of (v : pyval) : result (option float) :=
  match v with
  | PyNone => Ok None
  | _ => match minus_273_15 v with
         | Ok c => Ok (Some c)
         | Raise e => Raise e
         end
  end.

(* ================================================================== *)
(** ** Configuration ([config.py]) *)

Record ConfigT : Type := {
  OWM_API_KEY : pystr;
  LOCATIONS : list pystr;
  S3_BUCKET : option pystr;
  PUSH_TO_S3 : bool;
  SCHEDULE_INTERVAL_HOURS : Z;
  MAX_RETRIES : Z;
  RETRY_DELAY_SECONDS : Z;
  OWM_API_TIMEOUT : Z;
  OWM_API_BASE_URL : pystr
}.

(* ================================================================== *)
(** ** The observation record ([models.py], [WeatherObservation]) *)

Definition datetime : Type := Z.

Record WeatherObservation : Type := {
  id : option Z;                 (* assigned by the store on insert *)
  location : pystr;
  lat : pyval;
  lon : pyval;
  timestamp_utc : datetime;
  temp_c : option float;
  temp_k : pyval;
  feels_like_c : option float;
  humidity : pyval;
  pressure : pyval;
  wind_speed : pyval;
  wind_deg : pyval;
  weather_main : pyval;
  weather_description : pyval;
  raw_json : pystr;
  fetched_at_utc : datetime
}.

Definition with_id (n : Z) (o : WeatherObservation) : WeatherObservation :=
  {| id := Some n; location := location o; lat := lat o; lon := lon o;
     timestamp_utc := timestamp_utc o; temp_c := temp_c o; temp_k := temp_k o;
     feels_like_c := feels_like_c o; humidity := humidity o;
     pressure := pressure o; wind_speed := wind_speed o;
     wind_deg := wind_deg o; weather_main := weather_main o;
     weather_description := weather_description o; raw_json := raw_json o;
     fetched_at_utc := fetched_at_utc o |}.

(* ================================================================== *)
(** ** The outside world *)

(** What [requests.get] hands back: the status line and the body, already
    run through the JSON decoder ([None] when the body does not decode). *)
Record Response : Type := {
  status_code : Z;
  decoded_body : option pyval
}.

(** Everything the program obtains from outside itself.  [World] is the
    state of the network, the clock, the file system; the fields say how
    each library call reads or changes it. *)
Record Environment (World : Type) : Type := {
  (** [requests.get(url, params=..., timeout=...)] *)
  requests_get : pystr -> list (pystr * pystr) -> Z -> World ->
                 result Response * World;
  (** the wall clock, in microseconds since the epoch *)
  clock_us : World -> Z;
  (** the passing of [secs] seconds in [time.sleep] *)
  after_sleep : Z -> World -> World;
  (** [datetime.fromtimestamp(x, tz=timezone.utc)] for a float [x] *)
  fromtimestamp_float : float -> result datetime;
  (** [json.dumps] *)
  json_dumps : pyval -> pystr;
  (** the Unicode table behind [str.isdigit] *)
  Py_UNICODE_ISDIGIT : N -> bool;
  (** [SessionLocal()] *)
  open_session : World -> result unit * World;
  (** [session.commit()] after [session.add(observation)] *)
  session_commit : WeatherObservation -> World -> result unit * World;
  (** [create_engine(...)] and [Base.metadata.create_all(...)] *)
  create_engine : World -> result unit * World;
  (** what SQLite's [datetime('now')] denotes, on the scale of the stored
      [fetched_at_utc] values *)
  sqlite_now : World -> datetime;
  (** [import boto3], [boto3.client("s3")], [s3_client.put_object(...)] *)
  import_boto3 : World -> result unit * World;
  boto3_client : World -> result unit * World;
  put_object : pystr -> pystr -> pystr -> World -> result unit * World;
  (** [t.strftime('%Y%m%dT%H%M%SZ')] *)
  strftime : datetime -> pystr;
  (** whether [import schedule] succeeded when [scheduler.py] was loaded *)
  SCHEDULE_AVAILABLE : bool
}.

Unset Implicit Arguments.

Inductive level : Type := DEBUG | INFO | WARNING | ERROR.

Inductive event : Type :=
| EvLog (lvl : level) (msg : string)
| EvRequest (url : pystr) (params : list (pystr * pystr))
| EvSleep (secs : Z).

(** The program state. *)
Record ProgramState (World : Type) : Type := {
  world : World;
  trace : list event;                 (* oldest first *)
  table : list WeatherObservation     (* rows of weather_observations, in
                                         insertion order *)
}.
Arguments world {World} _.
Arguments trace {World} _.
Arguments table {World} _.
Arguments Build_ProgramState {World} _ _ _.

(** The trace without its log records: the requests sent and the sleeps
    taken, in order. *)
Definition is_log (ev : event) : bool :=
  match ev with EvLog _ _ => true | _ => false end.

Definition actions (tr : list event) : list event :=
  filter (fun ev => negb (is_log ev)) tr.

Definition is_request (ev : event) : bool :=
  match ev with EvRequest _ _ => true | _ => false end.

Definition requests_made (tr : list event) : nat :=
  List.length (filter is_request tr).

Definition sleeps (tr : list event) : list Z :=
  flat_map (fun ev => match ev with EvSleep d => [d] | _ => [] end) tr.

(** [n] attempts with a pause between consecutive ones and none after the
    last. *)
Fixpoint retry_schedule (attempt pause : event) (n : nat) : list event :=
  match n with
  | O => []
  | S O => [attempt]
  | S m => attempt :: pause :: retry_schedule attempt pause m
  end.

(** [s.startswith(prefix)]: the exact, case-sensitive prefix test. *)
Fixpoint startswith (prefix s : pystr) : bool :=
  match prefix, s with
  | [], _ => true
  | c :: prefix', c2 :: s' => N.eqb c c2 && startswith prefix' s'
  | _ :: _, [] => false
  end.

(* ================================================================== *)
(** ** A simulated world

    Used to run the program on concrete inputs: the n-th HTTP request and
    the n-th commit get the outcome a script gives them, and the clock moves
    only in [time.sleep]. *)

Record SimWorld : Type := {
  sim_requests : nat;
  sim_commits : nat;
  sim_time : datetime
}.

Definition simulated (http : nat -> result Response)
    (commit : nat -> result unit) (engine : result unit)
    : Environment SimWorld :=
  {| requests_get := fun _ _ _ w =>
       (http (sim_requests w),
        {| sim_requests := S (sim_requests w);
           sim_commits := sim_commits w; sim_time := sim_time w |});
     clock_us := sim_time;
     after_sleep := fun secs w =>
       {| sim_requests := sim_requests w; sim_commits := sim_commits w;
          sim_time := sim_time w + secs * 1000000 |};
     fromtimestamp_float := fun _ => Raise OverflowError;
     json_dumps := fun _ => py "{...}";
     Py_UNICODE_ISDIGIT := fun c => ((0x30 <=? c) && (c <=? 0x39))%N;
     open_session := fun w => (Ok tt, w);
     session_commit := fun _ w =>
       (commit (sim_commits w),
        {| sim_requests := sim_requests w;
           sim_commits := S (sim_commits w); sim_time := sim_time w |});
     create_engine := fun w => (engine, w);
     sqlite_now := sim_time;
     import_boto3 := fun w => (Raise ImportError, w);
     boto3_client := fun w => (Raise RuntimeError, w);
     put_object := fun _ _ _ w => (Raise RuntimeError, w);
     strftime := fun _ => py "19700101T000000Z";
     SCHEDULE_AVAILABLE := true |}.

Definition response_200 (body : pyval) : Response :=
  {| status_code := 200; decoded_body := Some body |}.

(** A 200 response whose body is not JSON. *)
Definition response_undecodable : Response :=
  {| status_code := 200; decoded_body := None |}.

(** The source answers every request with [body]. *)
Definition source_up (body : pyval) : Environment SimWorld :=
  simulated (fun _ => Ok (response_200 body)) (fun _ => Ok tt) (Ok tt).

(** The source is down for good. *)
Definition source_down : Environment SimWorld :=
  simulated (fun _ => Raise ConnectionError) (fun _ => Ok tt) (Ok tt).

(** Every response is undecodable. *)
Definition source_garbled : Environment SimWorld :=
  simulated (fun _ => Ok response_undecodable) (fun _ => Ok tt) (Ok tt).

(** The first request fails as [first] says; every later one is answered
    with [body]. *)
Definition source_recovers (first : result Response) (body : pyval)
    : Environment SimWorld :=
  simulated (fun n => match n with O => first | S _ => Ok (response_200 body) end)
            (fun _ => Ok tt) (Ok tt).

(** The first request is answered with [body]; after that the source is
    down. *)
Definition source_goes_down (body : pyval) : Environment SimWorld :=
  simulated (fun n => match n with
                      | O => Ok (response_200 body)
                      | S _ => Raise ConnectionError
                      end)
            (fun _ => Ok tt) (Ok tt).

(** The source answers every request; the second commit to the store fails. *)
Definition second_commit_fails (body : pyval) : Environment SimWorld :=
  simulated (fun _ => Ok (response_200 body))
            (fun n => match n with 1%nat => Raise SQLAlchemyError | _ => Ok tt end)
            (Ok tt).

(** The database cannot be opened, so that building the pipeline raises. *)
Definition database_unreachable : Environment SimWorld :=
  simulated (fun _ => Raise ConnectionError) (fun _ => Ok tt)
            (Raise SQLAlchemyError).

(** The simulated program at its start: an empty table, nothing done yet. *)
Definition sim_start : ProgramState SimWorld :=
  {| world := {| sim_requests := 0; sim_commits := 0;
                 sim_time := 1700000000000000 |};
     trace := [];
     table := [] |}.

(** The defaults of [config.py]. *)
Definition default_config : ConfigT :=
  {| OWM_API_KEY := py "key";
     LOCATIONS := [py "Colombo,Sri Lanka"; py "Kandy,Sri Lanka";
                   py "Anuradhapura,Sri Lanka"; py "London,UK"];
     S3_BUCKET := None;
     PUSH_TO_S3 := false;
     SCHEDULE_INTERVAL_HOURS := 1;
     MAX_RETRIES := 3;
     RETRY_DELAY_SECONDS := 5;
     OWM_API_TIMEOUT := 20;
     OWM_API_BASE_URL := py "https://api.openweathermap.org/data/2.5/weather" |}.

Definition set_LOCATIONS (l : list pystr) (c : ConfigT) : ConfigT :=
  {| OWM_API_KEY := OWM_API_KEY c; LOCATIONS := l;
     S3_BUCKET := S3_BUCKET c; PUSH_TO_S3 := PUSH_TO_S3 c;
     SCHEDULE_INTERVAL_HOURS := SCHEDULE_INTERVAL_HOURS c;
     MAX_RETRIES := MAX_RETRIES c;
     RETRY_DELAY_SECONDS := RETRY_DELAY_SECONDS c;
     OWM_API_TIMEOUT := OWM_API_TIMEOUT c;
     OWM_API_BASE_URL := OWM_API_BASE_URL c |}.

(** A stored row with the given key, location and fetch time. *)
Definition row (n : Z) (loc : pystr) (fetched_at : datetime)
    : WeatherObservation :=
  {| id := Some n; location := loc; lat := PyNone; lon := PyNone;
     timestamp_utc := fetched_at; temp_c := None; temp_k := PyNone;
     feels_like_c := None; humidity := PyNone; pressure := PyNone;
     wind_speed := PyNone; wind_deg := PyNone; weather_main := PyNone;
     weather_description := PyNone; raw_json := py "{}";
     fetched_at_utc := fetched_at |}.

(** Two locations, two attempts each, no pause. *)
Definition two_city_config : ConfigT :=
  {| OWM_API_KEY := py "key";
     LOCATIONS := [py "Colombo,Sri Lanka"; py "Kandy,Sri Lanka"];
     S3_BUCKET := None;
     PUSH_TO_S3 := false;
     SCHEDULE_INTERVAL_HOURS := 1;
     MAX_RETRIES := 2;
     RETRY_DELAY_SECONDS := 0;
     OWM_API_TIMEOUT := 20;
     OWM_API_BASE_URL := py "https://api.openweathermap.org/data/2.5/weather" |}.

(** As [two_city_config], with a retry delay [time.sleep] rejects. *)
Definition negative_delay_config : ConfigT :=
  {| OWM_API_KEY := py "key";
     LOCATIONS := [py "Colombo,Sri Lanka"; py "Kandy,Sri Lanka"];
     S3_BUCKET := None;
     PUSH_TO_S3 := false;
     SCHEDULE_INTERVAL_HOURS := 1;
     MAX_RETRIES := 2;
     RETRY_DELAY_SECONDS := -1;
     OWM_API_TIMEOUT := 20;
     OWM_API_BASE_URL := py "https://api.openweathermap.org/data/2.5/weather" |}.

(** One hour, in microseconds. *)
Definition HOUR : Z := 3600 * 1000000.

(** Three fetches of one location, an hour apart, and one of another. *)
Definition stored_rows : list WeatherObservation :=
  [row 1 (py "Colombo,Sri Lanka") 1700000000000000;
   row 2 (py "Colombo,Sri Lanka") (1700000000000000 + HOUR);
   row 3 (py "Kandy,Sri Lanka") (1700000000000000 + HOUR);
   row 4 (py "Colombo,Sri Lanka") (1700000000000000 + 2 * HOUR)].

(** The payload of [tests/test_weather_api.py]. *)
Definition sample_payload : pyval :=
  PyDict
    [(py "dt", PyInt 1640995200);
     (py "coord", PyDict [(py "lat", PyFloat 40.7128%float);
                          (py "lon", PyFloat (-74.0060)%float)]);
     (py "main", PyDict [(py "temp", PyFloat 293.15%float);
                         (py "feels_like", PyFloat 290.15%float);
                         (py "humidity", PyInt 65);
                         (py "pressure", PyInt 1013)]);
     (py "wind", PyDict [(py "speed", PyFloat 3.5%float);
                         (py "deg", PyInt 180)]);
     (py "weather", PyList [PyDict [(py "main", PyStr (py "Clear"));
                                    (py "description",
                                     PyStr (py "clear sky"))]])].


(** The keys of the rows are 1, 2, 3, ... in insertion order: what the
    autoincrement column gives a table that is only ever appended to. *)
Definition ids_sequential (rows : list WeatherObservation) : Prop :=
  List.map id rows
  = List.map (fun n => Some (Z.of_nat n)) (seq 1 (List.length rows)).

(** [a] comes before [b] in an ordering newest first. *)
Definition not_older (a b : WeatherObservation) : Prop :=
  fetched_at_utc b <= fetched_at_utc a.

(** *** Reading the configuration ([config.py]) *)

Definition semicolon : N := 0x3B.

(** The default of [os.getenv("LOCATIONS", ...)]. *)
Definition DEFAULT_LOCATIONS : pystr :=
  py "Colombo,Sri Lanka;Kandy,Sri Lanka;Anuradhapura,Sri Lanka;London,UK".

(** [os.getenv("LOCATIONS", DEFAULT_LOCATIONS).split(";")], with [getenv]
    the value of the environment variable, if it is set. *)
Definition load_LOCATIONS (getenv : option pystr) : list pystr :=
  split semicolon
        (match getenv with Some v => v | None => DEFAULT_LOCATIONS end).

(** [Config.validate]. *)
Definition Config_validate (c : ConfigT) : result bool :=
  match OWM_API_KEY c with
  | [] => Raise ValueError
  | _ =>
      match LOCATIONS c with
      | [] => Raise ValueError
      | _ => Ok true
      end
  end.

(** boto3 is installed and the client can be made, and every upload is
    refused. *)
Definition uploads_refused : Environment SimWorld :=
  let e := source_up sample_payload in
  {| requests_get := requests_get e;
     clock_us := clock_us e;
     after_sleep := after_sleep e;
     fromtimestamp_float := fromtimestamp_float e;
     json_dumps := json_dumps e;
     Py_UNICODE_ISDIGIT := Py_UNICODE_ISDIGIT e;
     open_session := open_session e;
     session_commit := session_commit e;
     create_engine := create_engine e;
     sqlite_now := sqlite_now e;
     import_boto3 := fun w => (Ok tt, w);
     boto3_client := fun w => (Ok tt, w);
     put_object := fun _ _ _ w => (Raise ClientError, w);
     strftime := strftime e;
     SCHEDULE_AVAILABLE := SCHEDULE_AVAILABLE e |}.

(** As [two_city_config], with the upload to S3 switched on. *)
Definition s3_config : ConfigT :=
  {| OWM_API_KEY := py "key";
     LOCATIONS := [py "Colombo,Sri Lanka"; py "Kandy,Sri Lanka"];
     S3_BUCKET := Some (py "bucket");
     PUSH_TO_S3 := true;
     SCHEDULE_INTERVAL_HOURS := 1;
     MAX_RETRIES := 2;
     RETRY_DELAY_SECONDS := 0;
     OWM_API_TIMEOUT := 20;
     OWM_API_BASE_URL := py "https://api.openweathermap.org/data/2.5/weather" |}.

(** The simulated program with [stored_rows] in its table. *)
Definition stored_state : ProgramState SimWorld :=
  {| world := world sim_start; trace := []; table := stored_rows |}.

(** As [two_city_config], with no attempt allowed. *)
Definition no_retry_config : ConfigT :=
  {| OWM_API_KEY := py "key";
     LOCATIONS := [py "Colombo,Sri Lanka"; py "Kandy,Sri Lanka"];
     S3_BUCKET := None;
     PUSH_TO_S3 := false;
     SCHEDULE_INTERVAL_HOURS := 1;
     MAX_RETRIES := 0;
     RETRY_DELAY_SECONDS := 0;
     OWM_API_TIMEOUT := 20;
     OWM_API_BASE_URL := py "https://api.openweathermap.org/data/2.5/weather" |}.

(** A payload whose [main] is a number, not an object. *)
Definition malformed_payload : pyval :=
  PyDict [(py "dt", PyInt 1640995200); (py "main", PyInt 5)].

(** The defaults with [LOCATIONS] set to separators and blanks. *)
Definition blank_config : ConfigT :=
  set_LOCATIONS (load_LOCATIONS (Some (py " ; ;"))) default_config.

(** An observation that has not been saved: no key yet. *)
Definition unsaved (loc : pystr) (fetched_at : datetime)
    : WeatherObservation :=
  {| id := None; location := loc; lat := PyNone; lon := PyNone;
     timestamp_utc := fetched_at; temp_c := None; temp_k := PyNone;
     feels_like_c := None; humidity := PyNone; pressure := PyNone;
     wind_speed := PyNone; wind_deg := PyNone; weather_main := PyNone;
     weather_description := PyNone; raw_json := py "{}";
     fetched_at_utc := fetched_at |}.

Section Program.

Context {World : Type}.
Variable env : Environment World.
Variable Config : ConfigT.

Local Abbreviation St := (ProgramState World).

Definition set_world (w : World) (s : St) : St :=
  {| world := w; trace := trace s; table := table s |}.

Definition emit (ev : event) (s : St) : St :=
  {| world := world s; trace := trace s ++ [ev]; table := table s |}.

(* ------------------------------------------------------------------ *)
(** *** The monad of effectful code *)

Definition M (A : Type) : Type := St -> result A * St.

Definition ret {A} (a : A) : M A := fun s => (Ok a, s).

Definition raise {A} (e : exn) : M A := fun s => (Raise e, s).

Definition bind {A B} (c : M A) (k : A -> M B) : M B :=
  fun s =>
    match c s with
    | (Ok a, s') => k a s'
    | (Raise e, s') => (Raise e, s')
    end.

(** [try: c  except ... as e: h e]; a clause that does not match re-raises. *)
Definition try_except {A} (c : M A) (h : exn -> M A) : M A :=
  fun s =>
    match c s with
    | (Ok a, s') => (Ok a, s')
    | (Raise e, s') => h e s'
    end.

Definition lift {A} (r : result A) : M A := fun s => (r, s).

Notation "x <- c ;; k" := (bind c (fun x => k))
  (at level 61, c at next level, right associativity).
Notation "c ;; k" := (bind c (fun _ => k))
  (at level 61, right associativity).

(** A call of one of the logger's methods. *)
Definition log (lvl : level) (msg : string) : M unit :=
  fun s => (Ok tt, emit (EvLog lvl msg) s).

(** [time.sleep(secs)]: a negative argument is a [ValueError]. *)
Definition time_sleep (secs : Z) : M unit :=
  fun s =>
    if secs <? 0 then (Raise ValueError, s)
    else (Ok tt, set_world (after_sleep env secs (world s))
                           (emit (EvSleep secs) s)).

(** [datetime.now(tz=timezone.utc)]. *)
Definition datetime_now : M datetime :=
  fun s => (Ok (clock_us env (world s)), s).

(** [int(time.time())]. *)
Definition int_time_time : M Z :=
  fun s => (Ok (Z.quot (clock_us env (world s)) 1000000), s).

(** Years 1 to 9999, the range of [datetime], in seconds since the epoch.
    Which exception a timestamp outside it raises depends on how far out it
    is; the model has [ValueError] for all of them. *)
Definition MIN_TIMESTAMP : Z := -62135596800.
Definition MAX_TIMESTAMP : Z := 253402300799.

Definition fromtimestamp_int (z : Z) : result datetime :=
  if (MIN_TIMESTAMP <=? z) && (z <=? MAX_TIMESTAMP)
  then Ok (z * 1000000)
  else Raise ValueError.

(** [datetime.fromtimestamp(v, tz=timezone.utc)]. *)
Definition fromtimestamp (v : pyval) : result datetime :=
  match v with
  | PyInt z => fromtimestamp_int z
  | PyBool b => fromtimestamp_int (Z.b2z b)
  | PyFloat f => fromtimestamp_float env f
  | _ => Raise TypeError
  end.

(* ------------------------------------------------------------------ *)
(** *** The weather source client ([weather_api.py]) *)

(** [response.raise_for_status()]. *)
Definition raise_for_status (response : Response) : M unit :=
  if (400 <=? status_code response) && (status_code response <? 600)
  then raise HTTPError
  else ret tt.

(** [response.json()]. *)
Definition response_json (response : Response) : M pyval :=
  match decoded_body response with
  | Some v => ret v
  | None => raise JSONDecodeError
  end.

(** The call of [requests.get]; the request sent is recorded in the trace. *)
Definition http_get (url : pystr) (params : list (pystr * pystr))
    (timeout : Z) : M Response :=
  fun s =>
    let (r, w) := requests_get env url params timeout (world s) in
    (r, set_world w (emit (EvRequest url params) s)).

(** [s.isdigit()]. *)
Definition isdigit (s : pystr) : bool :=
  match s with
  | [] => false
  | _ => forallb (Py_UNICODE_ISDIGIT env) s
  end.

(** [part.strip().replace('.','',1).lstrip('-').isdigit()]. *)
Definition looks_numeric (part : pystr) : bool :=
  isdigit (lstrip_char minus (replace_first_by_empty dot (strip part))).

(** The query parameters of a location: coordinates or a place name. *)
Definition request_params (location : pystr) : M (list (pystr * pystr)) :=
  let params := [(py "appid", OWM_API_KEY Config)] in
  if contains comma location
     && forallb looks_numeric (firstn 2 (split comma location))
  then
    match firstn 2 (split comma location) with
    | [lat; lon] =>
        ret (params ++ [(py "lat", strip lat); (py "lon", strip lon)])
    | _ => raise ValueError            (* the unpacking [lat, lon = ...] *)
    end
  else ret (params ++ [(py "q", location)]).

(** [WeatherAPIClient.fetch_weather_data].  Whichever of the two [except]
    clauses catches an undecodable body (it depends on the version of
    [requests]), the caller sees a [WeatherAPIError]. *)
Definition WeatherAPIClient_fetch_weather_data (location : pystr) : M pyval :=
  params <- request_params location ;;
  try_except
    (response <- http_get (OWM_API_BASE_URL Config) params
                          (OWM_API_TIMEOUT Config) ;;
     raise_for_status response ;;
     response_json response)
    (fun e =>
       if is_RequestException e then
         log ERROR "Failed to fetch weather data for {location}: {e}" ;;
         raise WeatherAPIError
       else if is_JSONDecodeError e then
         log ERROR "Failed to parse JSON response for {location}: {e}" ;;
         raise WeatherAPIError
       else raise e).

(** [WeatherAPIClient.transform_weather_data]. *)
Definition WeatherAPIClient_transform_weather_data
    (location : pystr) (raw_data : pyval) : M WeatherObservation :=
  default_dt <- int_time_time ;;
  dt <- lift (py_get raw_data (py "dt") (PyInt default_dt)) ;;
  timestamp_utc <- lift (fromtimestamp dt) ;;
  fetched_at <- datetime_now ;;
  main <- lift (py_get raw_data (py "main") (PyDict [])) ;;
  wind <- lift (py_get raw_data (py "wind") (PyDict [])) ;;
  weather_list <- lift (py_get raw_data (py "weather") PyNone) ;;
  weather <- lift (py_index0 (py_or weather_list (PyList [PyDict []]))) ;;
  temp_k <- lift (py_get main (py "temp") PyNone) ;;
  temp_c <- lift (celsius_of temp_k) ;;
  feels_like_k <- lift (py_get main (py "feels_like") PyNone) ;;
  feels_like_c <- lift (celsius_of feels_like_k) ;;
  coord <- lift (py_get raw_data (py "coord") (PyDict [])) ;;
  lat <- lift (py_get coord (py "lat") PyNone) ;;
  coord' <- lift (py_get raw_data (py "coord") (PyDict [])) ;;
  lon <- lift (py_get coord' (py "lon") PyNone) ;;
  humidity <- lift (py_get main (py "humidity") PyNone) ;;
  pressure <- lift (py_get main (py "pressure") PyNone) ;;
  wind_speed <- lift (py_get wind (py "speed") PyNone) ;;
  wind_deg <- lift (py_get wind (py "deg") PyNone) ;;
  weather_main <- lift (py_get weather (py "main") PyNone) ;;
  weather_description <- lift (py_get weather (py "description") PyNone) ;;
  ret {| id := None;
         location := location;
         lat := lat;
         lon := lon;
         timestamp_utc := timestamp_utc;
         temp_c := temp_c;
         temp_k := temp_k;
         feels_like_c := feels_like_c;
         humidity := humidity;
         pressure := pressure;
         wind_speed := wind_speed;
         wind_deg := wind_deg;
         weather_main := weather_main;
         weather_description := weather_description;
         raw_json := json_dumps env raw_data;
         fetched_at_utc := fetched_at |}.

(** [WeatherAPIClient.validate_weather_data]: accepts everything. *)
Definition WeatherAPIClient_validate_weather_data
    (observation : WeatherObservation) : M bool :=
  ret true.

(** What [fetch_and_transform_location] asks of its [api_client] argument. *)
Record ApiClient : Type := {
  fetch_weather_data : pystr -> M pyval;
  transform_weather_data : pystr -> pyval -> M WeatherObservation;
  validate_weather_data : WeatherObservation -> M bool
}.

Definition WeatherAPIClient : ApiClient :=
  {| fetch_weather_data := WeatherAPIClient_fetch_weather_data;
     transform_weather_data := WeatherAPIClient_transform_weather_data;
     validate_weather_data := WeatherAPIClient_validate_weather_data |}.

(** What one pass through the body of a [for] loop decides: to return from
    the function, or to go on with the next item. *)
Inductive flow (A : Type) : Type :=
| Return (a : A)
| Next.
Arguments Return {A} a.
Arguments Next {A}.

(** [range(n)]. *)
Definition py_range (n : Z) : list Z :=
  List.map Z.of_nat (seq 0 (Z.to_nat n)).

(** The body of the loop of [fetch_and_transform_location]. *)
Definition attempt_once (location : pystr) (api_client : ApiClient)
    (attempt : Z) : M (flow (option WeatherObservation)) :=
  try_except
    (raw_data <- fetch_weather_data api_client location ;;
     observation <- transform_weather_data api_client location raw_data ;;
     valid <- validate_weather_data api_client observation ;;
     if valid : bool then
       log INFO "Successfully processed weather data for {location}" ;;
       ret (Return (Some observation))
     else
       log WARNING "Invalid weather data for {location}" ;;
       ret (Return None))
    (fun e =>
       if is_WeatherAPIError e then
         if attempt <? MAX_RETRIES Config - 1 then
           log WARNING "Attempt {attempt + 1} failed for {location}. Retrying in {Config.RETRY_DELAY_SECONDS} seconds..." ;;
           time_sleep (RETRY_DELAY_SECONDS Config) ;;
           ret Next
         else
           log ERROR "All retries failed for {location}: {e}" ;;
           ret (Return None)
       else
         log ERROR "Unexpected error processing {location}: {e}" ;;
         ret (Return None)).

Fixpoint retry_loop (location : pystr) (api_client : ApiClient)
    (attempts : list Z) : M (option WeatherObservation) :=
  match attempts with
  | [] => ret None
  | attempt :: rest =>
      f <- attempt_once location api_client attempt ;;
      match f with
      | Return r => ret r
      | Next => retry_loop location api_client rest
      end
  end.

(** [fetch_and_transform_location(location, api_client)]. *)
Definition fetch_and_transform_location (location : pystr)
    (api_client : ApiClient) : M (option WeatherObservation) :=
  retry_loop location api_client (py_range (MAX_RETRIES Config)).

(* ------------------------------------------------------------------ *)
(** *** The observation store ([models.py], [DatabaseManager]) *)

(** A call into the world that changes nothing else of the state. *)
Definition world_call {A} (f : World -> result A * World) : M A :=
  fun s => let (r, w) := f (world s) in (r, set_world w s).

(** [self.get_session()]. *)
Definition get_session : M unit := world_call (open_session env).

(** [session.add(observation); session.commit()]: on success the row is
    appended with the next value of the autoincrement key; on failure the
    table is left as it was. *)
Definition session_add_commit (observation : WeatherObservation) : M unit :=
  fun s =>
    match session_commit env observation (world s) with
    | (Ok _, w) =>
        (Ok tt,
         {| world := w; trace := trace s;
            table := table s
                     ++ [with_id (Z.of_nat (List.length (table s)) + 1)
                                 observation] |})
    | (Raise e, w) => (Raise e, set_world w s)
    end.

(** [DatabaseManager.save_weather_observation]. *)
Definition DatabaseManager_save_weather_observation
    (observation : WeatherObservation) : M bool :=
  get_session ;;
  try_except
    (session_add_commit observation ;;
     ret true)
    (fun e => (* session.rollback(); print(...) *) ret false).

(** [ORDER BY fetched_at_utc DESC].  SQL leaves the order of rows with equal
    keys open; here they keep their insertion order. *)
Fixpoint insert_desc (o : WeatherObservation) (l : list WeatherObservation)
    : list WeatherObservation :=
  match l with
  | [] => [o]
  | x :: r =>
      if fetched_at_utc x <=? fetched_at_utc o then o :: l
      else x :: insert_desc o r
  end.

Definition order_by_fetched_at_desc (rows : list WeatherObservation)
    : list WeatherObservation :=
  fold_right insert_desc [] rows.

(** [LIMIT n]: SQLite reads a negative limit as no limit. *)
Definition sql_limit {A} (n : Z) (rows : list A) : list A :=
  if n <? 0 then rows else firstn (Z.to_nat n) rows.

(** [DatabaseManager.get_latest_observations]. *)
Definition DatabaseManager_get_latest_observations (limit : Z)
    : M (list WeatherObservation) :=
  get_session ;;
  fun s => (Ok (sql_limit limit (order_by_fetched_at_desc (table s))), s).

(** [datetime('now', '-{} minutes'.format(n))].  For a negative [n] the text
    is ['--5 minutes'], which SQLite rejects as a modifier: the value is
    NULL. *)
Definition sqlite_now_minus_minutes (now : datetime) (n : Z)
    : option datetime :=
  if n <? 0 then None else Some (now - n * 60 * 1000000).

(** The groups of [GROUP BY location], in order of first appearance. *)
Fixpoint group_by_location (rows : list WeatherObservation) : list pystr :=
  match rows with
  | [] => []
  | r :: rest =>
      location r ::
      filter (fun l => negb (pystr_eqb l (location r)))
             (group_by_location rest)
  end.

(** [MAX(fetched_at_utc)] over the rows of one group. *)
Fixpoint max_fetched_at (loc : pystr) (rows : list WeatherObservation)
    : option datetime :=
  match rows with
  | [] => None
  | r :: rest =>
      if pystr_eqb (location r) loc then
        match max_fetched_at loc rest with
        | Some m => Some (Z.max (fetched_at_utc r) m)
        | None => Some (fetched_at_utc r)
        end
      else max_fetched_at loc rest
  end.

(** [SELECT location, MAX(fetched_at_utc) ... GROUP BY location
     HAVING MAX(fetched_at_utc) < cutoff]; a comparison with NULL is never
    true. *)
Definition select_stale (rows : list WeatherObservation)
    (cutoff : option datetime) : list (pystr * datetime) :=
  flat_map
    (fun loc =>
       match max_fetched_at loc rows, cutoff with
       | Some latest_fetch, Some c =>
           if latest_fetch <? c then [(loc, latest_fetch)] else []
       | _, _ => []
       end)
    (group_by_location rows).

(** [DatabaseManager.get_stale_locations]. *)
Definition DatabaseManager_get_stale_locations (minutes_threshold : Z)
    : M (list (pystr * datetime)) :=
  get_session ;;
  fun s =>
    (Ok (select_stale (table s)
           (sqlite_now_minus_minutes (sqlite_now env (world s))
                                     minutes_threshold)),
     s).

(** The methods of the store the pipeline calls. *)
Record DbManager : Type := {
  save_weather_observation : WeatherObservation -> M bool;
  get_latest_observations : Z -> M (list WeatherObservation);
  get_stale_locations : Z -> M (list (pystr * datetime))
}.

Definition DatabaseManager : DbManager :=
  {| save_weather_observation := DatabaseManager_save_weather_observation;
     get_latest_observations := DatabaseManager_get_latest_observations;
     get_stale_locations := DatabaseManager_get_stale_locations |}.

(* ------------------------------------------------------------------ *)
(** *** The read API ([api.py]) *)

(** SQLite's [sqlite3Tolower] on an ASCII character. *)
Definition ascii_tolower (c : N) : N :=
  (if (0x41 <=? c) && (c <=? 0x5A) then c + 0x20 else c)%N.

(** Two characters agree for LIKE: equal, or both ASCII and equal up to
    case. *)
Definition like_char_eq (c c2 : N) : bool :=
  (N.eqb c c2
   || ((c <? 0x80) && (c2 <? 0x80)
       && N.eqb (ascii_tolower c) (ascii_tolower c2)))%N.

(** [str LIKE pattern] in SQLite with no ESCAPE clause: [%] stands for any
    run of characters, [_] for any one character. *)
Fixpoint like (pattern : pystr) : pystr -> bool :=
  match pattern with
  | [] => fun str => match str with [] => true | _ => false end
  | c :: pattern' =>
      if N.eqb c percent then
        fix skip (str : pystr) : bool :=
          like pattern' str
          || match str with
             | [] => false
             | _ :: str' => skip str'
             end
      else
        fun str =>
          match str with
          | [] => false
          | c2 :: str' =>
              (N.eqb c underscore || like_char_eq c c2) && like pattern' str'
          end
  end.

(** The query of [get_weather_by_location]:
    [filter(location.like(f"{location}%")).order_by(fetched_at_utc.desc())
     .first()]. *)
Definition latest_for (rows : list WeatherObservation) (location_ : pystr)
    : option WeatherObservation :=
  hd_error
    (order_by_fetched_at_desc
       (filter (fun r => like (location_ ++ [percent]) (location r)) rows)).

Inductive http_reply : Type :=
| Reply200 (row : WeatherObservation)   (* the row the JSON body is made of *)
| Reply404
| Reply500.

(** [get_weather_by_location(location)]; the shaping of the row into the
    JSON body is left out. *)
Definition get_weather_by_location (location_ : pystr) : M http_reply :=
  try_except
    (get_session ;;
     fun s =>
       match latest_for (table s) location_ with
       | Some observation => (Ok (Reply200 observation), s)
       | None => (Ok Reply404, s)
       end)
    (fun e => ret Reply500).

(* ------------------------------------------------------------------ *)
(** *** The orchestrator ([pipeline.py], [WeatherETLPipeline]) *)

Record WeatherETLPipeline : Type := {
  db_manager : DbManager;
  api_client : ApiClient
}.

(** [WeatherETLPipeline()]: building the [DatabaseManager] opens the
    database and creates the tables, which can fail. *)
Definition WeatherETLPipeline_init : M WeatherETLPipeline :=
  world_call (create_engine env) ;;
  ret {| db_manager := DatabaseManager; api_client := WeatherAPIClient |}.

(** The [for] loop of [_process_locations], with the list [observations]
    built so far. *)
Fixpoint process_loop (self : WeatherETLPipeline) (locations : list pystr)
    (observations : list WeatherObservation) : M (list WeatherObservation) :=
  match locations with
  | [] => ret observations
  | location_ :: rest =>
      let location_ := strip location_ in
      match location_ with
      | [] => process_loop self rest observations            (* continue *)
      | _ =>
          observations' <-
            try_except
              (observation <-
                 fetch_and_transform_location location_ (api_client self) ;;
               match observation with
               | Some o => ret (observations ++ [o])
               | None => ret observations
               end)
              (fun e =>
                 log ERROR "Failed to process location {location}: {e}" ;;
                 ret observations) ;;
          process_loop self rest observations'
      end
  end.

(** [WeatherETLPipeline._process_locations]. *)
Definition _process_locations (self : WeatherETLPipeline)
    : M (list WeatherObservation) :=
  log INFO "Processing {len(Config.LOCATIONS)} locations" ;;
  process_loop self (LOCATIONS Config) [].

(** The [for] loop of [_save_observations], with the count so far. *)
Fixpoint save_loop (self : WeatherETLPipeline)
    (observations : list WeatherObservation) (saved_count : Z) : M Z :=
  match observations with
  | [] => ret saved_count
  | observation :: rest =>
      saved_count' <-
        try_except
          (saved <- save_weather_observation (db_manager self) observation ;;
           if saved : bool then ret (saved_count + 1)
           else
             log WARNING "Failed to save observation for {observation.location}" ;;
             ret saved_count)
          (fun e =>
             log ERROR "Error saving observation for {observation.location}: {e}" ;;
             ret saved_count) ;;
      save_loop self rest saved_count'
  end.

(** [WeatherETLPipeline._save_observations]. *)
Definition _save_observations (self : WeatherETLPipeline)
    (observations : list WeatherObservation) : M Z :=
  log INFO "Saving {len(observations)} observations to database" ;;
  saved_count <- save_loop self observations 0 ;;
  log INFO "Successfully saved {saved_count}/{len(observations)} observations" ;;
  ret saved_count.

(** Truth value of an [Optional[str]]. *)
Definition truthy_opt (o : option pystr) : bool :=
  match o with
  | Some (_ :: _) => true
  | _ => false
  end.

(** [s.replace(' ', '_')]. *)
Definition spaces_to_underscores (s : pystr) : pystr :=
  List.map (fun c => if N.eqb c 0x20 then underscore else c) s.

(** A [WeatherObservation] object as the pipeline holds it once
    [_save_observations] has gone over the list: its attribute values, and
    whether the ORM has expired them.  [session.commit()] expires the
    attributes of the object it has written ([expire_on_commit] is left at
    its default in [sessionmaker]) and [session.close()] detaches the
    object; reading an attribute of such an object raises
    [DetachedInstanceError], a [SQLAlchemyError].  An object whose commit
    failed is expunged by [session.rollback()] with its attributes as they
    were. *)
Record held : Type := {
  expired : bool;
  attributes : WeatherObservation
}.

(** [observation.attribute]. *)
Definition getattr {A} (observation : held)
    (attribute : WeatherObservation -> A) : M A :=
  if expired observation then raise SQLAlchemyError
  else ret (attribute (attributes observation)).

(** The objects of the list as the loop of [_save_observations], run from
    the state [s], leaves them: an object is expired when its pass through
    the loop counted it as saved, that is, when
    [save_weather_observation] committed it and returned [True]. *)
Fixpoint after_save_loop (self : WeatherETLPipeline)
    (observations : list WeatherObservation) : St -> list held :=
  fun s =>
    match observations with
    | [] => []
    | observation :: rest =>
        let (saved_count, s') := save_loop self [observation] 0 s in
        {| expired := match saved_count with
                      | Ok n => 1 <=? n
                      | Raise _ => false
                      end;
           attributes := observation |}
        :: after_save_loop self rest s'
    end.

(** What a call of [_save_observations] in the current state makes of the
    objects of the list.  The method returns the count only; the objects
    are changed in place, and the caller goes on with the same list. *)
Definition after_save (self : WeatherETLPipeline)
    (observations : list WeatherObservation) : M (list held) :=
  fun s =>
    (Ok (after_save_loop self observations
           (emit (EvLog INFO "Saving {len(observations)} observations to database") s)),
     s).

(** The [for] loop of [_push_to_s3].  The key is built from
    [observation.location] before anything else; each [except] clause reads
    [observation.location] again for its log line, so that an exception of
    that read leaves the loop. *)
Fixpoint push_loop (bucket : pystr) (observations : list held)
    (pushed_count : Z) : M Z :=
  match observations with
  | [] => ret pushed_count
  | observation :: rest =>
      pushed_count' <-
        try_except
          (location_ <- getattr observation location ;;
           now <- datetime_now ;;
           let key := py "weather_raw/"
                      ++ spaces_to_underscores location_
                      ++ py "/" ++ strftime env now ++ py ".json" in
           body <- getattr observation raw_json ;;
           world_call (put_object env bucket key body) ;;
           log DEBUG "Pushed raw JSON to s3://{Config.S3_BUCKET}/{key}" ;;
           ret (pushed_count + 1))
          (fun e =>
             match e with
             | BotoCoreError | ClientError =>
                 getattr observation location ;;
                 log ERROR "Failed to push to S3 for {observation.location}: {e}"
             | _ =>
                 getattr observation location ;;
                 log ERROR "Unexpected error pushing to S3 for {observation.location}: {e}"
             end ;;
             ret pushed_count) ;;
      push_loop bucket rest pushed_count'
  end.

(** [WeatherETLPipeline._push_to_s3]. *)
Definition _push_to_s3 (self : WeatherETLPipeline)
    (observations : list held) : M bool :=
  match S3_BUCKET Config with
  | Some ((_ :: _) as bucket) =>
      imported <-
        try_except (world_call (import_boto3 env) ;; ret true)
          (fun e =>
             match e with
             | ImportError =>
                 log ERROR "boto3 not installed. Cannot push to S3." ;;
                 ret false
             | _ => raise e
             end) ;;
      if imported : bool then
        log INFO "Pushing {len(observations)} raw JSON files to S3" ;;
        try_except
          (world_call (boto3_client env) ;;
           pushed_count <- push_loop bucket observations 0 ;;
           log INFO "Successfully pushed {pushed_count}/{len(observations)} files to S3" ;;
           ret true)
          (fun e =>
             log ERROR "Failed to initialize S3 client: {e}" ;;
             ret false)
      else ret false
  | _ =>
      log WARNING "S3_BUCKET not configured. Skipping S3 push." ;;
      ret false
  end.

(** [WeatherETLPipeline.run_etl]; the two readings of [time.time()] serve
    the closing log line only.  [_push_to_s3] is handed the list
    [_save_observations] has gone over, with its objects as the saving
    left them. *)
Definition run_etl (self : WeatherETLPipeline) : M bool :=
  log INFO "Starting Weather ETL Pipeline" ;;
  try_except
    (observations <- _process_locations self ;;
     saved_observations <- after_save self observations ;;
     saved_count <- _save_observations self observations ;;
     (if PUSH_TO_S3 Config && truthy_opt (S3_BUCKET Config)
      then _push_to_s3 self saved_observations ;; ret tt
      else ret tt) ;;
     log INFO "ETL Pipeline completed successfully. Processed {len(observations)} locations, saved {saved_count} records. Duration: {end_time - start_time:.2f} seconds" ;;
     ret true)
    (fun e =>
       log ERROR "ETL Pipeline failed: {e}" ;;
       ret false).

(** [run_pipeline()]. *)
Definition run_pipeline : M bool :=
  pipeline <- WeatherETLPipeline_init ;;
  run_etl pipeline.

(* ------------------------------------------------------------------ *)
(** *** The scheduler ([scheduler.py], [WeatherScheduler]) *)

(** A job of the [schedule] library: its period and the time of its next
    run.  The library is not part of the repository; its model follows its
    documented behaviour: [every(n).<unit>.do(f)] registers a job whose next
    run is one period from now; [run_pending()] runs each job whose next run
    is not in the future and then moves its next run one period past the
    time the run ended. *)
Record Job : Type := {
  period_us : Z;
  next_run : datetime
}.

(** The fields of a [WeatherScheduler] and the job list of [schedule]. *)
Record Scheduler : Type := {
  interval_hours : Z;
  _running : bool;
  jobs : list Job
}.

Definition set_running (b : bool) (self : Scheduler) : Scheduler :=
  {| interval_hours := interval_hours self; _running := b;
     jobs := jobs self |}.

Definition set_jobs (js : list Job) (self : Scheduler) : Scheduler :=
  {| interval_hours := interval_hours self; _running := _running self;
     jobs := js |}.

Definition WeatherScheduler_init : Scheduler :=
  {| interval_hours := SCHEDULE_INTERVAL_HOURS Config; _running := false;
     jobs := [] |}.

Section Scheduling.

(** What the name [run_pipeline] is bound to in [scheduler.py]: one ETL
    cycle.  The pipeline's own [run_pipeline] is the intended instance; the
    scheduler's code does not depend on which it is. *)
Variable cycle : M bool.

(** [WeatherScheduler._run_etl_job]. *)
Definition _run_etl_job : M unit :=
  try_except
    (log INFO "Starting scheduled ETL job" ;;
     success <- cycle ;;
     if success : bool then log INFO "Scheduled ETL job completed successfully"
     else log ERROR "Scheduled ETL job failed")
    (fun e => log ERROR "Error in scheduled ETL job: {e}").

(** [schedule.every(n).hours.do(job)] and [schedule.every(n).minutes.do(job)],
    with the period already in microseconds. *)
Definition schedule_every (period : Z) (now : datetime) (js : list Job)
    : list Job :=
  js ++ [{| period_us := period; next_run := now + period |}].

Definition HOUR_US : Z := 3600 * 1000000.
Definition MINUTE_US : Z := 60 * 1000000.

(** [WeatherScheduler.start_scheduler]; the thread it starts runs
    [_run_scheduler]. *)
Definition start_scheduler (self : Scheduler) : St -> Scheduler * St :=
  fun s =>
    if negb (SCHEDULE_AVAILABLE env) then
      (self,
       emit (EvLog ERROR "Schedule library not installed. Cannot start scheduler.") s)
    else if _running self then
      (self, emit (EvLog WARNING "Scheduler is already running") s)
    else
      let self := set_running true self in
      let now := clock_us env (world s) in
      let self :=
        if 1 <=? interval_hours self
        then set_jobs (schedule_every (interval_hours self * HOUR_US) now
                                      (jobs self)) self
        else set_jobs (schedule_every (interval_hours self * 60 * MINUTE_US)
                                      now (jobs self)) self in
      (self,
       emit (EvLog INFO "Scheduler started. ETL pipeline will run every {interval_minutes} minute(s)") s).

(** [WeatherScheduler.stop_scheduler]; the bounded [join] is not modelled. *)
Definition stop_scheduler (self : Scheduler) : St -> Scheduler * St :=
  fun s =>
    if negb (SCHEDULE_AVAILABLE env) then (self, s)
    else if negb (_running self) then
      (self, emit (EvLog WARNING "Scheduler is not running") s)
    else
      (set_jobs [] (set_running false self),
       emit (EvLog INFO "Scheduler stopped") s).

(** The jobs of [schedule.run_pending()], one after the other.  [now] is the
    time at which the library decided which jobs are due. *)
Fixpoint run_jobs (now : datetime) (js : list Job)
    : St -> result unit * list Job * St :=
  match js with
  | [] => fun s => (Ok tt, [], s)
  | j :: rest =>
      fun s =>
        if next_run j <=? now then
          match _run_etl_job s with
          | (Ok _, s1) =>
              let j' := {| period_us := period_us j;
                           next_run := clock_us env (world s1) + period_us j |} in
              let '(r, rest', s2) := run_jobs now rest s1 in
              (r, j' :: rest', s2)
          | (Raise e, s1) => (Raise e, j :: rest, s1)
          end
        else
          let '(r, rest', s2) := run_jobs now rest s in
          (r, j :: rest', s2)
  end.

(** [schedule.run_pending()]. *)
Definition run_pending (self : Scheduler)
    : St -> result unit * Scheduler * St :=
  fun s =>
    let '(r, js, s') := run_jobs (clock_us env (world s)) (jobs self) s in
    (r, set_jobs js self, s').

(** How a bounded run of the scheduling loop ends. *)
Inductive loop_end : Type :=
| LoopExited        (* the [while] condition was found false *)
| LoopStillRunning. (* the given number of iterations was completed *)

(** One pass through the body of the [while] loop of [_run_scheduler].  The
    [except KeyboardInterrupt] clause is left out: the loop runs on a
    background thread, and CPython delivers that exception to the main
    thread only. *)
Definition scheduler_tick (self : Scheduler)
    : St -> result unit * Scheduler * St :=
  fun s =>
    match run_pending self s with
    | (Ok _, self', s1) =>
        match time_sleep 60 s1 with
        | (Ok _, s2) => (Ok tt, self', s2)
        | (Raise e, s2) =>
            let (r, s3) :=
              (log ERROR "Error in scheduler loop: {e}" ;; time_sleep 60) s2 in
            (r, self', s3)
        end
    | (Raise e, self', s1) =>
        let (r, s2) :=
          (log ERROR "Error in scheduler loop: {e}" ;; time_sleep 60) s1 in
        (r, self', s2)
    end.

(** The [while] loop of [_run_scheduler], for at most [iterations] passes. *)
Fixpoint scheduler_loop (iterations : nat) (self : Scheduler)
    : St -> result loop_end * Scheduler * St :=
  match iterations with
  | O => fun s => (Ok LoopStillRunning, self, s)
  | S n =>
      fun s =>
        if _running self then
          match scheduler_tick self s with
          | (Ok _, self', s') => scheduler_loop n self' s'
          | (Raise e, self', s') => (Raise e, self', s')
          end
        else (Ok LoopExited, self, s)
  end.

(** [WeatherScheduler._run_scheduler]. *)
Definition _run_scheduler (iterations : nat) (self : Scheduler)
    : St -> result loop_end * Scheduler * St :=
  fun s =>
    if negb (SCHEDULE_AVAILABLE env) then (Ok LoopExited, self, s)
    else scheduler_loop iterations self s.

End Scheduling.

(* ------------------------------------------------------------------ *)
(** *** Notions used to state the properties *)

(** The key is not among the entries of the payload. *)
Definition missing (key : pystr) (raw_data : pyval) : bool :=
  match raw_data with
  | PyDict kvs => match dict_get key kvs with None => true | Some _ => false end
  | _ => false
  end.

(** [raw_data[outer][inner]], when both keys are there and the outer value
    is an object. *)
Definition nested_field (outer inner : pystr) (raw_data : pyval)
    : option pyval :=
  match raw_data with
  | PyDict kvs =>
      match dict_get outer kvs with
      | Some (PyDict m) => dict_get inner m
      | _ => None
      end
  | _ => None
  end.

Definition or_none (o : option pyval) : pyval :=
  match o with Some v => v | None => PyNone end.


(** A nested object is left out or is an object. *)
Definition object_if_present (key : pystr) (kvs : list (pystr * pyval))
    : bool :=
  match dict_get key kvs with
  | None | Some (PyDict _) => true
  | Some _ => false
  end.

(** A Kelvin reading is left out, null, or a number a float can hold. *)
Definition kelvin_if_present (key : pystr) (m : list (pystr * pyval))
    : bool :=
  match dict_get key m with
  | None => true
  | Some v => is_ok (celsius_of v)
  end.

Definition main_if_present (kvs : list (pystr * pyval)) : bool :=
  match dict_get (py "main") kvs with
  | None => true
  | Some (PyDict m) =>
      kelvin_if_present (py "temp") m && kelvin_if_present (py "feels_like") m
  | Some _ => false
  end.

(** [weather] is left out, empty or null, or a list that starts with an
    object. *)
Definition weather_if_present (kvs : list (pystr * pyval)) : bool :=
  match dict_get (py "weather") kvs with
  | None => true
  | Some v =>
      if truthy v then
        match v with
        | PyList (PyDict _ :: _) => true
        | _ => false
        end
      else true
  end.

(** [dt], or the clock in its place, is a timestamp [datetime] accepts. *)
Definition timestamp_if_present (now : datetime) (kvs : list (pystr * pyval))
    : bool :=
  match dict_get (py "dt") kvs with
  | None => is_ok (fromtimestamp (PyInt (Z.quot now 1000000)))
  | Some v => is_ok (fromtimestamp v)
  end.

(** The payload has the provider's shape wherever it says anything: it is
    an object, and each part that is present is well formed.  Nothing is
    required to be present. *)
Definition well_formed_where_present (now : datetime) (raw_data : pyval)
    : bool :=
  match raw_data with
  | PyDict kvs =>
      timestamp_if_present now kvs
      && main_if_present kvs
      && object_if_present (py "wind") kvs
      && object_if_present (py "coord") kvs
      && weather_if_present kvs
  | _ => false
  end.

(** What one configured location adds to the cycle, and the state it leaves:
    nothing for a blank entry, the observation when
    [fetch_and_transform_location] gives one, nothing when it gives [None]
    or raises. *)
Definition location_outcome (self : WeatherETLPipeline) (location_ : pystr)
    : St -> list WeatherObservation * St :=
  fun s =>
    match strip location_ with
    | [] => ([], s)
    | stripped =>
        match fetch_and_transform_location stripped (api_client self) s with
        | (Ok (Some o), s') => ([o], s')
        | (Ok None, s') => ([], s')
        | (Raise e, s') =>
            ([], emit (EvLog ERROR "Failed to process location {location}: {e}") s')
        end
    end.

(** The locations handled one after the other, each from the state the
    previous one left, whatever its outcome was. *)
Fixpoint cycle_outcomes (self : WeatherETLPipeline) (locations : list pystr)
    : St -> list WeatherObservation * St :=
  fun s =>
    match locations with
    | [] => ([], s)
    | l :: rest =>
        let (obs, s1) := location_outcome self l s in
        let (more, s2) := cycle_outcomes self rest s1 in
        (obs ++ more, s2)
    end.

(** What offering one observation to the store adds to the count of saved
    observations, and the state it leaves. *)
Definition save_outcome (self : WeatherETLPipeline)
    (observation : WeatherObservation) : St -> Z * St :=
  fun s =>
    match save_weather_observation (db_manager self) observation s with
    | (Ok true, s') => (1, s')
    | (Ok false, s') =>
        (0, emit (EvLog WARNING "Failed to save observation for {observation.location}") s')
    | (Raise e, s') =>
        (0, emit (EvLog ERROR "Error saving observation for {observation.location}: {e}") s')
    end.

(** Every observation of the list offered once, in order. *)
Fixpoint save_outcomes (self : WeatherETLPipeline)
    (observations : list WeatherObservation) : St -> Z * St :=
  fun s =>
    match observations with
    | [] => (0, s)
    | o :: rest =>
        let (n, s1) := save_outcome self o s in
        let (m, s2) := save_outcomes self rest s1 in
        (n + m, s2)
    end.

(** Outcomes of [requests.get] by kind of failure. *)
Definition source_unavailable (r : result Response) : bool :=
  match r with
  | Raise ConnectionError | Raise Timeout => true
  | _ => false
  end.

Definition bad_status (response : Response) : bool :=
  (400 <=? status_code response) && (status_code response <? 600).

Definition malformed_response (r : result Response) : bool :=
  match r with
  | Ok response =>
      negb (bad_status response)
      && match decoded_body response with None => true | Some _ => false end
  | Raise _ => false
  end.

(** Any of the failures [fetch_weather_data] turns into [WeatherAPIError]. *)
Definition fetch_failure (r : result Response) : bool :=
  match r with
  | Raise e => is_RequestException e || is_JSONDecodeError e
  | Ok response =>
      bad_status response
      || match decoded_body response with None => true | Some _ => false end
  end.

(** The request [fetch_weather_data] sends for a location. *)
Definition request_for (location_ : pystr) : event :=
  EvRequest (OWM_API_BASE_URL Config)
    ([(py "appid", OWM_API_KEY Config)]
     ++ (if contains comma location_
            && forallb looks_numeric (firstn 2 (split comma location_))
         then match firstn 2 (split comma location_) with
              | [lat_; lon_] => [(py "lat", strip lat_); (py "lon", strip lon_)]
              | _ => []
              end
         else [(py "q", location_)])).

(** The first row of a list is its newest. *)
Definition newest_first (l : list WeatherObservation) : Prop :=
  forall h, hd_error l = Some h ->
  forall y, In y l -> fetched_at_utc y <= fetched_at_utc h.

(** A client like [WeatherAPIClient] whose plausibility check rejects every
    observation: what the [validate] hook is there for. *)
Definition rejecting_client : ApiClient :=
  {| fetch_weather_data := WeatherAPIClient_fetch_weather_data;
     transform_weather_data := WeatherAPIClient_transform_weather_data;
     validate_weather_data := fun _ => ret false |}.

(** The body [fetch_weather_data] hands to its caller: the decoded body of
    a response whose status is not an error. *)
Definition good_response (r : result Response) : option pyval :=
  match r with
  | Ok response =>
      if bad_status response then None else decoded_body response
  | Raise _ => None
  end.

(** The request goes to the configured URL with the parameters of the
    location. *)
Definition params_for (location_ : pystr) : list (pystr * pystr) :=
  match request_for location_ with
  | EvRequest _ params => params
  | _ => []
  end.

(** The answer the world gives to the request for a location, and the world
    it leaves. *)
Definition answer_for (location_ : pystr) (w : World)
    : result Response * World :=
  requests_get env (OWM_API_BASE_URL Config) (params_for location_)
               (OWM_API_TIMEOUT Config) w.

(** A string with its ASCII capitals made small. *)
Definition ascii_lower (s : pystr) : pystr := List.map ascii_tolower s.

(* ================================================================== *)
(** ** Properties *)

(** *** Transformation *)

Lemma pystr_eqb_eq (a b : pystr) : pystr_eqb a b = true <-> a = b.
Proof.
  revert b; induction a as [|x a IH]; intros [|y b]; simpl;
    try (split; [discriminate | congruence]); try tauto.
  rewrite andb_true_iff, N.eqb_eq, IH. split.
  - intros [-> ->]; reflexivity.
  - intros H; injection H; auto.
Qed.

Lemma pystr_eqb_refl (a : pystr) : pystr_eqb a a = true.
Proof. apply pystr_eqb_eq; reflexivity. Qed.
Arguments py : simpl never.

Lemma transform_leaves_state (location_ : pystr) (raw_data : pyval) (s : St) :
  snd (WeatherAPIClient_transform_weather_data location_ raw_data s) = s.
Proof.
  unfold WeatherAPIClient_transform_weather_data, bind, lift, ret,
    int_time_time, datetime_now.
  repeat match goal with
         | |- context [match ?x with Ok _ => _ | Raise _ => _ end] =>
             destruct x; try reflexivity
         end.
Qed.

Ltac split_shape H :=
  unfold well_formed_where_present in H;
  repeat rewrite andb_true_iff in H;
  destruct H as [[[[?Hdt ?Hmain] ?Hwind] ?Hcoord] ?Hweather].

Lemma transform_of_well_formed (location_ : pystr)
    (kvs : list (pystr * pyval)) (s : St) :
  let raw_data := PyDict kvs in
  well_formed_where_present (clock_us env (world s)) raw_data = true ->
  exists o,
    WeatherAPIClient_transform_weather_data location_ raw_data s = (Ok o, s)
    /\ location o = location_
    /\ fetched_at_utc o = clock_us env (world s)
    /\ temp_k o = or_none (nested_field (py "main") (py "temp") raw_data)
    /\ celsius_of (temp_k o) = Ok (temp_c o)
    /\ celsius_of (or_none (nested_field (py "main") (py "feels_like") raw_data))
       = Ok (feels_like_c o)
    /\ humidity o = or_none (nested_field (py "main") (py "humidity") raw_data)
    /\ pressure o = or_none (nested_field (py "main") (py "pressure") raw_data)
    /\ wind_speed o = or_none (nested_field (py "wind") (py "speed") raw_data)
    /\ wind_deg o = or_none (nested_field (py "wind") (py "deg") raw_data)
    /\ lat o = or_none (nested_field (py "coord") (py "lat") raw_data)
    /\ lon o = or_none (nested_field (py "coord") (py "lon") raw_data)
    /\ (missing (py "weather") raw_data = true ->
        weather_main o = PyNone /\ weather_description o = PyNone).
Proof.
  intros raw_data H; subst raw_data. split_shape H.
  unfold WeatherAPIClient_transform_weather_data, bind, lift, ret,
    int_time_time, datetime_now, py_get, nested_field, missing, or_none.
  unfold timestamp_if_present in Hdt.
  unfold main_if_present, kelvin_if_present in Hmain.
  unfold object_if_present in Hwind, Hcoord.
  unfold weather_if_present in Hweather.
  destruct (dict_get (py "dt") kvs) as [dt|];
    (destruct (fromtimestamp _) as [ts|]; [|discriminate]).
  all: destruct (dict_get (py "main") kvs) as [[| | | | | |m]|]; try discriminate.
  all: destruct (dict_get (py "wind") kvs) as [[| | | | | |w]|]; try discriminate.
  all: destruct (dict_get (py "coord") kvs) as [[| | | | | |c]|]; try discriminate.
  all: unfold py_or.
  all: destruct (dict_get (py "weather") kvs) as [v|];
    [ destruct (truthy v) eqn:Ev;
      [ destruct v as [| | | | |[|[| | | | | |wk] ?]|]; try discriminate | ]
    | ].
  all: cbn [truthy py_index0].
  all: try (rewrite andb_true_iff in Hmain; destruct Hmain as [Ht Hf]).
  all: repeat match goal with
         | Hx : context [dict_get ?k ?m] |- _ =>
             match type of Hx with
             | _ = true => destruct (dict_get k m)
             end
         end.
  all: repeat match goal with
         | Hx : is_ok (celsius_of ?v) = true |- _ =>
             destruct (celsius_of v) eqn:?; [clear Hx | discriminate Hx]
         end.
  all: cbn [celsius_of].
  all: eexists; repeat split; try reflexivity; try eassumption; try discriminate.
Qed.


(** Conversely, a payload on which [transform_weather_data] returns is well
    formed where present: the transformation raises only on a part that is
    there and malformed, never on a part that is missing. *)
Lemma transform_ok_only_if_well_formed (location_ : pystr) (raw_data : pyval)
    (s s' : St) (o : WeatherObservation) :
  WeatherAPIClient_transform_weather_data location_ raw_data s = (Ok o, s') ->
  well_formed_where_present (clock_us env (world s)) raw_data = true.
Proof.
  intros H. destruct raw_data as [| | | | | |kvs]; try discriminate H.
  unfold WeatherAPIClient_transform_weather_data, bind, lift, ret,
    int_time_time, datetime_now in H.
  cbn [py_get] in H.
  repeat match type of H with
         | match ?X with Ok _ => _ | Raise _ => _ end = _ =>
             destruct X eqn:?; [|discriminate H]
         end.
  clear H.
  match goal with
  | Hdt : fromtimestamp _ = Ok _,
    Hw : py_index0 _ = Ok ?w,
    Htemp : py_get _ (py "temp") _ = Ok ?tk, Htc : celsius_of ?tk = Ok _,
    Hfeels : py_get _ (py "feels_like") _ = Ok ?fk, Hfc : celsius_of ?fk = Ok _,
    Hlat : py_get _ (py "lat") _ = Ok _,
    Hspeed : py_get _ (py "speed") _ = Ok _,
    Hwmain : py_get ?w (py "main") _ = Ok _ |- _ =>
      unfold well_formed_where_present; repeat rewrite andb_true_iff;
      repeat split
  end.
  - unfold timestamp_if_present.
    destruct (dict_get (py "dt") kvs);
      match goal with Hdt : fromtimestamp _ = _ |- _ => rewrite Hdt end;
      reflexivity.
  - unfold main_if_present, kelvin_if_present.
    destruct (dict_get (py "main") kvs) as [[| | | | | |m]|];
      try discriminate; [|reflexivity].
    repeat match goal with
           | Hg : py_get (PyDict m) _ _ = Ok _ |- _ =>
               cbn [py_get] in Hg; injection Hg as <-
           end.
    destruct (dict_get (py "temp") m), (dict_get (py "feels_like") m);
      repeat match goal with
             | Hc : celsius_of _ = Ok _ |- _ => rewrite Hc; clear Hc
             end; reflexivity.
  - unfold object_if_present.
    destruct (dict_get (py "wind") kvs) as [[| | | | | |m]|];
      try discriminate; reflexivity.
  - unfold object_if_present.
    destruct (dict_get (py "coord") kvs) as [[| | | | | |m]|];
      try discriminate; reflexivity.
  - unfold weather_if_present. unfold py_or in *.
    destruct (dict_get (py "weather") kvs) as [v|]; [|reflexivity].
    destruct (truthy v) eqn:Ev; [|reflexivity].
    destruct v as [| | | |[|c str]|[|x l]|]; try discriminate.
    + match goal with
      | Hw : py_index0 _ = Ok _ |- _ => cbn in Hw; injection Hw as <-
      end.
      discriminate.
    + match goal with
      | Hw : py_index0 _ = Ok _ |- _ => cbn in Hw; injection Hw as <-
      end.
      destruct x; try discriminate; reflexivity.
Qed.




(** *** Retry *)

Lemma actions_app (a b : list event) : actions (a ++ b) = actions a ++ actions b.
Proof. unfold actions. apply filter_app. Qed.

Lemma actions_log (lvl : level) (msg : string) : actions [EvLog lvl msg] = [].
Proof. reflexivity. Qed.

Lemma actions_request (url : pystr) (params : list (pystr * pystr)) :
  actions [EvRequest url params] = [EvRequest url params].
Proof. reflexivity. Qed.

Lemma actions_sleep (secs : Z) : actions [EvSleep secs] = [EvSleep secs].
Proof. reflexivity. Qed.

Lemma trace_emit (ev : event) (s : St) : trace (emit ev s) = trace s ++ [ev].
Proof. reflexivity. Qed.

Lemma trace_set_world (w : World) (s : St) : trace (set_world w s) = trace s.
Proof. reflexivity. Qed.

Lemma table_emit (ev : event) (s : St) : table (emit ev s) = table s.
Proof. reflexivity. Qed.

Lemma table_set_world (w : World) (s : St) : table (set_world w s) = table s.
Proof. reflexivity. Qed.

Lemma world_emit (ev : event) (s : St) : world (emit ev s) = world s.
Proof. reflexivity. Qed.

Lemma world_set_world (w : World) (s : St) : world (set_world w s) = w.
Proof. reflexivity. Qed.

Create Rewrite HintDb state.
Hint Rewrite actions_app actions_log actions_request actions_sleep
  trace_emit trace_set_world table_emit table_set_world
  world_emit world_set_world app_nil_r : state.

(** Closes a goal about the state a run of straight-line code leaves. *)
Ltac state_done :=
  eexists; repeat split; autorewrite with state;
  rewrite <- ?app_assoc; reflexivity.

Lemma split_nonempty (sep : N) (s : pystr) : split sep s <> [].
Proof.
  destruct s as [|c r]; cbn; [discriminate|].
  destruct (N.eqb c sep); [discriminate|].
  destruct (split sep r); discriminate.
Qed.

Lemma split_two_parts (s : pystr) :
  contains comma s = true ->
  exists a b rest, split comma s = a :: b :: rest.
Proof.
  unfold contains.
  induction s as [|c r IH]; cbn [existsb split]; [discriminate|].
  rewrite (N.eqb_sym comma c).
  destruct (N.eqb c comma) eqn:E; cbn [orb].
  - intros _. destruct (split comma r) as [|p ps] eqn:Er.
    + exfalso; exact (split_nonempty _ _ Er).
    + eauto.
  - intros H. destruct (IH H) as (a & b & rest & ->). eauto.
Qed.

(** Building the query parameters never fails. *)
Lemma request_params_ok (location_ : pystr) (s : St) :
  exists params,
    request_params location_ s = (Ok params, s)
    /\ request_for location_ = EvRequest (OWM_API_BASE_URL Config) params.
Proof.
  unfold request_params, request_for.
  destruct (contains comma location_) eqn:Ec; cbn [andb].
  - destruct (split_two_parts _ Ec) as (a & b & rest & ->). cbn [firstn].
    destruct (forallb looks_numeric [a; b]); eexists; split; reflexivity.
  - eexists; split; reflexivity.
Qed.

(** A failed request becomes a [WeatherAPIError]; it has cost one request
    and nothing else. *)
Lemma fetch_weather_data_failure (location_ : pystr) (s : St) :
  (forall url params timeout w,
      fetch_failure (fst (requests_get env url params timeout w)) = true) ->
  exists s',
    WeatherAPIClient_fetch_weather_data location_ s = (Raise WeatherAPIError, s')
    /\ actions (trace s') = actions (trace s) ++ [request_for location_]
    /\ table s' = table s.
Proof.
  intros Hfail.
  destruct (request_params_ok location_ s) as (params & Hp & ->).
  unfold WeatherAPIClient_fetch_weather_data, bind. rewrite Hp.
  unfold try_except, bind, http_get.
  specialize (Hfail (OWM_API_BASE_URL Config) params (OWM_API_TIMEOUT Config)
                    (world s)).
  destruct (requests_get env _ _ _ (world s)) as [[response|e] w];
    cbn [fst] in Hfail.
  - unfold raise_for_status, response_json, fetch_failure, bad_status in *.
    destruct ((400 <=? status_code response) && (status_code response <? 600)).
    + cbn. state_done.
    + cbn in Hfail. destruct (decoded_body response); [discriminate|].
      cbn. state_done.
  - cbn in Hfail. cbn.
    destruct (is_RequestException e); cbn in *.
    + state_done.
    + rewrite Hfail. cbn. state_done.
Qed.

(** One failed attempt that is not the last: a request, a pause, and on to
    the next attempt. *)
Lemma attempt_once_failure_retry (location_ : pystr) (attempt : Z) (s : St) :
  (forall url params timeout w,
      fetch_failure (fst (requests_get env url params timeout w)) = true) ->
  0 <= RETRY_DELAY_SECONDS Config ->
  attempt < MAX_RETRIES Config - 1 ->
  exists s',
    attempt_once location_ WeatherAPIClient attempt s = (Ok Next, s')
    /\ actions (trace s')
       = actions (trace s)
         ++ [request_for location_; EvSleep (RETRY_DELAY_SECONDS Config)]
    /\ table s' = table s.
Proof.
  intros Hfail Hd Hlt.
  destruct (fetch_weather_data_failure location_ s Hfail) as (s1 & Hf & Ha & Ht).
  unfold attempt_once, try_except, bind. cbn [fetch_weather_data WeatherAPIClient].
  rewrite Hf. cbn [is_WeatherAPIError].
  apply Z.ltb_lt in Hlt. rewrite Hlt.
  unfold log, time_sleep, ret.
  assert (Hd' : (RETRY_DELAY_SECONDS Config <? 0) = false)
    by (apply Z.ltb_ge; exact Hd).
  rewrite Hd'.
  eexists; repeat split; autorewrite with state.
  - rewrite Ha, <- app_assoc. reflexivity.
  - exact Ht.
Qed.

(** The last attempt, failed: a request, and the function gives up. *)
Lemma attempt_once_failure_last (location_ : pystr) (attempt : Z) (s : St) :
  (forall url params timeout w,
      fetch_failure (fst (requests_get env url params timeout w)) = true) ->
  MAX_RETRIES Config - 1 <= attempt ->
  exists s',
    attempt_once location_ WeatherAPIClient attempt s = (Ok (Return None), s')
    /\ actions (trace s') = actions (trace s) ++ [request_for location_]
    /\ table s' = table s.
Proof.
  intros Hfail Hge.
  destruct (fetch_weather_data_failure location_ s Hfail) as (s1 & Hf & Ha & Ht).
  unfold attempt_once, try_except, bind. cbn [fetch_weather_data WeatherAPIClient].
  rewrite Hf. cbn [is_WeatherAPIError].
  apply Z.ltb_ge in Hge. rewrite Hge.
  unfold log, ret.
  eexists; repeat split; autorewrite with state.
  - rewrite Ha. reflexivity.
  - exact Ht.
Qed.

(** The loop from attempt [a] on, [k] attempts being left, when every
    request fails. *)
Lemma retry_loop_all_fail (location_ : pystr) :
  (forall url params timeout w,
      fetch_failure (fst (requests_get env url params timeout w)) = true) ->
  0 <= RETRY_DELAY_SECONDS Config ->
  forall (k a : nat) (s : St),
    Z.of_nat (a + k) = MAX_RETRIES Config ->
    exists s',
      retry_loop location_ WeatherAPIClient (List.map Z.of_nat (seq a k)) s
      = (Ok None, s')
      /\ actions (trace s')
         = actions (trace s)
           ++ retry_schedule (request_for location_)
                (EvSleep (RETRY_DELAY_SECONDS Config)) k
      /\ table s' = table s.
Proof.
  intros Hfail Hd.
  induction k as [|k IH]; intros a s Hak.
  - cbn. exists s. rewrite app_nil_r. auto.
  - cbn [seq List.map retry_loop]. unfold bind.
    destruct k as [|k'].
    + destruct (attempt_once_failure_last location_ (Z.of_nat a) s Hfail)
        as (s1 & Hrun & Ha & Ht); [lia|].
      rewrite Hrun. exists s1. cbn [retry_schedule]. auto.
    + destruct (attempt_once_failure_retry location_ (Z.of_nat a) s Hfail Hd)
        as (s1 & Hrun & Ha & Ht); [lia|].
      rewrite Hrun.
      destruct (IH (S a) s1) as (s2 & Hloop & Ha2 & Ht2); [lia|].
      exists s2. split; [exact Hloop|]. split.
      * rewrite Ha2, Ha, <- app_assoc. reflexivity.
      * congruence.
Qed.

Lemma requests_made_retry_schedule (url : pystr)
    (params : list (pystr * pystr)) (d : Z) (n : nat) :
  requests_made (retry_schedule (EvRequest url params) (EvSleep d) n) = n.
Proof.
  unfold requests_made.
  induction n as [|[|n] IH]; try reflexivity.
  change (S (List.length
               (filter is_request
                  (retry_schedule (EvRequest url params) (EvSleep d) (S n))))
          = S (S n)).
  rewrite IH. reflexivity.
Qed.

Lemma sleeps_retry_schedule (url : pystr) (params : list (pystr * pystr))
    (d : Z) (n : nat) :
  sleeps (retry_schedule (EvRequest url params) (EvSleep d) n)
  = repeat d (Nat.pred n).
Proof.
  induction n as [|[|n] IH]; try reflexivity.
  change (d :: sleeps (retry_schedule (EvRequest url params) (EvSleep d) (S n))
          = d :: repeat d n).
  rewrite IH. reflexivity.
Qed.

(** With every request failing, [fetch_and_transform_location] makes as
    many attempts as [range(MAX_RETRIES)] has elements. *)
Lemma fetch_and_transform_all_fail (location_ : pystr) (s : St) :
  (forall url params timeout w,
      fetch_failure (fst (requests_get env url params timeout w)) = true) ->
  0 <= RETRY_DELAY_SECONDS Config ->
  exists s',
    fetch_and_transform_location location_ WeatherAPIClient s = (Ok None, s')
    /\ actions (trace s')
       = actions (trace s)
         ++ retry_schedule (request_for location_)
              (EvSleep (RETRY_DELAY_SECONDS Config))
              (Z.to_nat (MAX_RETRIES Config))
    /\ table s' = table s.
Proof.
  intros Hfail Hd. unfold fetch_and_transform_location, py_range.
  destruct (Z.le_gt_cases 0 (MAX_RETRIES Config)) as [Hn|Hn].
  - apply (retry_loop_all_fail location_ Hfail Hd). lia.
  - replace (Z.to_nat (MAX_RETRIES Config)) with O by lia.
    cbn. exists s. rewrite app_nil_r. auto.
Qed.

Lemma requests_made_app (a b : list event) :
  requests_made (a ++ b) = (requests_made a + requests_made b)%nat.
Proof. unfold requests_made. rewrite filter_app, length_app. reflexivity. Qed.

Lemma sleeps_app (a b : list event) : sleeps (a ++ b) = sleeps a ++ sleeps b.
Proof. unfold sleeps. apply flat_map_app. Qed.

Lemma requests_made_actions (tr : list event) :
  requests_made (actions tr) = requests_made tr.
Proof.
  unfold requests_made, actions.
  induction tr as [|[lvl msg|url params|d] tr IH]; cbn; congruence.
Qed.

Lemma sleeps_actions (tr : list event) : sleeps (actions tr) = sleeps tr.
Proof.
  unfold sleeps, actions.
  induction tr as [|[lvl msg|url params|d] tr IH]; cbn; congruence.
Qed.

Lemma source_unavailable_is_failure (r : result Response) :
  source_unavailable r = true -> fetch_failure r = true.
Proof. destruct r as [response|[]]; cbn; congruence. Qed.

Lemma malformed_response_is_failure (r : result Response) :
  malformed_response r = true -> fetch_failure r = true.
Proof.
  destruct r as [response|e]; cbn; [|discriminate].
  rewrite andb_true_iff. intros [_ ->]. apply orb_true_r.
Qed.

(** A rejected observation ends the function at once, with [None]: exactly
    one fetch, one transformation and one validation have run. *)
Lemma validation_failure_not_retried (api_client : ApiClient)
    (location_ : pystr) (s s1 s2 s3 : St) (raw_data : pyval)
    (observation : WeatherObservation) :
  1 <= MAX_RETRIES Config ->
  fetch_weather_data api_client location_ s = (Ok raw_data, s1) ->
  transform_weather_data api_client location_ raw_data s1
  = (Ok observation, s2) ->
  validate_weather_data api_client observation s2 = (Ok false, s3) ->
  fetch_and_transform_location location_ api_client s
  = (Ok None, emit (EvLog WARNING "Invalid weather data for {location}") s3).
Proof.
  intros Hn Hf Ht Hv.
  unfold fetch_and_transform_location, py_range.
  destruct (Z.to_nat (MAX_RETRIES Config)) as [|n] eqn:E; [lia|].
  cbn [seq List.map retry_loop].
  unfold bind at 1. unfold attempt_once, try_except, bind.
  rewrite Hf, Ht, Hv. reflexivity.
Qed.

(** C2.  When the source is unavailable at every attempt,
    [fetch_and_transform_location] sends exactly [MAX_RETRIES] requests,
    sleeps [RETRY_DELAY_SECONDS] between consecutive requests and not after
    the last, and returns [None]. *)
Theorem retries_exhausted_when_source_unavailable (location_ : pystr)
    (s : St) :
  0 <= MAX_RETRIES Config ->
  0 <= RETRY_DELAY_SECONDS Config ->
  (forall url params timeout w,
      source_unavailable (fst (requests_get env url params timeout w)) = true) ->
  exists s',
    fetch_and_transform_location location_ WeatherAPIClient s = (Ok None, s')
    /\ actions (trace s')
       = actions (trace s)
         ++ retry_schedule (request_for location_)
              (EvSleep (RETRY_DELAY_SECONDS Config))
              (Z.to_nat (MAX_RETRIES Config))
    /\ Z.of_nat (requests_made (trace s'))
       = Z.of_nat (requests_made (trace s)) + MAX_RETRIES Config
    /\ sleeps (trace s')
       = sleeps (trace s)
         ++ repeat (RETRY_DELAY_SECONDS Config)
              (Z.to_nat (MAX_RETRIES Config - 1)).
Proof.
  intros Hn Hd Hdown.
  destruct (fetch_and_transform_all_fail location_ s) as (s' & Hrun & Ha & _).
  - intros; apply source_unavailable_is_failure, Hdown.
  - exact Hd.
  - exists s'. split; [exact Hrun|]. split; [exact Ha|]. split.
    + rewrite <- (requests_made_actions (trace s')), Ha, requests_made_app,
        requests_made_actions.
      unfold request_for. rewrite requests_made_retry_schedule. lia.
    + rewrite <- (sleeps_actions (trace s')), Ha, sleeps_app, sleeps_actions.
      unfold request_for. rewrite sleeps_retry_schedule.
      replace (Nat.pred (Z.to_nat (MAX_RETRIES Config)))
        with (Z.to_nat (MAX_RETRIES Config - 1)) by lia.
      reflexivity.
Qed.

(** C1, as the code has it.  An undecodable payload is a fetch failure like
    any other: when every response is undecodable the function makes
    [MAX_RETRIES] attempts, with the pause between them, before it returns
    [None].  A validation failure is not retried: the function returns
    [None] after the one attempt. *)
Theorem undecodable_payload_retried_rejection_not (location_ : pystr)
    (s : St) :
  0 <= MAX_RETRIES Config ->
  0 <= RETRY_DELAY_SECONDS Config ->
  ((forall url params timeout w,
       malformed_response (fst (requests_get env url params timeout w)) = true) ->
   exists s',
     fetch_and_transform_location location_ WeatherAPIClient s = (Ok None, s')
     /\ actions (trace s')
        = actions (trace s)
          ++ retry_schedule (request_for location_)
               (EvSleep (RETRY_DELAY_SECONDS Config))
               (Z.to_nat (MAX_RETRIES Config))
     /\ Z.of_nat (requests_made (trace s'))
        = Z.of_nat (requests_made (trace s)) + MAX_RETRIES Config)
  /\ (forall api_client s1 s2 s3 raw_data observation,
        1 <= MAX_RETRIES Config ->
        fetch_weather_data api_client location_ s = (Ok raw_data, s1) ->
        transform_weather_data api_client location_ raw_data s1
        = (Ok observation, s2) ->
        validate_weather_data api_client observation s2 = (Ok false, s3) ->
        fetch_and_transform_location location_ api_client s
        = (Ok None,
           emit (EvLog WARNING "Invalid weather data for {location}") s3)).
Proof.
  intros Hn Hd. split.
  - intros Hbad.
    destruct (fetch_and_transform_all_fail location_ s) as (s' & Hrun & Ha & _).
    + intros; apply malformed_response_is_failure, Hbad.
    + exact Hd.
    + exists s'. split; [exact Hrun|]. split; [exact Ha|].
      rewrite <- (requests_made_actions (trace s')), Ha, requests_made_app,
        requests_made_actions.
      unfold request_for. rewrite requests_made_retry_schedule. lia.
  - intros api_client s1 s2 s3 raw_data observation.
    apply validation_failure_not_retried.
Qed.

(** *** Orchestration *)

(** The loop of [_process_locations] never raises, and what it returns is
    what the locations contribute one by one. *)
Lemma process_loop_outcomes (self : WeatherETLPipeline)
    (locations : list pystr) :
  forall (observations : list WeatherObservation) (s : St),
    process_loop self locations observations s
    = (Ok (observations ++ fst (cycle_outcomes self locations s)),
       snd (cycle_outcomes self locations s)).
Proof.
  induction locations as [|l rest IH]; intros observations s.
  - cbn. rewrite app_nil_r. reflexivity.
  - cbn [process_loop cycle_outcomes]. unfold location_outcome.
    destruct (strip l) as [|c stripped] eqn:El.
    + rewrite IH. destruct (cycle_outcomes self rest s). reflexivity.
    + unfold bind at 1. unfold try_except, bind.
      destruct (fetch_and_transform_location (c :: stripped) (api_client self) s)
        as [[[o|]|e] s1]; cbn [ret log];
        rewrite IH; destruct (cycle_outcomes self rest _) as [more s2];
        cbn [fst snd]; rewrite <- ?app_assoc, ?app_nil_l; reflexivity.
Qed.

Lemma cycle_outcomes_app (self : WeatherETLPipeline)
    (before after : list pystr) (s : St) :
  cycle_outcomes self (before ++ after) s
  = (fst (cycle_outcomes self before s)
     ++ fst (cycle_outcomes self after (snd (cycle_outcomes self before s))),
     snd (cycle_outcomes self after (snd (cycle_outcomes self before s)))).
Proof.
  revert s. induction before as [|l before IH]; intros s.
  - cbn. destruct (cycle_outcomes self after s); reflexivity.
  - cbn [app cycle_outcomes].
    destruct (location_outcome self l s) as [obs s1].
    rewrite IH.
    destruct (cycle_outcomes self before s1) as [o1 s2]. cbn [fst snd].
    destruct (cycle_outcomes self after s2) as [o2 s3]. cbn [fst snd].
    rewrite app_assoc. reflexivity.
Qed.

(** C6.  [_process_locations] never raises: whatever happens to a location
    -- an observation, [None], or an exception out of
    [fetch_and_transform_location] -- the next location is handled from the
    state it left, and the cycle returns the observations of the locations
    that succeeded, in order.  What precedes a group of locations in the
    list decides only the state they start from. *)
Theorem failed_location_does_not_abort_cycle (self : WeatherETLPipeline)
    (s : St) :
  let s0 := emit (EvLog INFO "Processing {len(Config.LOCATIONS)} locations") s in
  _process_locations self s
  = (Ok (fst (cycle_outcomes self (LOCATIONS Config) s0)),
     snd (cycle_outcomes self (LOCATIONS Config) s0))
  /\ forall before after,
       LOCATIONS Config = before ++ after ->
       fst (cycle_outcomes self (LOCATIONS Config) s0)
       = fst (cycle_outcomes self before s0)
         ++ fst (cycle_outcomes self after
                   (snd (cycle_outcomes self before s0))).
Proof.
  intros s0. split.
  - unfold _process_locations, bind, log. fold s0.
    rewrite process_loop_outcomes. reflexivity.
  - intros before after ->. rewrite cycle_outcomes_app. reflexivity.
Qed.

Lemma lstrip_all_whitespace (entry : pystr) :
  forallb Py_UNICODE_ISSPACE entry = true -> lstrip entry = [].
Proof.
  induction entry as [|c r IH]; cbn [forallb lstrip]; [reflexivity|].
  rewrite andb_true_iff. intros [-> Hr]. exact (IH Hr).
Qed.

Lemma strip_all_whitespace (entry : pystr) :
  forallb Py_UNICODE_ISSPACE entry = true -> strip entry = [].
Proof.
  intros H. unfold strip. rewrite (lstrip_all_whitespace entry H). reflexivity.
Qed.

Lemma cycle_outcomes_skip_blank (self : WeatherETLPipeline)
    (before after : list pystr) (entry : pystr) (s : St) :
  strip entry = [] ->
  cycle_outcomes self (before ++ entry :: after) s
  = cycle_outcomes self (before ++ after) s.
Proof.
  intros He. rewrite !cycle_outcomes_app.
  cbn [cycle_outcomes]. unfold location_outcome. rewrite He.
  destruct (cycle_outcomes self after _); reflexivity.
Qed.

(** The loop of [_save_observations] never raises, and its count is the
    sum of what each observation, offered once and in order, adds. *)
Lemma save_loop_outcomes (self : WeatherETLPipeline)
    (observations : list WeatherObservation) :
  forall (saved_count : Z) (s : St),
    save_loop self observations saved_count s
    = (Ok (saved_count + fst (save_outcomes self observations s)),
       snd (save_outcomes self observations s)).
Proof.
  induction observations as [|o rest IH]; intros saved_count s.
  - cbn. rewrite Z.add_0_r. reflexivity.
  - cbn [save_loop save_outcomes]. unfold save_outcome.
    unfold bind at 1. unfold try_except, bind.
    destruct (save_weather_observation (db_manager self) o s)
      as [[[|]|e] s1]; cbn [ret log];
      rewrite IH; destruct (save_outcomes self rest _) as [m s2];
      cbn [fst snd]; f_equal; f_equal; lia.
Qed.

Lemma save_outcomes_bounds (self : WeatherETLPipeline)
    (observations : list WeatherObservation) (s : St) :
  0 <= fst (save_outcomes self observations s)
       <= Z.of_nat (List.length observations).
Proof.
  revert s. induction observations as [|o rest IH]; intros s.
  - cbn. lia.
  - cbn [save_outcomes List.length]. unfold save_outcome.
    destruct (save_weather_observation (db_manager self) o s)
      as [[[|]|e] s1];
      match goal with
      | |- context [save_outcomes self rest ?st] =>
          specialize (IH st); destruct (save_outcomes self rest st)
      end; cbn [fst] in *; lia.
Qed.

(** With the store of [models.py], the count is the number of rows the
    table has gained. *)
Lemma save_outcomes_rows (api : ApiClient)
    (observations : list WeatherObservation) (s : St) :
  let self := {| db_manager := DatabaseManager; api_client := api |} in
  Z.of_nat (List.length (table (snd (save_outcomes self observations s))))
  = Z.of_nat (List.length (table s)) + fst (save_outcomes self observations s).
Proof.
  intros self. revert s.
  induction observations as [|o rest IH]; intros s.
  - cbn. lia.
  - cbn [save_outcomes]. unfold save_outcome.
    cbn [save_weather_observation db_manager self DatabaseManager].
    unfold DatabaseManager_save_weather_observation, bind, get_session,
      world_call, try_except, session_add_commit.
    destruct (open_session env (world s)) as [[[]|e] w]; cbn [world set_world].
    + destruct (session_commit env o w) as [[[]|e] w']; cbn [ret emit].
      * match goal with
        | |- context [save_outcomes self rest ?st] =>
            specialize (IH st); destruct (save_outcomes self rest st)
        end.
        cbn [fst snd table set_world] in *.
        rewrite IH, length_app. cbn [List.length]. lia.
      * match goal with
        | |- context [save_outcomes self rest ?st] =>
            specialize (IH st); destruct (save_outcomes self rest st)
        end.
        cbn [fst snd table set_world emit] in *. rewrite IH. lia.
    + match goal with
      | |- context [save_outcomes self rest ?st] =>
          specialize (IH st); destruct (save_outcomes self rest st)
      end.
      cbn [fst snd table set_world emit] in *. rewrite IH. lia.
Qed.

(** *** Store queries *)

Lemma In_insert_desc (o x : WeatherObservation) (l : list WeatherObservation) :
  In x (insert_desc o l) <-> x = o \/ In x l.
Proof.
  induction l as [|h r IH]; cbn [insert_desc].
  - cbn. intuition congruence.
  - destruct (fetched_at_utc h <=? fetched_at_utc o); cbn [In].
    + intuition congruence.
    + rewrite IH. intuition congruence.
Qed.

Lemma In_order_by_fetched_at_desc (x : WeatherObservation)
    (rows : list WeatherObservation) :
  In x (order_by_fetched_at_desc rows) <-> In x rows.
Proof.
  unfold order_by_fetched_at_desc.
  induction rows as [|r rows IH]; cbn [fold_right In]; [tauto|].
  rewrite In_insert_desc, IH. intuition congruence.
Qed.

Lemma newest_first_insert_desc (o : WeatherObservation)
    (l : list WeatherObservation) :
  newest_first l -> newest_first (insert_desc o l).
Proof.
  intros Hl h Hh y Hy. apply In_insert_desc in Hy.
  destruct l as [|h0 r]; cbn [insert_desc] in Hh.
  - injection Hh as <-. destruct Hy as [->|[]]. lia.
  - specialize (Hl h0 eq_refl).
    destruct (Z.leb_spec (fetched_at_utc h0) (fetched_at_utc o));
      injection Hh as <-.
    + destruct Hy as [->|Hy]; [lia|]. specialize (Hl y Hy). lia.
    + destruct Hy as [->|Hy]; [lia|]. exact (Hl y Hy).
Qed.

Lemma newest_first_order_by (rows : list WeatherObservation) :
  newest_first (order_by_fetched_at_desc rows).
Proof.
  unfold order_by_fetched_at_desc.
  induction rows as [|r rows IH]; cbn [fold_right].
  - intros h Hh; discriminate Hh.
  - apply newest_first_insert_desc, IH.
Qed.

(** C3, as the code has it.  The query of [get_weather_by_location] yields
    at most one row.  When it yields a row, that row is stored, its
    location matches the pattern made of the query text followed by [%]
    under SQLite's LIKE, and no stored row with a matching location -- so
    none with the same location -- was fetched later.  It yields no row only
    when no stored location matches. *)
Theorem latest_row_of_like_matching_locations
    (rows : list WeatherObservation) (location_ : pystr) :
  match latest_for rows location_ with
  | Some r =>
      In r rows
      /\ like (location_ ++ [percent]) (location r) = true
      /\ (forall r', In r' rows ->
                     like (location_ ++ [percent]) (location r') = true ->
                     fetched_at_utc r' <= fetched_at_utc r)
      /\ (forall r', In r' rows -> location r' = location r ->
                     fetched_at_utc r' <= fetched_at_utc r)
  | None =>
      forall r', In r' rows ->
                 like (location_ ++ [percent]) (location r') = false
  end.
Proof.
  unfold latest_for.
  set (matching := filter _ rows).
  pose proof (newest_first_order_by matching) as Hnew.
  destruct (order_by_fetched_at_desc matching) as [|r sorted] eqn:Es;
    cbn [hd_error].
  - intros r' Hr'.
    destruct (like (location_ ++ [percent]) (location r')) eqn:El;
      [|reflexivity].
    assert (Hin : In r' (order_by_fetched_at_desc matching)).
    { apply In_order_by_fetched_at_desc. apply filter_In. auto. }
    rewrite Es in Hin. destruct Hin.
  - assert (Hr : In r matching).
    { apply In_order_by_fetched_at_desc. rewrite Es. left; reflexivity. }
    apply filter_In in Hr. destruct Hr as [Hr Hlike].
    assert (Hmax : forall r', In r' rows ->
                     like (location_ ++ [percent]) (location r') = true ->
                     fetched_at_utc r' <= fetched_at_utc r).
    { intros r' Hr' Hl'. apply (Hnew r eq_refl).
      rewrite <- Es. apply In_order_by_fetched_at_desc.
      apply filter_In. auto. }
    repeat split; auto.
    intros r' Hr' Hsame. apply Hmax; [exact Hr'|]. rewrite Hsame. exact Hlike.
Qed.

(** The handler answers with the row of the query, or 404 when there is
    none; 500 only when no session could be opened. *)
Lemma get_weather_by_location_reply (location_ : pystr) (s : St) :
  fst (open_session env (world s)) = Ok tt ->
  fst (get_weather_by_location location_ s)
  = Ok match latest_for (table s) location_ with
       | Some r => Reply200 r
       | None => Reply404
       end.
Proof.
  intros Hs. unfold get_weather_by_location, try_except, bind, get_session,
    world_call.
  destruct (open_session env (world s)) as [r w]. cbn [fst] in Hs. subst r.
  cbn [table set_world]. destruct (latest_for (table s) location_); reflexivity.
Qed.

Lemma In_group_by_location (loc : pystr) (rows : list WeatherObservation) :
  In loc (group_by_location rows)
  <-> exists r, In r rows /\ location r = loc.
Proof.
  induction rows as [|r rows IH]; cbn [group_by_location In].
  - split; [tauto | intros (r & [] & _)].
  - rewrite filter_In, IH. split.
    + intros [<-|[(r' & Hr' & <-) _]]; eauto.
    + intros (r' & [<-|Hr'] & <-); [left; reflexivity|].
      destruct (pystr_eqb (location r') (location r)) eqn:E.
      * left. symmetry. apply pystr_eqb_eq. exact E.
      * right. split; [eauto | reflexivity].
Qed.

Lemma NoDup_group_by_location (rows : list WeatherObservation) :
  NoDup (group_by_location rows).
Proof.
  induction rows as [|r rows IH]; cbn [group_by_location]; constructor.
  - rewrite filter_In. cbn beta. rewrite pystr_eqb_refl.
    intros [_ H]; discriminate H.
  - apply NoDup_filter, IH.
Qed.

(** [MAX(fetched_at_utc)] of a group is the fetch time of one of its rows
    and an upper bound of them all; a group without rows has none. *)
Lemma max_fetched_at_spec (loc : pystr) (rows : list WeatherObservation) :
  match max_fetched_at loc rows with
  | Some m =>
      (exists r, In r rows /\ location r = loc /\ fetched_at_utc r = m)
      /\ (forall r, In r rows -> location r = loc -> fetched_at_utc r <= m)
  | None => forall r, In r rows -> location r <> loc
  end.
Proof.
  induction rows as [|r rows IH]; cbn [max_fetched_at In].
  - tauto.
  - destruct (pystr_eqb (location r) loc) eqn:E.
    + apply pystr_eqb_eq in E.
      destruct (max_fetched_at loc rows) as [m|].
      * destruct IH as [(r0 & Hin & Hloc & Hm) Hub]. split.
        -- destruct (Z.max_spec (fetched_at_utc r) m) as [[_ ->]|[_ ->]];
             eauto 6.
        -- intros r' [<-|Hr'] Hl; [lia|]. specialize (Hub r' Hr' Hl). lia.
      * split; [eauto 6|].
        intros r' [<-|Hr'] Hl; [lia|]. exfalso; exact (IH r' Hr' Hl).
    + assert (Hne : location r <> loc).
      { intros H. apply pystr_eqb_eq in H. congruence. }
      destruct (max_fetched_at loc rows) as [m|].
      * destruct IH as [(r0 & Hin & Hloc & Hm) Hub]. split; [eauto 6|].
        intros r' [<-|Hr'] Hl; [contradiction|]. auto.
      * intros r' [<-|Hr']; auto.
Qed.

(** For a threshold that is not negative, the staleness query lists a
    location, with the time of its newest fetch, exactly when the location
    has at least one row and the maximum [fetched_at_utc] over its rows is
    strictly before now minus the threshold in minutes; a location without
    rows is not listed. *)
Lemma select_stale_spec
    (rows : list WeatherObservation) (now minutes_threshold : Z)
    (loc : pystr) (latest_fetch : datetime) :
  0 <= minutes_threshold ->
  let result :=
    select_stale rows (sqlite_now_minus_minutes now minutes_threshold) in
  (In (loc, latest_fetch) result
   <-> (exists r, In r rows /\ location r = loc
                  /\ fetched_at_utc r = latest_fetch)
       /\ (forall r, In r rows -> location r = loc ->
                     fetched_at_utc r <= latest_fetch)
       /\ latest_fetch < now - minutes_threshold * 60 * 1000000)
  /\ ((forall r, In r rows -> location r <> loc) ->
      ~ In loc (List.map fst result)).
Proof.
  intros Hthr result.
  assert (Hiff :
    forall l m, In (l, m) result
    <-> (exists r, In r rows /\ location r = l /\ fetched_at_utc r = m)
        /\ (forall r, In r rows -> location r = l -> fetched_at_utc r <= m)
        /\ m < now - minutes_threshold * 60 * 1000000).
  { intros l m. subst result. unfold select_stale, sqlite_now_minus_minutes.
    apply Z.ltb_ge in Hthr. rewrite Hthr.
    rewrite in_flat_map. split.
    - intros (l' & Hl' & Hin).
      pose proof (max_fetched_at_spec l' rows) as Hspec.
      destruct (max_fetched_at l' rows) as [m'|]; [|destruct Hin].
      destruct (Z.ltb_spec m' (now - minutes_threshold * 60 * 1000000));
        [|destruct Hin].
      destruct Hin as [Heq|[]]. injection Heq as -> ->.
      destruct Hspec as [Hex Hub]. auto.
    - intros ((r & Hr & Hloc & Hm) & Hub & Hlt).
      exists l. split; [apply In_group_by_location; eauto|].
      pose proof (max_fetched_at_spec l rows) as Hspec.
      destruct (max_fetched_at l rows) as [m'|].
      + destruct Hspec as [(r0 & Hr0 & Hl0 & Hm0) Hub'].
        assert (Em : m' = m).
        { specialize (Hub r0 Hr0 Hl0). specialize (Hub' r Hr Hloc). lia. }
        rewrite Em.
        destruct (Z.ltb_spec m (now - minutes_threshold * 60 * 1000000));
          [cbn [In]; left; reflexivity | lia].
      + exfalso. exact (Hspec r Hr Hloc). }
  split; [apply Hiff|].
  intros Hnone Hin. apply in_map_iff in Hin.
  destruct Hin as ([l m] & Hl & Hin). cbn [fst] in Hl. subst l.
  apply Hiff in Hin. destruct Hin as ((r & Hr & Hloc & _) & _).
  exact (Hnone r Hr Hloc).
Qed.

(** [get_stale_locations] answers with the result of the query whenever a
    session can be opened. *)
Lemma get_stale_locations_runs_query (minutes_threshold : Z) (s : St) :
  fst (open_session env (world s)) = Ok tt ->
  fst (DatabaseManager_get_stale_locations minutes_threshold s)
  = Ok (select_stale (table s)
          (sqlite_now_minus_minutes
             (sqlite_now env (snd (open_session env (world s))))
             minutes_threshold)).
Proof.
  intros Hs. unfold DatabaseManager_get_stale_locations, bind, get_session,
    world_call.
  destruct (open_session env (world s)) as [r w]. cbn [fst] in Hs. subst r.
  reflexivity.
Qed.

(** C4.  For a threshold that is not negative and a session that opens,
    [get_stale_locations] returns a list that contains a location, with
    the time of its newest fetch, exactly when the location has at least
    one stored row and the maximum [fetched_at_utc] over its rows is
    strictly before now minus the threshold in minutes; a location without
    rows is not in the list.  The table is left as it was. *)
Theorem stale_iff_newest_fetch_before_threshold (minutes_threshold : Z)
    (s : St) :
  0 <= minutes_threshold ->
  fst (open_session env (world s)) = Ok tt ->
  let now := sqlite_now env (snd (open_session env (world s))) in
  exists result s',
    DatabaseManager_get_stale_locations minutes_threshold s = (Ok result, s')
    /\ table s' = table s
    /\ (forall loc latest_fetch,
          In (loc, latest_fetch) result
          <-> (exists r, In r (table s) /\ location r = loc
                         /\ fetched_at_utc r = latest_fetch)
              /\ (forall r, In r (table s) -> location r = loc ->
                            fetched_at_utc r <= latest_fetch)
              /\ latest_fetch < now - minutes_threshold * 60 * 1000000)
    /\ (forall loc,
          (forall r, In r (table s) -> location r <> loc) ->
          ~ In loc (List.map fst result)).
Proof.
  intros Hthr Hs now.
  exists (select_stale (table s)
            (sqlite_now_minus_minutes now minutes_threshold)),
         (set_world (snd (open_session env (world s))) s).
  split.
  - unfold DatabaseManager_get_stale_locations, bind, get_session,
      world_call. subst now.
    destruct (open_session env (world s)) as [r w]. cbn [fst] in Hs.
    subst r. reflexivity.
  - split; [reflexivity|]. split.
    + intros loc latest_fetch.
      exact (proj1 (select_stale_spec (table s) now minutes_threshold loc latest_fetch Hthr)).
    + intros loc.
      exact (proj2 (select_stale_spec (table s) now minutes_threshold loc 0 Hthr)).
Qed.

(** *** Scheduling *)

(** Whatever the cycle does, [_run_etl_job] returns normally. *)
Lemma _run_etl_job_returns (cycle : M bool) (s : St) :
  exists s', _run_etl_job cycle s = (Ok tt, s').
Proof.
  unfold _run_etl_job, try_except, bind, log.
  destruct (cycle _) as [[[|]|e] s1]; eauto.
Qed.

Lemma _run_etl_job_catches (cycle : M bool) (s s1 : St) (e : exn) :
  cycle (emit (EvLog INFO "Starting scheduled ETL job") s) = (Raise e, s1) ->
  _run_etl_job cycle s
  = (Ok tt, emit (EvLog ERROR "Error in scheduled ETL job: {e}") s1).
Proof.
  intros H. unfold _run_etl_job, try_except, bind, log. rewrite H. reflexivity.
Qed.

(** [run_pending] never raises and keeps every job registered. *)
Lemma run_jobs_returns (cycle : M bool) (now : datetime) (js : list Job) :
  forall s, exists js' s',
    run_jobs cycle now js s = (Ok tt, js', s')
    /\ List.map period_us js' = List.map period_us js.
Proof.
  induction js as [|j rest IH]; intros s; cbn [run_jobs].
  - eauto.
  - destruct (next_run j <=? now).
    + destruct (_run_etl_job_returns cycle s) as (s1 & ->).
      destruct (IH s1) as (rest' & s2 & -> & Hp).
      eexists _, _. split; [reflexivity|]. cbn. congruence.
    + destruct (IH s) as (rest' & s2 & -> & Hp).
      eexists _, _. split; [reflexivity|]. cbn. congruence.
Qed.

Lemma scheduler_tick_returns (cycle : M bool) (self : Scheduler) (s : St) :
  exists self' s',
    scheduler_tick cycle self s = (Ok tt, self', s')
    /\ _running self' = _running self
    /\ List.map period_us (jobs self') = List.map period_us (jobs self).
Proof.
  unfold scheduler_tick, run_pending.
  destruct (run_jobs_returns cycle (clock_us env (world s)) (jobs self) s)
    as (js' & s1 & -> & Hp).
  cbn. eexists _, _. split; [reflexivity|]. split; [reflexivity|exact Hp].
Qed.

Lemma scheduler_loop_goes_on (cycle : M bool) (iterations : nat) :
  forall (self : Scheduler) (s : St),
    _running self = true ->
    exists self' s',
      scheduler_loop cycle iterations self s = (Ok LoopStillRunning, self', s')
      /\ _running self' = true
      /\ List.map period_us (jobs self') = List.map period_us (jobs self).
Proof.
  induction iterations as [|n IH]; intros self s Hrun; cbn [scheduler_loop].
  - eauto.
  - rewrite Hrun.
    destruct (scheduler_tick_returns cycle self s)
      as (self1 & s1 & -> & Hr1 & Hp1).
    destruct (IH self1 s1) as (self2 & s2 & Hloop & Hr2 & Hp2); [congruence|].
    exists self2, s2. split; [exact Hloop|]. split; [exact Hr2|congruence].
Qed.

(** A due job is run by the next pass through the loop, and rescheduled one
    period after the time its run ended. *)
Lemma scheduler_tick_runs_due_job (cycle : M bool) (self : Scheduler)
    (s : St) (j : Job) :
  jobs self = [j] ->
  next_run j <= clock_us env (world s) ->
  exists s1,
    _run_etl_job cycle s = (Ok tt, s1)
    /\ scheduler_tick cycle self s
       = (Ok tt,
          set_jobs [{| period_us := period_us j;
                       next_run := clock_us env (world s1) + period_us j |}]
                   self,
          set_world (after_sleep env 60 (world s1)) (emit (EvSleep 60) s1)).
Proof.
  intros Hj Hdue.
  destruct (_run_etl_job_returns cycle s) as (s1 & Hjob).
  exists s1. split; [exact Hjob|].
  unfold scheduler_tick, run_pending. rewrite Hj. cbn [run_jobs].
  apply Z.leb_le in Hdue. rewrite Hdue, Hjob. reflexivity.
Qed.

(** Each pass of the loop of a running scheduler is one tick, and the loop
    goes on from the scheduler and the state the tick leaves. *)
Lemma _run_scheduler_pass (cycle : M bool) (iterations : nat)
    (self : Scheduler) (s : St) :
  SCHEDULE_AVAILABLE env = true ->
  _running self = true ->
  exists self1 s1,
    scheduler_tick cycle self s = (Ok tt, self1, s1)
    /\ _running self1 = true
    /\ _run_scheduler cycle (S iterations) self s
       = _run_scheduler cycle iterations self1 s1.
Proof.
  intros Havail Hrun.
  destruct (scheduler_tick_returns cycle self s)
    as (self1 & s1 & Htick & Hr1 & _).
  exists self1, s1. split; [exact Htick|]. split; [congruence|].
  unfold _run_scheduler. rewrite Havail. cbn [negb scheduler_loop].
  rewrite Hrun, Htick. reflexivity.
Qed.

(** C9.  While the scheduler is running, the pass of its loop that finds
    the job due runs an ETL cycle; when that cycle raises, the exception is
    caught in [_run_etl_job] and logged, the pass ends normally with the
    job registered again one period later, and the loop goes on with its
    next pass from there.  After any number of further passes it is still
    running with the job registered; every pass is a tick; and the tick
    that finds the job due again runs it again. *)
Theorem scheduler_survives_failed_cycle (cycle : M bool) (self : Scheduler)
    (s s1 : St) (j : Job) (e : exn) (iterations : nat) :
  SCHEDULE_AVAILABLE env = true ->
  _running self = true ->
  jobs self = [j] ->
  next_run j <= clock_us env (world s) ->
  cycle (emit (EvLog INFO "Starting scheduled ETL job") s) = (Raise e, s1) ->
  let logged := emit (EvLog ERROR "Error in scheduled ETL job: {e}") s1 in
  let j' := {| period_us := period_us j;
               next_run := clock_us env (world logged) + period_us j |} in
  let self' := set_jobs [j'] self in
  let s' := set_world (after_sleep env 60 (world logged))
                      (emit (EvSleep 60) logged) in
  _run_etl_job cycle s = (Ok tt, logged)
  /\ scheduler_tick cycle self s = (Ok tt, self', s')
  /\ _run_scheduler cycle (S iterations) self s
     = _run_scheduler cycle iterations self' s'
  /\ (exists self'' s'',
        _run_scheduler cycle (S iterations) self s
        = (Ok LoopStillRunning, self'', s'')
        /\ _running self'' = true
        /\ List.map period_us (jobs self'') = [period_us j])
  /\ (forall sf st n,
        _running sf = true ->
        exists sf1 st1,
          scheduler_tick cycle sf st = (Ok tt, sf1, st1)
          /\ _running sf1 = true
          /\ _run_scheduler cycle (S n) sf st
             = _run_scheduler cycle n sf1 st1)
  /\ (forall later,
        next_run j' <= clock_us env (world later) ->
        exists s2,
          _run_etl_job cycle later = (Ok tt, s2)
          /\ scheduler_tick cycle self' later
             = (Ok tt,
                set_jobs [{| period_us := period_us j;
                             next_run := clock_us env (world s2)
                                         + period_us j |}]
                         self',
                set_world (after_sleep env 60 (world s2))
                          (emit (EvSleep 60) s2))).
Proof.
  intros Havail Hrun Hj Hdue Hraise logged j' self' s'.
  pose proof (_run_etl_job_catches cycle s s1 e Hraise) as Hjob.
  fold logged in Hjob.
  assert (Htick : scheduler_tick cycle self s = (Ok tt, self', s')).
  { destruct (scheduler_tick_runs_due_job cycle self s j Hj Hdue)
      as (s2 & Hjob2 & Htick).
    rewrite Hjob in Hjob2. injection Hjob2 as <-. exact Htick. }
  assert (Hpass : _run_scheduler cycle (S iterations) self s
                  = _run_scheduler cycle iterations self' s').
  { destruct (_run_scheduler_pass cycle iterations self s Havail Hrun)
      as (self1 & s2 & Htick2 & _ & Hloop).
    rewrite Htick in Htick2. injection Htick2 as <- <-. exact Hloop. }
  split; [exact Hjob|]. split; [exact Htick|]. split; [exact Hpass|].
  split; [|split].
  - unfold _run_scheduler. rewrite Havail. cbn [negb].
    destruct (scheduler_loop_goes_on cycle (S iterations) self s Hrun)
      as (self'' & s'' & Hloop & Hr & Hp).
    exists self'', s''. split; [exact Hloop|]. split; [exact Hr|].
    rewrite Hp, Hj. reflexivity.
  - intros sf st n Hsf. exact (_run_scheduler_pass cycle n sf st Havail Hsf).
  - intros later Hlater.
    exact (scheduler_tick_runs_due_job cycle self' later j' eq_refl Hlater).
Qed.


(** *** More on retrying *)

Lemma request_for_params (location_ : pystr) :
  request_for location_
  = EvRequest (OWM_API_BASE_URL Config) (params_for location_).
Proof. reflexivity. Qed.

(** Whatever the answer, one call of [fetch_weather_data] sends one request
    and leaves the table alone; failures of the transport, of the status
    and of the decoding surface as [WeatherAPIError], any other exception
    as itself. *)
Lemma fetch_weather_data_outcome (location_ : pystr) (s : St) :
  let r := fst (answer_for location_ (world s)) in
  let s' := snd (WeatherAPIClient_fetch_weather_data location_ s) in
  fst (WeatherAPIClient_fetch_weather_data location_ s)
  = match r with
    | Ok response =>
        if bad_status response then Raise WeatherAPIError
        else match decoded_body response with
             | Some body => Ok body
             | None => Raise WeatherAPIError
             end
    | Raise e =>
        if is_RequestException e || is_JSONDecodeError e
        then Raise WeatherAPIError
        else Raise e
    end
  /\ actions (trace s') = actions (trace s) ++ [request_for location_]
  /\ table s' = table s
  /\ world s' = snd (answer_for location_ (world s)).
Proof.
  destruct (request_params_ok location_ s) as (params & Hp & Hreq).
  unfold answer_for, params_for. rewrite Hreq. cbn zeta.
  unfold WeatherAPIClient_fetch_weather_data, bind. rewrite Hp.
  unfold try_except, bind, http_get.
  destruct (requests_get env _ _ _ (world s)) as [[response|e] w];
    cbn [fst snd].
  - unfold raise_for_status, response_json, bad_status.
    destruct ((400 <=? status_code response) && (status_code response <? 600)).
    + cbn. autorewrite with state. auto.
    + cbn. destruct (decoded_body response); cbn; autorewrite with state; auto.
  - destruct (is_RequestException e); cbn [orb].
    + cbn. autorewrite with state. auto.
    + cbn. destruct (is_JSONDecodeError e); cbn;
        autorewrite with state; auto.
Qed.

(** Splits the cases of the two [except] clauses of
    [fetch_and_transform_location] and runs the clause. *)
Ltac in_handler Hd :=
  match goal with
  | |- context [is_WeatherAPIError ?e] => destruct (is_WeatherAPIError e)
  end;
  [ match goal with
    | |- context [?a <? ?b] => destruct (Z.ltb_spec a b)
    end
  | ];
  unfold bind, log, time_sleep, ret; rewrite ?Hd.

(** With a delay that is not negative, one attempt never raises, whatever
    the client does. *)
Lemma attempt_once_returns (api_client : ApiClient) (location_ : pystr)
    (attempt : Z) (s : St) :
  0 <= RETRY_DELAY_SECONDS Config ->
  exists f s', attempt_once location_ api_client attempt s = (Ok f, s').
Proof.
  intros Hd. apply Z.ltb_ge in Hd.
  unfold attempt_once, try_except, bind.
  destruct (fetch_weather_data api_client location_ s) as [[raw|e] s1];
    [|in_handler Hd; eauto].
  destruct (transform_weather_data api_client location_ raw s1)
    as [[o|e] s2]; [|in_handler Hd; eauto].
  destruct (validate_weather_data api_client o s2) as [[[|]|e] s3];
    [cbn; eauto | cbn; eauto | in_handler Hd; eauto].
Qed.

Lemma retry_loop_returns (api_client : ApiClient) (location_ : pystr)
    (attempts : list Z) :
  0 <= RETRY_DELAY_SECONDS Config ->
  forall s, exists r s',
    retry_loop location_ api_client attempts s = (Ok r, s').
Proof.
  intros Hd. induction attempts as [|a rest IH]; intros s; cbn [retry_loop].
  - eexists _, _; reflexivity.
  - unfold bind.
    destruct (attempt_once_returns api_client location_ a s Hd)
      as ([r|] & s1 & ->); [eexists _, _; reflexivity | apply IH].
Qed.

(** X1.  With a retry delay that is not negative,
    [fetch_and_transform_location] never raises, whatever its client does:
    every exception of the fetch, the transformation and the validation
    ends as [None]. *)
Theorem fetch_and_transform_location_contains_errors
    (api_client : ApiClient) (location_ : pystr) (s : St) :
  0 <= RETRY_DELAY_SECONDS Config ->
  exists r s',
    fetch_and_transform_location location_ api_client s = (Ok r, s').
Proof. intros Hd. apply retry_loop_returns. exact Hd. Qed.

(** One attempt with the client of [weather_api.py]: one request, then
    either the end of the function or, before the last attempt only, the
    pause and the next attempt.  The table is not touched. *)
Lemma attempt_once_shape (location_ : pystr) (attempt : Z) (s : St) :
  0 <= RETRY_DELAY_SECONDS Config ->
  exists f s',
    attempt_once location_ WeatherAPIClient attempt s = (Ok f, s')
    /\ table s' = table s
    /\ ((f = Next /\ attempt < MAX_RETRIES Config - 1
         /\ actions (trace s')
            = actions (trace s)
              ++ [request_for location_;
                  EvSleep (RETRY_DELAY_SECONDS Config)])
        \/ ((exists r, f = Return r)
            /\ actions (trace s')
               = actions (trace s) ++ [request_for location_])).
Proof.
  intros Hd. apply Z.ltb_ge in Hd.
  destruct (fetch_weather_data_outcome location_ s) as (_ & Ha & Ht & _).
  unfold attempt_once, try_except, bind.
  cbn [fetch_weather_data transform_weather_data validate_weather_data
       WeatherAPIClient].
  destruct (WeatherAPIClient_fetch_weather_data location_ s) as [[raw|e] s1];
    cbn [snd] in Ha, Ht.
  - pose proof (transform_leaves_state location_ raw s1) as Hs.
    destruct (WeatherAPIClient_transform_weather_data location_ raw s1)
      as [[o|e] s2]; cbn [snd] in Hs; subst s2.
    + cbn. eexists _, _. split; [reflexivity|]. autorewrite with state.
      split; [exact Ht|]. right. split; [eauto | exact Ha].
    + in_handler Hd; (eexists _, _; split; [reflexivity|]);
        autorewrite with state; (split; [exact Ht|]).
      * left. split; [reflexivity|]. split; [assumption|].
        rewrite Ha, <- app_assoc. reflexivity.
      * right. split; [eauto | exact Ha].
      * right. split; [eauto | exact Ha].
  - in_handler Hd; (eexists _, _; split; [reflexivity|]);
      autorewrite with state; (split; [exact Ht|]).
    + left. split; [reflexivity|]. split; [assumption|].
      rewrite Ha, <- app_assoc. reflexivity.
    + right. split; [eauto | exact Ha].
    + right. split; [eauto | exact Ha].
Qed.

Lemma retry_loop_shape (location_ : pystr) :
  0 <= RETRY_DELAY_SECONDS Config ->
  forall (k a : nat) (s : St),
    Z.of_nat (a + k) = MAX_RETRIES Config ->
    exists r s' j,
      retry_loop location_ WeatherAPIClient (List.map Z.of_nat (seq a k)) s
      = (Ok r, s')
      /\ table s' = table s
      /\ (j <= k)%nat /\ (1 <= k -> 1 <= j)%nat
      /\ actions (trace s')
         = actions (trace s)
           ++ retry_schedule (request_for location_)
                (EvSleep (RETRY_DELAY_SECONDS Config)) j.
Proof.
  intros Hd. induction k as [|k IH]; intros a s Hak.
  - cbn. exists None, s, O. rewrite app_nil_r. repeat split; auto; lia.
  - cbn [seq List.map retry_loop]. unfold bind.
    destruct (attempt_once_shape location_ (Z.of_nat a) s Hd)
      as (f & s1 & -> & Ht & [(-> & Hlt & Ha)|((r & ->) & Ha)]).
    + destruct (IH (S a) s1) as (r & s2 & j & Hloop & Ht2 & Hjk & Hj1 & Ha2);
        [lia|].
      exists r, s2, (S j). split; [exact Hloop|]. split; [congruence|].
      split; [lia|]. split; [lia|].
      assert (1 <= j)%nat by (apply Hj1; lia).
      destruct j as [|j']; [lia|].
      rewrite Ha2, Ha, <- app_assoc. reflexivity.
    + exists r, s1, 1%nat. split; [reflexivity|]. split; [exact Ht|].
      split; [lia|]. split; [lia|]. exact Ha.
Qed.

(** The requests and pauses of one call with the client of
    [weather_api.py]. *)
Lemma fetch_and_transform_location_shape (location_ : pystr) (s : St) :
  0 <= RETRY_DELAY_SECONDS Config ->
  exists r s' j,
    fetch_and_transform_location location_ WeatherAPIClient s = (Ok r, s')
    /\ table s' = table s
    /\ (j <= Z.to_nat (MAX_RETRIES Config))%nat
    /\ actions (trace s')
       = actions (trace s)
         ++ retry_schedule (request_for location_)
              (EvSleep (RETRY_DELAY_SECONDS Config)) j.
Proof.
  intros Hd. unfold fetch_and_transform_location, py_range.
  destruct (Z.le_gt_cases 0 (MAX_RETRIES Config)) as [Hn|Hn].
  - destruct (retry_loop_shape location_ Hd (Z.to_nat (MAX_RETRIES Config))
                0 s) as (r & s' & j & H1 & H2 & H3 & _ & H5); [lia|].
    exists r, s', j. auto.
  - replace (Z.to_nat (MAX_RETRIES Config)) with O by lia.
    exists None, s, O. cbn. rewrite app_nil_r. auto.
Qed.

(** X2.  Whatever the source answers, the requests and pauses of one call
    of [fetch_and_transform_location] are some number [j] of requests for
    the location, at most [MAX_RETRIES], with one pause of
    [RETRY_DELAY_SECONDS] between consecutive requests and none after the
    last; the table is not touched. *)
Theorem attempts_bounded_by_MAX_RETRIES (location_ : pystr) (s : St) :
  0 <= RETRY_DELAY_SECONDS Config ->
  exists r s' j,
    fetch_and_transform_location location_ WeatherAPIClient s = (Ok r, s')
    /\ (j <= Z.to_nat (MAX_RETRIES Config))%nat
    /\ actions (trace s')
       = actions (trace s)
         ++ retry_schedule (request_for location_)
              (EvSleep (RETRY_DELAY_SECONDS Config)) j
    /\ requests_made (trace s') = (requests_made (trace s) + j)%nat
    /\ sleeps (trace s')
       = sleeps (trace s)
         ++ repeat (RETRY_DELAY_SECONDS Config) (Nat.pred j)
    /\ table s' = table s.
Proof.
  intros Hd.
  destruct (fetch_and_transform_location_shape location_ s Hd)
    as (r & s' & j & Hrun & Ht & Hj & Ha).
  exists r, s', j. repeat split; auto.
  - rewrite <- (requests_made_actions (trace s')), Ha, requests_made_app,
      requests_made_actions.
    unfold request_for. rewrite requests_made_retry_schedule. reflexivity.
  - rewrite <- (sleeps_actions (trace s')), Ha, sleeps_app, sleeps_actions.
    unfold request_for. rewrite sleeps_retry_schedule. reflexivity.
Qed.

(** The requests of a cycle with the client of [weather_api.py]. *)
Lemma cycle_outcomes_requests (self : WeatherETLPipeline)
    (locations : list pystr) :
  api_client self = WeatherAPIClient ->
  0 <= RETRY_DELAY_SECONDS Config ->
  forall s,
    (requests_made (trace (snd (cycle_outcomes self locations s)))
     <= requests_made (trace s)
        + List.length locations * Z.to_nat (MAX_RETRIES Config))%nat
    /\ (List.length (fst (cycle_outcomes self locations s))
        <= List.length locations)%nat
    /\ table (snd (cycle_outcomes self locations s)) = table s.
Proof.
  intros Hclient Hd.
  induction locations as [|l rest IH]; intros s; cbn [cycle_outcomes].
  - cbn. repeat split; lia.
  - unfold location_outcome. rewrite Hclient.
    destruct (strip l) as [|c stripped].
    + destruct (IH s) as (H1 & H2 & H3).
      destruct (cycle_outcomes self rest s) as [more s2].
      cbn [fst snd List.length app] in *. repeat split; [nia | lia | exact H3].
    + destruct (fetch_and_transform_location_shape (c :: stripped) s Hd)
        as (r & s1 & j & Hrun & Ht & Hj & Ha).
      rewrite Hrun.
      assert (Hreq : requests_made (trace s1)
                     = (requests_made (trace s) + j)%nat).
      { rewrite <- (requests_made_actions (trace s1)), Ha, requests_made_app,
          requests_made_actions.
        unfold request_for. rewrite requests_made_retry_schedule.
        reflexivity. }
      destruct (IH s1) as (H1 & H2 & H3).
      destruct r as [o|]; destruct (cycle_outcomes self rest s1) as [more s2];
        cbn [fst snd List.length app] in *;
        (repeat split; [nia | lia | congruence]).
Qed.

(** X3.  One cycle sends at most [MAX_RETRIES] requests for each configured
    location, so at most [len(LOCATIONS) * MAX_RETRIES] in all, yields at
    most one observation per location, and does not touch the table. *)
Theorem cycle_requests_bounded (self : WeatherETLPipeline) (s : St) :
  api_client self = WeatherAPIClient ->
  0 <= RETRY_DELAY_SECONDS Config ->
  exists observations s',
    _process_locations self s = (Ok observations, s')
    /\ (requests_made (trace s')
        <= requests_made (trace s)
           + List.length (LOCATIONS Config) * Z.to_nat (MAX_RETRIES Config))%nat
    /\ (List.length observations <= List.length (LOCATIONS Config))%nat
    /\ table s' = table s.
Proof.
  intros Hclient Hd. unfold _process_locations, bind, log.
  rewrite process_loop_outcomes. eexists _, _. split; [reflexivity|].
  match goal with
  | |- context [cycle_outcomes self (LOCATIONS Config) ?st] =>
      destruct (cycle_outcomes_requests self (LOCATIONS Config) Hclient Hd st)
        as (H1 & H2 & H3)
  end.
  cbn [app fst snd]. autorewrite with state in H1, H3.
  rewrite requests_made_app in H1. cbn in H1.
  repeat split; [lia | exact H2 | exact H3].
Qed.

(** X4.  With [MAX_RETRIES] zero or negative, no attempt is made: the
    function returns [None] at once and leaves the state as it was,
    whatever the client. *)
Theorem no_attempt_without_retries (api_client : ApiClient)
    (location_ : pystr) (s : St) :
  MAX_RETRIES Config <= 0 ->
  fetch_and_transform_location location_ api_client s = (Ok None, s).
Proof.
  intros Hn. unfold fetch_and_transform_location, py_range.
  replace (Z.to_nat (MAX_RETRIES Config)) with O by lia. reflexivity.
Qed.

(** X5.  With a negative [RETRY_DELAY_SECONDS], a failed attempt that is
    not the last makes [time.sleep] raise: the [ValueError] leaves
    [fetch_and_transform_location] after one request and no pause. *)
Theorem negative_delay_raises (location_ : pystr) (s : St) :
  RETRY_DELAY_SECONDS Config < 0 ->
  2 <= MAX_RETRIES Config ->
  fetch_failure (fst (answer_for location_ (world s))) = true ->
  exists s',
    fetch_and_transform_location location_ WeatherAPIClient s
    = (Raise ValueError, s')
    /\ actions (trace s') = actions (trace s) ++ [request_for location_].
Proof.
  intros Hd Hn Hfail.
  destruct (fetch_weather_data_outcome location_ s) as (Hr & Ha & _).
  unfold fetch_and_transform_location, py_range.
  destruct (Z.to_nat (MAX_RETRIES Config)) as [|n] eqn:E; [lia|].
  cbn [seq List.map retry_loop]. unfold bind at 1.
  unfold attempt_once, try_except, bind.
  cbn [fetch_weather_data WeatherAPIClient].
  destruct (WeatherAPIClient_fetch_weather_data location_ s) as [r s1].
  cbn [fst snd] in Hr, Ha. subst r.
  assert (Hraise :
    match fst (answer_for location_ (world s)) with
    | Ok response =>
        if bad_status response then Raise WeatherAPIError
        else match decoded_body response with
             | Some body => Ok body
             | None => Raise WeatherAPIError
             end
    | Raise e =>
        if is_RequestException e || is_JSONDecodeError e
        then Raise WeatherAPIError
        else Raise e
    end = Raise WeatherAPIError).
  { destruct (fst (answer_for location_ (world s))) as [response|e];
      cbn in Hfail.
    - destruct (bad_status response); [reflexivity|].
      destruct (decoded_body response); [discriminate|reflexivity].
    - rewrite Hfail. reflexivity. }
  rewrite Hraise. cbn [is_WeatherAPIError].
  assert (Hlt : (0 <? MAX_RETRIES Config - 1) = true) by (apply Z.ltb_lt; lia).
  cbn [Z.of_nat]. rewrite Hlt.
  apply Z.ltb_lt in Hd. unfold log, time_sleep. rewrite Hd.
  eexists. split; [reflexivity|]. autorewrite with state. exact Ha.
Qed.

(** The exceptions of the library calls of [transform_weather_data]. *)
Lemma py_get_raise (v : pyval) (key : pystr) (default : pyval) (e : exn) :
  py_get v key default = Raise e -> is_WeatherAPIError e = false.
Proof. destruct v; cbn; intros H; inversion H; reflexivity. Qed.

Lemma py_index0_raise (v : pyval) (e : exn) :
  py_index0 v = Raise e -> is_WeatherAPIError e = false.
Proof.
  destruct v as [| | | |[|c s]|[|x l]|]; cbn; intros H; inversion H;
    reflexivity.
Qed.

Lemma celsius_of_raise (v : pyval) (e : exn) :
  celsius_of v = Raise e -> is_WeatherAPIError e = false.
Proof.
  destruct v; cbn; try (intros H; inversion H; reflexivity).
  destruct (int_to_float z); intros H; inversion H; reflexivity.
Qed.

Lemma fromtimestamp_raise (v : pyval) (e : exn) :
  (forall f, fromtimestamp_float env f <> Raise WeatherAPIError) ->
  fromtimestamp v = Raise e -> is_WeatherAPIError e = false.
Proof.
  intros Hfloat.
  destruct v; cbn; try (intros H; inversion H; reflexivity).
  - unfold fromtimestamp_int.
    destruct (_ && _); intros H; inversion H; reflexivity.
  - unfold fromtimestamp_int.
    destruct (_ && _); intros H; inversion H; reflexivity.
  - intros H. destruct e; try reflexivity. exfalso. exact (Hfloat f H).
Qed.

(** An exception of [transform_weather_data] is never a
    [WeatherAPIError]. *)
Lemma transform_raise_not_api_error (location_ : pystr) (raw_data : pyval)
    (s s' : St) (e : exn) :
  (forall f, fromtimestamp_float env f <> Raise WeatherAPIError) ->
  WeatherAPIClient_transform_weather_data location_ raw_data s = (Raise e, s') ->
  is_WeatherAPIError e = false.
Proof.
  intros Hfloat H.
  unfold WeatherAPIClient_transform_weather_data, bind, lift, ret,
    int_time_time, datetime_now in H.
  repeat match type of H with
         | match ?X with Ok _ => _ | Raise _ => _ end = _ =>
             destruct X eqn:?;
             [| injection H as <- <-;
                first [ eapply py_get_raise; eassumption
                      | eapply py_index0_raise; eassumption
                      | eapply celsius_of_raise; eassumption
                      | eapply fromtimestamp_raise; eassumption ] ]
         end.
  discriminate H.
Qed.

(** What a returned observation carries besides the fields of the
    payload. *)
Lemma transform_ok_fields (location_ : pystr) (raw_data : pyval)
    (s s' : St) (o : WeatherObservation) :
  WeatherAPIClient_transform_weather_data location_ raw_data s = (Ok o, s') ->
  location o = location_ /\ id o = None
  /\ fetched_at_utc o = clock_us env (world s)
  /\ raw_json o = json_dumps env raw_data.
Proof.
  intros H.
  unfold WeatherAPIClient_transform_weather_data, bind, lift, ret,
    int_time_time, datetime_now in H.
  repeat match type of H with
         | match ?X with Ok _ => _ | Raise _ => _ end = _ =>
             destruct X eqn:?; [|discriminate H]
         end.
  injection H as <- <-. cbn. auto.
Qed.

(** The body of a good answer is what [fetch_weather_data] returns. *)
Lemma good_response_outcome (r : result Response) (body : pyval) :
  good_response r = Some body ->
  match r with
  | Ok response =>
      if bad_status response then Raise WeatherAPIError
      else match decoded_body response with
           | Some body => Ok body
           | None => Raise WeatherAPIError
           end
  | Raise e =>
      if is_RequestException e || is_JSONDecodeError e
      then Raise WeatherAPIError
      else Raise e
  end = Ok body.
Proof.
  destruct r as [response|e]; cbn; [|discriminate].
  destruct (bad_status response); [discriminate|].
  intros ->. reflexivity.
Qed.

(** X6.  When the first answer is good and its payload well formed, the
    function returns an observation after that one request, without a
    pause: the observation is for the location asked for, carries no key
    yet, and is stamped with the time of the clock after the request. *)
Theorem first_attempt_success (location_ : pystr) (s : St) (body : pyval) :
  1 <= MAX_RETRIES Config ->
  good_response (fst (answer_for location_ (world s))) = Some body ->
  well_formed_where_present
    (clock_us env (snd (answer_for location_ (world s)))) body = true ->
  exists o s',
    fetch_and_transform_location location_ WeatherAPIClient s
    = (Ok (Some o), s')
    /\ location o = location_
    /\ id o = None
    /\ fetched_at_utc o = clock_us env (world s')
    /\ actions (trace s') = actions (trace s) ++ [request_for location_]
    /\ table s' = table s
    /\ world s' = snd (answer_for location_ (world s)).
Proof.
  intros Hn Hgood Hshape.
  destruct (fetch_weather_data_outcome location_ s) as (Hr & Ha & Ht & Hw).
  rewrite (good_response_outcome _ _ Hgood) in Hr.
  unfold fetch_and_transform_location, py_range.
  destruct (Z.to_nat (MAX_RETRIES Config)) as [|n] eqn:E; [lia|].
  cbn [seq List.map retry_loop]. unfold bind at 1.
  unfold attempt_once, try_except, bind.
  cbn [fetch_weather_data transform_weather_data validate_weather_data
       WeatherAPIClient].
  destruct (WeatherAPIClient_fetch_weather_data location_ s) as [r s1].
  cbn [fst snd] in Hr, Ha, Ht, Hw. subst r.
  rewrite <- Hw in Hshape.
  destruct body as [| | | | | |kvs]; try discriminate Hshape.
  destruct (transform_of_well_formed location_ kvs s1 Hshape)
    as (o & Hrun & Hloc & Hfetched & _).
  cbn zeta in Hrun. rewrite Hrun. cbn.
  exists o. eexists. split; [reflexivity|]. autorewrite with state.
  repeat split; auto.
  exact (proj1 (proj2 (transform_ok_fields _ _ _ _ _ Hrun))).
Qed.

(** X7.  A good answer whose payload the transformation cannot handle is
    not retried: the exception is an unexpected one, and the function
    returns [None] after the one request, without a pause, however many
    attempts are allowed. *)
Theorem malformed_payload_not_retried (location_ : pystr) (s : St)
    (body : pyval) :
  (forall f, fromtimestamp_float env f <> Raise WeatherAPIError) ->
  1 <= MAX_RETRIES Config ->
  good_response (fst (answer_for location_ (world s))) = Some body ->
  well_formed_where_present
    (clock_us env (snd (answer_for location_ (world s)))) body = false ->
  exists s',
    fetch_and_transform_location location_ WeatherAPIClient s = (Ok None, s')
    /\ actions (trace s') = actions (trace s) ++ [request_for location_]
    /\ table s' = table s.
Proof.
  intros Hfloat Hn Hgood Hshape.
  destruct (fetch_weather_data_outcome location_ s) as (Hr & Ha & Ht & Hw).
  rewrite (good_response_outcome _ _ Hgood) in Hr.
  unfold fetch_and_transform_location, py_range.
  destruct (Z.to_nat (MAX_RETRIES Config)) as [|n] eqn:E; [lia|].
  cbn [seq List.map retry_loop]. unfold bind at 1.
  unfold attempt_once, try_except, bind.
  cbn [fetch_weather_data transform_weather_data validate_weather_data
       WeatherAPIClient].
  destruct (WeatherAPIClient_fetch_weather_data location_ s) as [r s1].
  cbn [fst snd] in Hr, Ha, Ht, Hw. subst r.
  rewrite <- Hw in Hshape.
  pose proof (transform_leaves_state location_ body s1) as Hs.
  destruct (WeatherAPIClient_transform_weather_data location_ body s1)
    as [[o|e] s2] eqn:Hrun; cbn [snd] in Hs; subst s2.
  - apply transform_ok_only_if_well_formed in Hrun. congruence.
  - rewrite (transform_raise_not_api_error _ _ _ _ _ Hfloat Hrun). cbn.
    eexists. split; [reflexivity|]. autorewrite with state. auto.
Qed.

(** *** More on the store *)

(** What one call of [save_weather_observation] does to the table. *)
Lemma save_appends_or_leaves_aux (observation : WeatherObservation) (s : St) :
  let r := fst (DatabaseManager_save_weather_observation observation s) in
  let s' := snd (DatabaseManager_save_weather_observation observation s) in
  match r with
  | Ok true =>
      table s'
      = table s
        ++ [with_id (Z.of_nat (List.length (table s)) + 1) observation]
  | _ => table s' = table s
  end.
Proof.
  unfold DatabaseManager_save_weather_observation, bind, get_session,
    world_call, try_except, session_add_commit.
  destruct (open_session env (world s)) as [[[]|e] w]; cbn [world set_world].
  - destruct (session_commit env observation w) as [[[]|e] w']; reflexivity.
  - reflexivity.
Qed.

(** X8.  [save_weather_observation] changes the table in one way only: on
    success it appends the observation, keyed with the number of rows plus
    one, and returns [True]; in every other case -- no session, a failed
    commit -- the table is as it was, and a failed commit is answered with
    [False], not with an exception.  It records nothing in the trace. *)
Theorem save_appends_or_leaves (observation : WeatherObservation) (s : St) :
  let r := fst (DatabaseManager_save_weather_observation observation s) in
  let s' := snd (DatabaseManager_save_weather_observation observation s) in
  match r with
  | Ok true =>
      table s'
      = table s
        ++ [with_id (Z.of_nat (List.length (table s)) + 1) observation]
  | _ => table s' = table s
  end
  /\ trace s' = trace s
  /\ (fst (open_session env (world s)) = Ok tt -> exists saved, r = Ok saved)
  /\ (forall e, fst (open_session env (world s)) = Raise e -> r = Raise e).
Proof.
  unfold DatabaseManager_save_weather_observation, bind, get_session,
    world_call, try_except, session_add_commit.
  destruct (open_session env (world s)) as [[[]|e] w]; cbn [world set_world].
  - destruct (session_commit env observation w) as [[[]|e] w'];
      cbn; repeat split; eauto; discriminate.
  - cbn. repeat split; try discriminate; auto.
    intros e' H; injection H as <-; reflexivity.
Qed.

(** Appending a row keyed with the number of rows plus one keeps the keys
    sequential. *)
Lemma ids_sequential_append (rows : list WeatherObservation)
    (o : WeatherObservation) :
  ids_sequential rows ->
  ids_sequential
    (rows ++ [with_id (Z.of_nat (List.length rows) + 1) o]).
Proof.
  unfold ids_sequential. intros H.
  rewrite map_app, length_app, H. cbn [List.length List.map id with_id].
  rewrite Nat.add_1_r, seq_S, map_app. cbn [List.map].
  do 3 f_equal. lia.
Qed.

(** What a run of offers to the store of [models.py] does to the table. *)
Lemma save_outcomes_table (api : ApiClient)
    (observations : list WeatherObservation) :
  let self := {| db_manager := DatabaseManager; api_client := api |} in
  forall s,
    exists added,
      table (snd (save_outcomes self observations s)) = table s ++ added
      /\ Z.of_nat (List.length added) = fst (save_outcomes self observations s)
      /\ (forall r, In r added ->
            exists o n, In o observations /\ r = with_id n o)
      /\ (ids_sequential (table s) ->
          ids_sequential (table (snd (save_outcomes self observations s)))).
Proof.
  intros self.
  induction observations as [|o rest IH]; intros s.
  - exists []. cbn. rewrite app_nil_r. repeat split; auto. intros r [].
  - cbn [save_outcomes]. unfold save_outcome.
    cbn [save_weather_observation db_manager self DatabaseManager].
    pose proof (save_appends_or_leaves_aux o s) as Ht.
    destruct (DatabaseManager_save_weather_observation o s) as [r s1].
    cbn [fst snd] in Ht.
    destruct r as [[|]|e];
      match goal with
      | |- context [save_outcomes self rest ?st] =>
          destruct (IH st) as (added & Hadd & Hlen & Hin & Hids);
          destruct (save_outcomes self rest st) as [m s2]
      end;
      cbn [fst snd] in *; autorewrite with state in Hadd, Hids.
    + exists (with_id (Z.of_nat (List.length (table s)) + 1) o :: added).
      split; [|split; [|split]].
      * rewrite Hadd, Ht, <- app_assoc. reflexivity.
      * cbn [List.length]. lia.
      * intros r [<-|Hr]; [exists o; eexists; split; [left|]; reflexivity|].
        destruct (Hin r Hr) as (o' & n & Ho' & ->).
        exists o', n. split; [right; exact Ho' | reflexivity].
      * intros H0. apply Hids. rewrite Ht.
        apply ids_sequential_append. exact H0.
    + exists added. rewrite Ht in Hadd, Hids.
      split; [exact Hadd|]. split; [lia|]. split; [|exact Hids].
      intros r Hr. destruct (Hin r Hr) as (o' & n & Ho' & ->).
      exists o', n. split; [right; exact Ho' | reflexivity].
    + exists added. rewrite Ht in Hadd, Hids.
      split; [exact Hadd|]. split; [lia|]. split; [|exact Hids].
      intros r Hr. destruct (Hin r Hr) as (o' & n & Ho' & ->).
      exists o', n. split; [right; exact Ho' | reflexivity].
Qed.

(** X9.  With the store of [models.py], [_save_observations] only appends:
    the table afterwards is the table before followed by one new row for
    each accepted observation; each new row is an observation of the list
    with a key put on it; and keys that were 1, 2, 3, ... before are so
    afterwards. *)
Theorem save_observations_only_appends (api : ApiClient)
    (observations : list WeatherObservation) (s : St) :
  let self := {| db_manager := DatabaseManager; api_client := api |} in
  exists saved_count s' added,
    _save_observations self observations s = (Ok saved_count, s')
    /\ table s' = table s ++ added
    /\ Z.of_nat (List.length added) = saved_count
    /\ (forall r, In r added ->
          exists o n, In o observations /\ r = with_id n o)
    /\ (ids_sequential (table s) -> ids_sequential (table s')).
Proof.
  intros self. unfold _save_observations, bind, log.
  rewrite save_loop_outcomes.
  match goal with
  | |- context [save_outcomes self observations ?st] =>
      destruct (save_outcomes_table api observations st)
        as (added & Hadd & Hlen & Hin & Hids);
      fold self in Hadd, Hlen, Hids;
      destruct (save_outcomes self observations st) as [m s2]
  end.
  cbn [fst snd] in *. autorewrite with state in Hadd, Hids.
  eexists _, _, added. split; [reflexivity|]. autorewrite with state.
  repeat split; auto.
Qed.

(** *** More on the queries *)

Lemma Permutation_insert_desc (o : WeatherObservation)
    (l : list WeatherObservation) :
  Permutation (insert_desc o l) (o :: l).
Proof.
  induction l as [|h r IH]; cbn [insert_desc]; [reflexivity|].
  destruct (fetched_at_utc h <=? fetched_at_utc o); [reflexivity|].
  rewrite IH. apply perm_swap.
Qed.

Lemma Permutation_order_by (rows : list WeatherObservation) :
  Permutation (order_by_fetched_at_desc rows) rows.
Proof.
  unfold order_by_fetched_at_desc.
  induction rows as [|r rows IH]; cbn [fold_right]; [reflexivity|].
  rewrite Permutation_insert_desc, IH. reflexivity.
Qed.

Lemma StronglySorted_insert_desc (o : WeatherObservation)
    (l : list WeatherObservation) :
  StronglySorted not_older l -> StronglySorted not_older (insert_desc o l).
Proof.
  induction l as [|h r IH]; intros Hl; cbn [insert_desc].
  - repeat constructor.
  - inversion Hl as [|? ? Hr Hall]; subst.
    destruct (Z.leb_spec (fetched_at_utc h) (fetched_at_utc o)).
    + constructor; [exact Hl|]. constructor; [exact H|].
      eapply Forall_impl; [|exact Hall]. unfold not_older. intros; lia.
    + constructor; [apply IH; exact Hr|].
      apply Forall_forall. intros x Hx. apply In_insert_desc in Hx.
      destruct Hx as [->|Hx]; [unfold not_older; lia|].
      rewrite Forall_forall in Hall. exact (Hall x Hx).
Qed.

Lemma StronglySorted_order_by (rows : list WeatherObservation) :
  StronglySorted not_older (order_by_fetched_at_desc rows).
Proof.
  unfold order_by_fetched_at_desc.
  induction rows as [|r rows IH]; cbn [fold_right]; [constructor|].
  apply StronglySorted_insert_desc, IH.
Qed.

Lemma In_firstn_In {A : Type} (n : nat) (l : list A) (x : A) :
  In x (firstn n l) -> In x l.
Proof.
  intros H. rewrite <- (firstn_skipn n l). apply in_or_app. left. exact H.
Qed.

Lemma StronglySorted_firstn (n : nat) (l : list WeatherObservation) :
  StronglySorted not_older l -> StronglySorted not_older (firstn n l).
Proof.
  revert n. induction l as [|h r IH]; intros [|n] Hl; cbn [firstn];
    try constructor.
  - inversion Hl; subst. apply IH. assumption.
  - inversion Hl as [|? ? _ Hall]; subst.
    apply Forall_forall. intros x Hx.
    rewrite Forall_forall in Hall. apply Hall.
    exact (In_firstn_In _ _ _ Hx).
Qed.

Lemma StronglySorted_app_le (l1 l2 : list WeatherObservation) :
  StronglySorted not_older (l1 ++ l2) ->
  forall x y, In x l1 -> In y l2 -> not_older x y.
Proof.
  induction l1 as [|h r IH]; intros Hs x y Hx Hy; [destruct Hx|].
  cbn [app] in Hs. inversion Hs as [|? ? Hr Hall]; subst.
  destruct Hx as [<-|Hx].
  - rewrite Forall_forall in Hall. apply Hall. apply in_or_app. auto.
  - exact (IH Hr x y Hx Hy).
Qed.

(** X10.  [get_latest_observations(limit)], for a limit that is not
    negative and a session that opens, returns [min(limit, number of rows)]
    stored rows, newest first, and they are the most recent ones: a stored
    row fetched later than a returned one is returned too.  Nothing is
    written. *)
Theorem latest_observations_are_the_most_recent (limit : Z) (s : St) :
  0 <= limit ->
  fst (open_session env (world s)) = Ok tt ->
  exists rows s',
    DatabaseManager_get_latest_observations limit s = (Ok rows, s')
    /\ table s' = table s /\ trace s' = trace s
    /\ List.length rows = Nat.min (Z.to_nat limit) (List.length (table s))
    /\ StronglySorted not_older rows
    /\ (forall r, In r rows -> In r (table s))
    /\ (forall x y, In x rows -> In y (table s) ->
          fetched_at_utc x < fetched_at_utc y -> In y rows).
Proof.
  intros Hlimit Hs.
  unfold DatabaseManager_get_latest_observations, bind, get_session,
    world_call.
  destruct (open_session env (world s)) as [r w]. cbn [fst] in Hs. subst r.
  eexists _, _. split; [reflexivity|]. cbn [table trace set_world].
  unfold sql_limit. apply Z.ltb_ge in Hlimit. rewrite Hlimit.
  set (sorted := order_by_fetched_at_desc (table s)).
  set (n := Z.to_nat limit).
  assert (Hperm : Permutation sorted (table s)) by apply Permutation_order_by.
  assert (Hsorted : StronglySorted not_older sorted)
    by apply StronglySorted_order_by.
  repeat split.
  - rewrite length_firstn, (Permutation_length Hperm). reflexivity.
  - apply StronglySorted_firstn. exact Hsorted.
  - intros r Hr. apply (Permutation_in _ Hperm).
    exact (In_firstn_In _ _ _ Hr).
  - intros x y Hx Hy Hlt.
    apply (Permutation_in _ (Permutation_sym Hperm)) in Hy.
    rewrite <- (firstn_skipn n sorted) in Hy, Hsorted.
    apply in_app_or in Hy. destruct Hy as [Hy|Hy]; [exact Hy|].
    pose proof (StronglySorted_app_le _ _ Hsorted x y Hx Hy) as Hle.
    unfold not_older in Hle. lia.
Qed.

(** When a pair is in the answer of the staleness query. *)
Lemma select_stale_In (rows : list WeatherObservation) (cutoff : datetime)
    (loc : pystr) (latest_fetch : datetime) :
  In (loc, latest_fetch) (select_stale rows (Some cutoff))
  <-> max_fetched_at loc rows = Some latest_fetch /\ latest_fetch < cutoff.
Proof.
  unfold select_stale. rewrite in_flat_map. split.
  - intros (l' & Hl' & Hin).
    destruct (max_fetched_at l' rows) as [m'|] eqn:Em; [|destruct Hin].
    destruct (Z.ltb_spec m' cutoff); [|destruct Hin].
    destruct Hin as [Heq|[]]. injection Heq as -> ->. auto.
  - intros [Hmax Hlt]. exists loc. split.
    + apply In_group_by_location.
      pose proof (max_fetched_at_spec loc rows) as Hspec.
      rewrite Hmax in Hspec. destruct Hspec as [(r & Hr & Hloc & _) _]. eauto.
    + rewrite Hmax. apply Z.ltb_lt in Hlt. rewrite Hlt. left; reflexivity.
Qed.

(** X11.  The staleness query lists a location once at most. *)
Theorem stale_locations_listed_once (rows : list WeatherObservation)
    (cutoff : option datetime) :
  NoDup (List.map fst (select_stale rows cutoff)).
Proof.
  unfold select_stale.
  pose proof (NoDup_group_by_location rows) as Hnd.
  induction (group_by_location rows) as [|l ls IH]; cbn [flat_map];
    [constructor|].
  inversion Hnd as [|? ? Hnotin Hnd']; subst.
  rewrite map_app. specialize (IH Hnd').
  assert (Hsub : forall x,
            In x (List.map fst
                    (flat_map
                       (fun loc =>
                          match max_fetched_at loc rows, cutoff with
                          | Some latest_fetch, Some c =>
                              if latest_fetch <? c
                              then [(loc, latest_fetch)] else []
                          | _, _ => []
                          end) ls)) -> In x ls).
  { intros x Hx. apply in_map_iff in Hx. destruct Hx as ([l' m] & <- & Hin).
    apply in_flat_map in Hin. destruct Hin as (l'' & Hl'' & Hin).
    destruct (max_fetched_at l'' rows); [|destruct Hin].
    destruct cutoff; [|destruct Hin].
    destruct (_ <? _); [|destruct Hin].
    destruct Hin as [Heq|[]]. injection Heq as -> _. exact Hl''. }
  destruct (max_fetched_at l rows) as [m|]; [|exact IH].
  destruct cutoff as [c|]; [|exact IH].
  destruct (m <? c); [|exact IH].
  cbn [List.map app fst]. constructor; [|exact IH].
  intros Hin. apply Hnotin. apply Hsub. exact Hin.
Qed.

(** X12.  Staleness is monotone in the threshold: a location reported
    under a threshold is reported, with the same time, under every smaller
    threshold that is not negative; and a location with a row fetched at or
    after the cutoff is not reported. *)
Theorem staleness_monotone_in_threshold (rows : list WeatherObservation)
    (now smaller larger : Z) (loc : pystr) (latest_fetch : datetime) :
  0 <= smaller <= larger ->
  (In (loc, latest_fetch)
      (select_stale rows (sqlite_now_minus_minutes now larger)) ->
   In (loc, latest_fetch)
      (select_stale rows (sqlite_now_minus_minutes now smaller)))
  /\ (forall r, In r rows -> location r = loc ->
        now - smaller * 60 * 1000000 <= fetched_at_utc r ->
        ~ In loc (List.map fst
                    (select_stale rows
                       (sqlite_now_minus_minutes now smaller)))).
Proof.
  intros [H0 Hle]. unfold sqlite_now_minus_minutes.
  assert (E1 : (smaller <? 0) = false) by (apply Z.ltb_ge; lia).
  assert (E2 : (larger <? 0) = false) by (apply Z.ltb_ge; lia).
  rewrite E1, E2. split.
  - rewrite !select_stale_In. intros [Hmax Hlt]. split; [exact Hmax | lia].
  - intros r Hr Hloc Hfresh Hin.
    apply in_map_iff in Hin. destruct Hin as ([l m] & Hl & Hin).
    cbn [fst] in Hl. subst l.
    apply select_stale_In in Hin. destruct Hin as [Hmax Hlt].
    pose proof (max_fetched_at_spec loc rows) as Hspec.
    rewrite Hmax in Hspec. destruct Hspec as [_ Hub].
    specialize (Hub r Hr Hloc). lia.
Qed.

(** A character agrees with itself for LIKE. *)
Lemma like_char_eq_refl (c : N) : like_char_eq c c = true.
Proof. unfold like_char_eq. rewrite N.eqb_refl. reflexivity. Qed.

(** The pattern [%] matches every string. *)
Lemma like_percent_all (str : pystr) : like [percent] str = true.
Proof.
  cbn [like]. rewrite N.eqb_refl.
  induction str as [|c str IH]; [reflexivity|].
  cbn. cbn in IH. rewrite IH. destruct str; reflexivity.
Qed.

(** How LIKE goes through a [%] in the pattern. *)
Lemma like_percent_step (pattern str : pystr) :
  like (percent :: pattern) str
  = like pattern str
    || match str with
       | [] => false
       | _ :: str' => like (percent :: pattern) str'
       end.
Proof. destruct str; reflexivity. Qed.

(** A string matches the pattern made of any of its prefixes followed by
    [%], whatever characters the prefix holds: a wildcard in it matches the
    character it stands at. *)
Lemma like_of_prefix (prefix : pystr) :
  forall str, startswith prefix str = true ->
              like (prefix ++ [percent]) str = true.
Proof.
  induction prefix as [|c prefix IH]; intros str H.
  - apply like_percent_all.
  - destruct str as [|c2 str]; cbn [startswith] in H; [discriminate|].
    apply andb_true_iff in H. destruct H as [Hc Hrest].
    apply N.eqb_eq in Hc. subst c2. specialize (IH str Hrest).
    cbn [app]. destruct (N.eqb c percent) eqn:Ep.
    + apply N.eqb_eq in Ep. subst c.
      rewrite like_percent_step, (like_percent_step _ str), IH.
      apply orb_true_r.
    + cbn [like]. rewrite Ep, like_char_eq_refl, IH, orb_true_r.
      reflexivity.
Qed.

(** A stored row whose location matches is answered with a row fetched no
    earlier. *)
Lemma latest_for_some (rows : list WeatherObservation) (location_ : pystr)
    (r : WeatherObservation) :
  In r rows ->
  like (location_ ++ [percent]) (location r) = true ->
  exists r', latest_for rows location_ = Some r'
             /\ In r' rows
             /\ fetched_at_utc r <= fetched_at_utc r'.
Proof.
  intros Hr Hlike. unfold latest_for.
  set (matching := filter _ rows).
  assert (Hin : In r (order_by_fetched_at_desc matching)).
  { apply In_order_by_fetched_at_desc. apply filter_In. auto. }
  pose proof (newest_first_order_by matching) as Hnew.
  destruct (order_by_fetched_at_desc matching) as [|r' sorted] eqn:Es;
    [destruct Hin|].
  exists r'. split; [reflexivity|]. split.
  - assert (Hr' : In r' matching).
    { apply In_order_by_fetched_at_desc. rewrite Es. left; reflexivity. }
    apply filter_In in Hr'. tauto.
  - exact (Hnew r' eq_refl r Hin).
Qed.

(** A query that selects a row is not answered 404. *)
Lemma get_weather_by_location_not_404 (location_ : pystr) (s : St)
    (r' : WeatherObservation) :
  latest_for (table s) location_ = Some r' ->
  fst (get_weather_by_location location_ s) <> Ok Reply404.
Proof.
  intros Hlatest.
  unfold get_weather_by_location, try_except, bind, get_session, world_call,
    ret.
  destruct (open_session env (world s)) as [[[]|e] w]; cbn [fst snd].
  - cbn [table set_world]. rewrite Hlatest. cbn. discriminate.
  - cbn. discriminate.
Qed.

(** X13.  A query that is an exact prefix of a stored location always
    selects a row: the query of [get_weather_by_location] returns a stored
    row fetched no earlier than that one, and the reply is not 404 -- also
    when the query contains [%] or [_]. *)
Theorem exact_prefix_query_is_answered (location_ : pystr) (s : St)
    (r : WeatherObservation) :
  In r (table s) ->
  startswith location_ (location r) = true ->
  (exists r',
     latest_for (table s) location_ = Some r'
     /\ In r' (table s)
     /\ fetched_at_utc r <= fetched_at_utc r')
  /\ fst (get_weather_by_location location_ s) <> Ok Reply404.
Proof.
  intros Hr Hprefix.
  destruct (latest_for_some (table s) location_ r Hr
              (like_of_prefix _ _ Hprefix)) as (r' & Hlatest & Hin & Hle).
  split; [exists r'; auto|].
  exact (get_weather_by_location_not_404 _ _ _ Hlatest).
Qed.

(** Characters that are equal once their ASCII capitals are made small
    agree for LIKE. *)
Lemma like_char_eq_tolower (c c2 : N) :
  ascii_tolower c = ascii_tolower c2 -> like_char_eq c c2 = true.
Proof.
  unfold like_char_eq, ascii_tolower.
  destruct ((0x41 <=? c) && (c <=? 0x5A))%N eqn:E1,
           ((0x41 <=? c2) && (c2 <=? 0x5A))%N eqn:E2;
    intros E;
    repeat match goal with
           | H : (_ && _)%bool = true |- _ =>
               apply andb_true_iff in H; destruct H
           | H : (_ && _)%bool = false |- _ =>
               apply andb_false_iff in H
           | H : (_ <=? _)%N = true |- _ => apply N.leb_le in H
           end.
  - assert (c = c2) by lia. subst. rewrite N.eqb_refl. reflexivity.
  - assert (Hc : (c <? 0x80)%N = true) by (apply N.ltb_lt; lia).
    assert (Hc2 : (c2 <? 0x80)%N = true) by (apply N.ltb_lt; lia).
    rewrite Hc, Hc2, E, N.eqb_refl. apply orb_true_r.
  - assert (Hc : (c <? 0x80)%N = true) by (apply N.ltb_lt; lia).
    assert (Hc2 : (c2 <? 0x80)%N = true) by (apply N.ltb_lt; lia).
    rewrite Hc, Hc2, E, N.eqb_refl. apply orb_true_r.
  - subst. rewrite N.eqb_refl. reflexivity.
Qed.

Lemma like_of_prefix_nocase (prefix : pystr) :
  forall str,
    startswith (ascii_lower prefix) (ascii_lower str) = true ->
    like (prefix ++ [percent]) str = true.
Proof.
  induction prefix as [|c prefix IH]; intros str H.
  - apply like_percent_all.
  - destruct str as [|c2 str]; cbn [startswith ascii_lower List.map] in H;
      [discriminate|].
    apply andb_true_iff in H. destruct H as [Hc Hrest].
    apply N.eqb_eq in Hc. specialize (IH str Hrest).
    cbn [app]. destruct (N.eqb c percent) eqn:Ep.
    + apply N.eqb_eq in Ep. subst c.
      rewrite like_percent_step, (like_percent_step _ str), IH.
      apply orb_true_r.
    + cbn [like]. rewrite Ep, (like_char_eq_tolower _ _ Hc), IH, orb_true_r.
      reflexivity.
Qed.

(** X14.  Letter case does not matter to the query of
    [get_weather_by_location]: when the query is a prefix of a stored
    location once the ASCII capitals of both are made small, the query
    returns a stored row fetched no earlier than that one, and the reply is
    not 404. *)
Theorem query_ignores_ascii_case (location_ : pystr) (s : St)
    (r : WeatherObservation) :
  In r (table s) ->
  startswith (ascii_lower location_) (ascii_lower (location r)) = true ->
  (exists r',
     latest_for (table s) location_ = Some r'
     /\ In r' (table s)
     /\ fetched_at_utc r <= fetched_at_utc r')
  /\ fst (get_weather_by_location location_ s) <> Ok Reply404.
Proof.
  intros Hr Hprefix.
  destruct (latest_for_some (table s) location_ r Hr
              (like_of_prefix_nocase _ _ Hprefix))
    as (r' & Hlatest & Hin & Hle).
  split; [exists r'; auto|].
  exact (get_weather_by_location_not_404 _ _ _ Hlatest).
Qed.

(** X15.  [get_weather_by_location] never raises and writes nothing.  It
    replies 500 when no session can be opened, and 404 exactly when a
    session opens and no stored location matches the pattern. *)
Theorem get_weather_by_location_status (location_ : pystr) (s : St) :
  exists reply s',
    get_weather_by_location location_ s = (Ok reply, s')
    /\ table s' = table s /\ trace s' = trace s
    /\ ((exists e, fst (open_session env (world s)) = Raise e) ->
        reply = Reply500)
    /\ (reply = Reply404
        <-> fst (open_session env (world s)) = Ok tt
            /\ forall r, In r (table s) ->
                 like (location_ ++ [percent]) (location r) = false).
Proof.
  unfold get_weather_by_location, try_except, bind, get_session, world_call.
  destruct (open_session env (world s)) as [[[]|e] w]; cbn [fst snd].
  - cbn [table set_world].
    destruct (latest_for (table s) location_) as [r'|] eqn:El;
      eexists _, _; (split; [reflexivity|]);
      (split; [reflexivity|]); (split; [reflexivity|]);
      (split; [intros (e & He); discriminate He|]); split.
    + intros H; discriminate H.
    + intros [_ Hnone]. exfalso.
        assert (Hm : exists r, In r (table s)
                     /\ like (location_ ++ [percent]) (location r) = true).
        { unfold latest_for in El.
          destruct (order_by_fetched_at_desc _) as [|h t] eqn:Es;
            [discriminate El|].
          assert (Hh : In h (order_by_fetched_at_desc
                               (filter (fun r => like (location_ ++ [percent])
                                                      (location r))
                                       (table s))))
            by (rewrite Es; left; reflexivity).
          apply In_order_by_fetched_at_desc, filter_In in Hh. eauto. }
        destruct Hm as (r & Hr & Hlike). rewrite (Hnone r Hr) in Hlike.
        discriminate Hlike.
    + intros _. split; [reflexivity|]. intros r Hr.
      destruct (like (location_ ++ [percent]) (location r)) eqn:Hlike;
        [|reflexivity].
      destruct (latest_for_some (table s) location_ r Hr Hlike)
        as (r' & Hsome & _). congruence.
    + intros _. reflexivity.
  - cbn. eexists _, _. split; [reflexivity|].
    split; [reflexivity|]. split; [reflexivity|].
    split; [intros _; reflexivity|].
    split; [intros H; discriminate H | intros [H _]; discriminate H].
Qed.

(** *** More on the orchestrator *)

(** The objects [after_save_loop] gives are the observations of the list,
    in order, and those it marks as expired are those the loop of
    [_save_observations] counts as saved. *)
Lemma after_save_loop_spec (self : WeatherETLPipeline)
    (observations : list WeatherObservation) :
  forall s,
    List.map attributes (after_save_loop self observations s) = observations
    /\ Z.of_nat (List.length
                   (filter expired (after_save_loop self observations s)))
       = fst (save_outcomes self observations s).
Proof.
  induction observations as [|o rest IH]; intros s.
  - split; reflexivity.
  - cbn [after_save_loop]. rewrite save_loop_outcomes.
    cbn [save_outcomes]. unfold save_outcome.
    destruct (save_weather_observation (db_manager self) o s)
      as [[[|]|e] s1]; cbn [fst snd];
      match goal with
      | |- context [after_save_loop self rest ?st] =>
          destruct (IH st) as [Hattr Hcount];
          destruct (save_outcomes self rest st) as [m s2] eqn:Eo
      end;
      cbn [fst snd List.map attributes filter expired] in *;
      rewrite Hattr; (split; [reflexivity|]);
      match goal with
      | |- context [1 <=? ?x] => destruct (Z.leb_spec 1 x)
      end;
      cbn [List.length]; lia.
Qed.

(** The loop of [_push_to_s3] leaves the table alone.  It raises exactly
    when an object of the list is expired: the read of its location fails
    in the body of the pass and again in the handler; a refused upload is
    logged and the loop goes on. *)
Lemma push_loop_outcome (bucket : pystr) (observations : list held) :
  forall pushed_count s,
    exists r s',
      push_loop bucket observations pushed_count s = (r, s')
      /\ table s' = table s
      /\ (existsb expired observations = false -> exists n, r = Ok n)
      /\ (existsb expired observations = true -> r = Raise SQLAlchemyError).
Proof.
  induction observations as [|o rest IH]; intros pushed_count s;
    cbn [push_loop existsb].
  - eexists _, _. split; [reflexivity|]. split; [reflexivity|].
    split; [eauto | discriminate].
  - destruct o as [[|] o].
    + eexists _, _. split; [reflexivity|]. split; [reflexivity|].
      split; [discriminate | reflexivity].
    + cbn [orb].
      unfold bind at 1. unfold try_except, bind, getattr, datetime_now,
        world_call, ret.
      cbn [expired attributes].
      destruct (put_object env bucket _ _ (world s)) as [[[]|e] w];
        cbn [fst snd world set_world].
      * cbn. match goal with
             | |- context [push_loop bucket rest ?n ?st] =>
                 destruct (IH n st) as (r & s2 & -> & Ht & Hok & Hraise)
             end.
        eexists _, _. split; [reflexivity|]. rewrite Ht. auto.
      * destruct e; cbn;
          match goal with
          | |- context [push_loop bucket rest ?n ?st] =>
              destruct (IH n st) as (r & s2 & -> & Ht & Hok & Hraise)
          end;
          (eexists _, _; split; [reflexivity|];
           split; [rewrite Ht; reflexivity|]; auto).
Qed.

(** [_push_to_s3] leaves the table alone, and raises only when importing
    boto3 raises something other than [ImportError]. *)
Lemma _push_to_s3_outcome (self : WeatherETLPipeline)
    (observations : list held) (s : St) :
  exists r s',
    _push_to_s3 self observations s = (r, s')
    /\ table s' = table s
    /\ ((forall w e, fst (import_boto3 env w) = Raise e -> e = ImportError) ->
        exists b, r = Ok b).
Proof.
  unfold _push_to_s3.
  destruct (S3_BUCKET Config) as [[|c bucket]|];
    try (cbn; eexists _, _; split; [reflexivity|]; split;
         [reflexivity | eauto]).
  unfold bind at 1. unfold try_except at 1. unfold bind at 1. unfold world_call.
  destruct (import_boto3 env (world s)) as [[[]|e] w] eqn:Ei; cbn [fst snd].
  - cbn [ret]. unfold bind, log, try_except, world_call.
    cbn [world emit set_world].
    destruct (boto3_client env w) as [[[]|e] w2]; cbn [fst snd].
    + match goal with
      | |- context [push_loop ?b observations ?n ?st] =>
          destruct (push_loop_outcome b observations n st)
            as (r & s2 & -> & Ht & _)
      end.
      destruct r; cbn; eexists _, _; (split; [reflexivity|]);
        (split; [exact Ht | eauto]).
    + cbn. eexists _, _. split; [reflexivity|]. split; [reflexivity | eauto].
  - destruct e; cbn; eexists _, _; (split; [reflexivity|]);
      (split; [reflexivity|]); intros Himp; eauto;
      specialize (Himp (world s) _ (f_equal fst Ei)); discriminate Himp.
Qed.

(** Whatever happens in its [try] block, [run_etl] returns. *)
Lemma run_etl_returns (self : WeatherETLPipeline) (s : St) :
  exists ok s', run_etl self s = (Ok ok, s').
Proof.
  unfold run_etl, try_except, bind, log, ret.
  match goal with
  | |- context [match ?X with (r, s') => _ end] =>
      destruct X as [[ok|e] s1]
  end; eexists _, _; reflexivity.
Qed.

(** X16.  [run_etl] never raises, whatever its collaborators do.  It
    returns [True] whenever archival is switched off -- also when every
    location failed and nothing was saved -- and, with archival on,
    whenever importing boto3 either works or fails with [ImportError]: a
    failure to build the S3 client or to push an object never fails the
    cycle. *)
Theorem run_etl_never_raises (self : WeatherETLPipeline) (s : St) :
  exists ok s',
    run_etl self s = (Ok ok, s')
    /\ (PUSH_TO_S3 Config && truthy_opt (S3_BUCKET Config) = false ->
        ok = true)
    /\ ((forall w e, fst (import_boto3 env w) = Raise e -> e = ImportError) ->
        ok = true).
Proof.
  unfold run_etl, try_except, _process_locations, after_save,
    _save_observations, bind, log, ret.
  rewrite process_loop_outcomes, save_loop_outcomes.
  destruct (PUSH_TO_S3 Config && truthy_opt (S3_BUCKET Config)).
  - match goal with
    | |- context [_push_to_s3 self ?obs ?st] =>
        destruct (_push_to_s3_outcome self obs st) as (r & s1 & -> & _ & Himp)
    end.
    destruct r as [b|e].
    + eexists _, _. split; [reflexivity|]. auto.
    + eexists _, _. split; [reflexivity|]. split; [discriminate|].
      intros H. destruct (Himp H) as (b & Hb). discriminate Hb.
  - eexists _, _. split; [reflexivity|]. auto.
Qed.

(** X17.  [run_pipeline] raises exactly when the database cannot be opened
    while the pipeline is being built, and then with that exception;
    otherwise it returns what [run_etl] returns. *)
Theorem run_pipeline_raises_only_at_construction (s : St) (e : exn) :
  fst (run_pipeline s) = Raise e
  <-> fst (create_engine env (world s)) = Raise e.
Proof.
  unfold run_pipeline, WeatherETLPipeline_init, bind, world_call, ret.
  destruct (create_engine env (world s)) as [[[]|e'] w]; cbn [fst snd].
  - match goal with
    | |- context [run_etl ?self ?st] =>
        destruct (run_etl_returns self st) as (ok & s' & ->)
    end.
    cbn. split; discriminate.
  - split; intros H; injection H as ->; reflexivity.
Qed.

(** An observation that leaves an attempt is for the location asked for
    and carries no key. *)
Lemma attempt_once_observation (location_ : pystr) (attempt : Z) (s s' : St)
    (o : WeatherObservation) :
  attempt_once location_ WeatherAPIClient attempt s = (Ok (Return (Some o)), s') ->
  location o = location_ /\ id o = None.
Proof.
  unfold attempt_once, try_except, bind.
  cbn [fetch_weather_data transform_weather_data validate_weather_data
       WeatherAPIClient].
  destruct (WeatherAPIClient_fetch_weather_data location_ s) as [[raw|e] s1].
  - destruct (WeatherAPIClient_transform_weather_data location_ raw s1)
      as [[o'|e] s2] eqn:Hrun.
    + cbn. intros H. injection H as <- _.
      destruct (transform_ok_fields _ _ _ _ _ Hrun) as (H1 & H2 & _). auto.
    + destruct (is_WeatherAPIError e); [destruct (_ <? _)|];
        unfold bind, log, time_sleep, ret;
        try destruct (_ <? 0); intros H; discriminate H.
  - destruct (is_WeatherAPIError e); [destruct (_ <? _)|];
      unfold bind, log, time_sleep, ret;
      try destruct (_ <? 0); intros H; discriminate H.
Qed.

Lemma retry_loop_observation (location_ : pystr) (attempts : list Z) :
  forall s s' o,
    retry_loop location_ WeatherAPIClient attempts s = (Ok (Some o), s') ->
    location o = location_ /\ id o = None.
Proof.
  induction attempts as [|a rest IH]; intros s s' o; cbn [retry_loop].
  - intros H; discriminate H.
  - unfold bind.
    destruct (attempt_once location_ WeatherAPIClient a s)
      as [[[r|]|e] s1] eqn:Ha.
    + intros H. injection H as -> <-.
      exact (attempt_once_observation _ _ _ _ _ Ha).
    + apply IH.
    + intros H; discriminate H.
Qed.

Lemma cycle_outcomes_locations (self : WeatherETLPipeline)
    (locations : list pystr) :
  api_client self = WeatherAPIClient ->
  forall s o,
    In o (fst (cycle_outcomes self locations s)) ->
    id o = None
    /\ exists l, In l locations /\ location o = strip l /\ strip l <> [].
Proof.
  intros Hclient.
  induction locations as [|l rest IH]; intros s o; cbn [cycle_outcomes].
  - intros [].
  - unfold location_outcome. rewrite Hclient.
    assert (Hrest : forall st,
      In o (fst (cycle_outcomes self rest st)) ->
      id o = None
      /\ exists l0, In l0 (l :: rest) /\ location o = strip l0
                    /\ strip l0 <> []).
    { intros st Hin. destruct (IH st o Hin) as (Hid & l0 & Hl0 & Hloc & Hne).
      split; [exact Hid|]. exists l0. split; [right; exact Hl0 | auto]. }
    destruct (strip l) as [|c stripped] eqn:El.
    + destruct (cycle_outcomes self rest s) as [more s2] eqn:Ec.
      cbn [fst app]. intros Hin. apply (Hrest s). rewrite Ec. exact Hin.
    + destruct (fetch_and_transform_location (c :: stripped) WeatherAPIClient s)
        as [[[o'|]|e] s1] eqn:Hf;
        match goal with
        | |- context [cycle_outcomes self rest ?st] =>
            specialize (Hrest st);
            destruct (cycle_outcomes self rest st) as [more s2]
        end; cbn [fst app] in *; try exact Hrest.
      intros [<-|Hin]; [|exact (Hrest Hin)].
      destruct (retry_loop_observation _ _ _ _ _ Hf) as [Hloc Hid].
      split; [exact Hid|]. exists l. split; [left; reflexivity|].
      rewrite El. split; [exact Hloc | discriminate].
Qed.

(** X18.  With the client of [weather_api.py], every observation a cycle
    returns is for a configured location: its location is a configured
    entry with the surrounding whitespace removed, and is not empty.  It
    carries no key yet. *)
Theorem observations_are_for_configured_locations
    (self : WeatherETLPipeline) (s : St) :
  api_client self = WeatherAPIClient ->
  exists observations s',
    _process_locations self s = (Ok observations, s')
    /\ forall o, In o observations ->
         id o = None
         /\ exists l, In l (LOCATIONS Config)
                      /\ location o = strip l /\ strip l <> [].
Proof.
  intros Hclient. unfold _process_locations, bind, log.
  rewrite process_loop_outcomes. eexists _, _. split; [reflexivity|].
  cbn [app]. intros o Ho.
  exact (cycle_outcomes_locations self _ Hclient _ o Ho).
Qed.

(** X19.  A cycle of the pipeline of [pipeline.py] only appends to the
    table: the rows stored before are the first rows stored after, in the
    same order and unchanged; every new row is for a configured location;
    and keys that were 1, 2, 3, ... before are so afterwards. *)
Theorem run_etl_only_appends (s : St) :
  0 <= RETRY_DELAY_SECONDS Config ->
  let self := {| db_manager := DatabaseManager;
                 api_client := WeatherAPIClient |} in
  exists ok s' added,
    run_etl self s = (Ok ok, s')
    /\ table s' = table s ++ added
    /\ (forall r, In r added ->
          exists l, In l (LOCATIONS Config)
                    /\ location r = strip l /\ strip l <> [])
    /\ (ids_sequential (table s) -> ids_sequential (table s')).
Proof.
  intros Hd self.
  unfold run_etl, try_except, _process_locations, after_save,
    _save_observations, bind, log, ret.
  rewrite process_loop_outcomes, save_loop_outcomes. cbn [app].
  set (s0 := emit (EvLog INFO "Starting Weather ETL Pipeline") s).
  set (s1 := emit (EvLog INFO "Processing {len(Config.LOCATIONS)} locations") s0).
  destruct (cycle_outcomes_requests self (LOCATIONS Config) eq_refl Hd s1)
    as (_ & _ & Ht1).
  pose proof (cycle_outcomes_locations self (LOCATIONS Config) eq_refl s1)
    as Hlocs.
  destruct (cycle_outcomes self (LOCATIONS Config) s1) as [obs s2].
  cbn [fst snd] in *.
  set (s3 := emit (EvLog INFO "Saving {len(observations)} observations to database") s2).
  destruct (save_outcomes_table WeatherAPIClient obs s3)
    as (added & Hadd & _ & Hin & Hids).
  fold self in Hadd, Hids.
  destruct (save_outcomes self obs s3) as [n s4]. cbn [fst snd] in *.
  assert (Htable : table s4 = table s ++ added).
  { rewrite Hadd. unfold s3. autorewrite with state. rewrite Ht1.
    unfold s1, s0. autorewrite with state. reflexivity. }
  assert (Hids' : ids_sequential (table s) -> ids_sequential (table s4)).
  { intros H. apply Hids. unfold s3. autorewrite with state. rewrite Ht1.
    unfold s1, s0. autorewrite with state. exact H. }
  assert (Hnew : forall r, In r added ->
            exists l, In l (LOCATIONS Config)
                      /\ location r = strip l /\ strip l <> []).
  { intros r Hr. destruct (Hin r Hr) as (o & k & Ho & ->).
    destruct (Hlocs o Ho) as (_ & l & Hl & Hloc & Hne).
    exists l. cbn [location with_id]. auto. }
  destruct (PUSH_TO_S3 Config && truthy_opt (S3_BUCKET Config)).
  - match goal with
    | |- context [_push_to_s3 self ?o ?st] =>
        destruct (_push_to_s3_outcome self o st) as (r & s5 & -> & Ht5 & _)
    end.
    autorewrite with state in Ht5.
    destruct r as [b|e]; eexists _, _, added;
      (split; [reflexivity|]); autorewrite with state;
      rewrite Ht5; auto.
  - eexists _, _, added. split; [reflexivity|]. autorewrite with state. auto.
Qed.

(** *** More on the request and the upload *)

(** X25.  Building the query parameters never fails.  The API key comes
    first; a location without a comma, or whose first two comma-separated
    parts do not both look like numbers, is sent as it is under [q];
    otherwise the two parts are sent, stripped, as [lat] and [lon]. *)
Theorem request_params_by_name_or_coordinates (location_ : pystr) (s : St) :
  exists params,
    request_params location_ s = (Ok params, s)
    /\ (contains comma location_ = false ->
        params = [(py "appid", OWM_API_KEY Config); (py "q", location_)])
    /\ (params = [(py "appid", OWM_API_KEY Config); (py "q", location_)]
        \/ exists lat_ lon_ rest,
             split comma location_ = lat_ :: lon_ :: rest
             /\ looks_numeric lat_ = true /\ looks_numeric lon_ = true
             /\ params = [(py "appid", OWM_API_KEY Config);
                          (py "lat", strip lat_); (py "lon", strip lon_)]).
Proof.
  unfold request_params.
  destruct (contains comma location_) eqn:Ec; cbn [andb].
  - destruct (split_two_parts _ Ec) as (a & b & rest & Hs). rewrite Hs.
    cbn [firstn forallb].
    destruct (looks_numeric a) eqn:Ha; cbn [andb].
    + destruct (looks_numeric b) eqn:Hb; cbn [andb].
      * eexists. split; [reflexivity|]. split; [discriminate|].
        right. exists a, b, rest. auto.
      * eexists. split; [reflexivity|]. split; [discriminate|].
        left. reflexivity.
    + eexists. split; [reflexivity|]. split; [discriminate|].
      left. reflexivity.
  - eexists. split; [reflexivity|]. split; [reflexivity|]. left. reflexivity.
Qed.

(** X26.  Once boto3 is imported and the client made, what [_push_to_s3]
    returns does not depend on the uploads.  It is [True] when every object
    of the list can be read -- also when every [put_object] fails -- and
    [False] when one of them has been expired by a commit: the read of its
    location raises in the loop and again in the handler, which ends the
    loop.  The table is left alone. *)
Theorem push_outcome_does_not_depend_on_uploads (self : WeatherETLPipeline)
    (observations : list held) (s : St) :
  truthy_opt (S3_BUCKET Config) = true ->
  fst (import_boto3 env (world s)) = Ok tt ->
  fst (boto3_client env (snd (import_boto3 env (world s)))) = Ok tt ->
  exists s',
    _push_to_s3 self observations s
    = (Ok (negb (existsb expired observations)), s')
    /\ table s' = table s.
Proof.
  intros Hb Hi Hc. unfold _push_to_s3.
  destruct (S3_BUCKET Config) as [[|c bucket]|]; try discriminate Hb.
  unfold bind at 1. unfold try_except at 1. unfold bind at 1. unfold world_call.
  destruct (import_boto3 env (world s)) as [r w]. cbn [fst snd] in *.
  subst r. cbn [ret]. unfold bind, log, try_except, world_call.
  cbn [world emit set_world].
  destruct (boto3_client env w) as [r2 w2]. cbn [fst snd] in *. subst r2.
  match goal with
  | |- context [push_loop ?b observations ?n ?st] =>
      destruct (push_loop_outcome b observations n st)
        as (r & s2 & -> & Ht & Hok & Hraise)
  end.
  destruct (existsb expired observations).
  - rewrite (Hraise eq_refl). cbn. eexists. split; [reflexivity|]. exact Ht.
  - destruct (Hok eq_refl) as (n & ->). cbn. eexists.
    split; [reflexivity|]. exact Ht.
Qed.

(** *** The scheduler *)

Lemma run_jobs_none_due (cycle : M bool) (now : datetime) (js : list Job) :
  (forall j, In j js -> now < next_run j) ->
  forall s, run_jobs cycle now js s = (Ok tt, js, s).
Proof.
  induction js as [|j rest IH]; intros Hlate s; cbn [run_jobs].
  - reflexivity.
  - assert (Hj : (next_run j <=? now) = false)
      by (apply Z.leb_gt, Hlate; left; reflexivity).
    rewrite Hj, IH by (intros j' Hj'; apply Hlate; right; exact Hj').
    reflexivity.
Qed.

(** X20.  A pass through the scheduling loop that finds no job due runs no
    ETL cycle: whatever the cycle would do, the pass only sleeps for 60
    seconds, and the jobs stay as they are. *)
Theorem jobs_not_due_are_not_run (cycle : M bool) (self : Scheduler)
    (s : St) :
  (forall j, In j (jobs self) -> clock_us env (world s) < next_run j) ->
  scheduler_tick cycle self s
  = (Ok tt, self,
     set_world (after_sleep env 60 (world s)) (emit (EvSleep 60) s)).
Proof.
  intros Hlate. unfold scheduler_tick, run_pending.
  rewrite (run_jobs_none_due cycle _ _ Hlate).
  destruct self as [i r js]. reflexivity.
Qed.

(** X21.  Starting a stopped scheduler marks it running and registers one
    job, with a period of [interval_hours] hours and first due one period
    from now; the jobs registered before stay.  Starting it again registers
    nothing. *)
Theorem start_scheduler_registers_one_job (self : Scheduler) (s : St) :
  SCHEDULE_AVAILABLE env = true ->
  _running self = false ->
  let started := start_scheduler self s in
  _running (fst started) = true
  /\ jobs (fst started)
     = jobs self
       ++ [{| period_us := interval_hours self * HOUR_US;
              next_run := clock_us env (world s)
                          + interval_hours self * HOUR_US |}]
  /\ fst (start_scheduler (fst started) (snd started)) = fst started
  /\ table (snd started) = table s
  /\ world (snd started) = world s.
Proof.
  intros Ha Hr. cbv zeta.
  assert (Hp : interval_hours self * 60 * MINUTE_US
               = interval_hours self * HOUR_US)
    by (unfold MINUTE_US, HOUR_US; lia).
  assert (Hs : start_scheduler self s
               = (set_jobs (schedule_every (interval_hours self * HOUR_US)
                              (clock_us env (world s)) (jobs self))
                           (set_running true self),
                  emit (EvLog INFO "Scheduler started. ETL pipeline will run every {interval_minutes} minute(s)") s)).
  { unfold start_scheduler, set_running, set_jobs, schedule_every.
    rewrite Ha, Hr. cbn [negb interval_hours _running jobs].
    destruct (1 <=? interval_hours self); rewrite ?Hp; reflexivity. }
  rewrite Hs. cbn [fst snd].
  split; [reflexivity|]. split; [reflexivity|].
  split; [unfold start_scheduler; rewrite Ha; reflexivity|].
  split; reflexivity.
Qed.

(** X22.  Stopping a running scheduler clears the flag and every job, and
    the scheduling loop then ends at its next check of the flag, without
    running a cycle or sleeping. *)
Theorem stop_scheduler_ends_the_loop (cycle : M bool) (self : Scheduler)
    (s : St) (iterations : nat) :
  SCHEDULE_AVAILABLE env = true ->
  _running self = true ->
  let stopped := stop_scheduler self s in
  _running (fst stopped) = false
  /\ jobs (fst stopped) = []
  /\ _run_scheduler cycle (S iterations) (fst stopped) (snd stopped)
     = (Ok LoopExited, fst stopped, snd stopped).
Proof.
  intros Ha Hr. cbv zeta. unfold stop_scheduler, _run_scheduler.
  rewrite Ha, Hr. cbn. auto.
Qed.

(** *** Reading the configuration *)

Lemma split_not_nil (sep : N) (s : pystr) : split sep s <> [].
Proof.
  destruct s as [|c r]; cbn [split]; [discriminate|].
  destruct (N.eqb c sep); [discriminate|].
  destruct (split sep r); discriminate.
Qed.

(** X23.  With [LOCATIONS] read the way [config.py] reads it,
    [Config.validate] raises exactly when [OWM_API_KEY] is empty: its check
    of [LOCATIONS] never fires, not even for an empty setting. *)
Theorem validate_never_rejects_LOCATIONS (getenv : option pystr)
    (c : ConfigT) :
  Config_validate (set_LOCATIONS (load_LOCATIONS getenv) c)
  = match OWM_API_KEY c with
    | [] => Raise ValueError
    | _ => Ok true
    end.
Proof.
  unfold Config_validate, load_LOCATIONS.
  cbn [OWM_API_KEY LOCATIONS set_LOCATIONS].
  destruct (OWM_API_KEY c); [reflexivity|].
  pose proof (split_not_nil semicolon
                (match getenv with Some v => v | None => DEFAULT_LOCATIONS end))
    as Hne.
  destruct (split semicolon _); [contradiction|reflexivity].
Qed.

Lemma strip_cons_whitespace (c : N) (p : pystr) :
  Py_UNICODE_ISSPACE c = true -> strip (c :: p) = strip p.
Proof.
  intros Hc. unfold strip. cbn [lstrip]. rewrite Hc. reflexivity.
Qed.

Lemma split_blank (v : pystr) :
  forallb (fun ch => N.eqb ch semicolon || Py_UNICODE_ISSPACE ch) v = true ->
  Forall (fun entry => strip entry = []) (split semicolon v).
Proof.
  induction v as [|c r IH]; cbn [forallb split].
  - intros _. constructor; [reflexivity|constructor].
  - rewrite andb_true_iff. intros [Hc Hr]. specialize (IH Hr).
    destruct (N.eqb c semicolon) eqn:Es.
    + constructor; [reflexivity|exact IH].
    + cbn [orb] in Hc.
      destruct (split semicolon r) as [|p ps]; [constructor;
        [rewrite strip_cons_whitespace by exact Hc; reflexivity|constructor]|].
      inversion IH as [|? ? Hp Hps]; subst.
      constructor; [|exact Hps].
      rewrite strip_cons_whitespace by exact Hc. exact Hp.
Qed.

Lemma cycle_outcomes_all_blank (self : WeatherETLPipeline)
    (locations : list pystr) (s : St) :
  Forall (fun entry => strip entry = []) locations ->
  cycle_outcomes self locations s = ([], s).
Proof.
  induction 1 as [|l rest Hl _ IH]; cbn [cycle_outcomes]; [reflexivity|].
  unfold location_outcome. rewrite Hl, IH. reflexivity.
Qed.

(** X24.  A [LOCATIONS] setting made of separators and whitespace only --
    the empty setting among them -- gives a cycle that calls the client for
    no location: [_process_locations] returns no observation, sends no
    request and only writes its log line. *)
Theorem blank_LOCATIONS_setting_processes_nothing
    (self : WeatherETLPipeline) (v : pystr) (s : St) :
  LOCATIONS Config = load_LOCATIONS (Some v) ->
  forallb (fun ch => N.eqb ch semicolon || Py_UNICODE_ISSPACE ch) v = true ->
  _process_locations self s
  = (Ok [], emit (EvLog INFO "Processing {len(Config.LOCATIONS)} locations") s).
Proof.
  intros Hcfg Hblank. unfold _process_locations, bind, log.
  rewrite process_loop_outcomes, Hcfg.
  unfold load_LOCATIONS.
  rewrite (cycle_outcomes_all_blank self _ _ (split_blank v Hblank)).
  reflexivity.
Qed.

End Program.

(* ================================================================== *)
(** ** Properties that vary the configuration or the world *)

Section Whole.

Context {World : Type}.
Variable env : Environment World.

(** Changing the list of locations changes nothing in how one location is
    handled. *)
Lemma retry_loop_set_LOCATIONS (cfg : ConfigT) (locations : list pystr)
    (location_ : pystr) (api_client : ApiClient) (attempts : list Z) :
  forall s,
    retry_loop env (set_LOCATIONS locations cfg) location_ api_client attempts s
    = retry_loop env cfg location_ api_client attempts s.
Proof.
  induction attempts as [|a rest IH]; intros s; [reflexivity|].
  cbn [retry_loop]. unfold bind.
  change (attempt_once env (set_LOCATIONS locations cfg) location_ api_client a s)
    with (attempt_once env cfg location_ api_client a s).
  destruct (attempt_once env cfg location_ api_client a s) as [[[r|]|e] s1];
    auto.
Qed.

Lemma cycle_outcomes_set_LOCATIONS (cfg : ConfigT) (locations : list pystr)
    (self : WeatherETLPipeline) (todo : list pystr) :
  forall s,
    cycle_outcomes env (set_LOCATIONS locations cfg) self todo s
    = cycle_outcomes env cfg self todo s.
Proof.
  induction todo as [|l rest IH]; intros s; [reflexivity|].
  cbn [cycle_outcomes]. unfold location_outcome, fetch_and_transform_location.
  destruct (strip l) as [|c stripped].
  - rewrite IH. reflexivity.
  - rewrite retry_loop_set_LOCATIONS. cbn [MAX_RETRIES set_LOCATIONS].
    destruct (retry_loop env cfg (c :: stripped) (api_client self) _ s)
      as [[[o|]|e] s1]; rewrite IH; reflexivity.
Qed.

(** C10.  An entry of the location list that is empty or all whitespace is
    passed over: it adds no observation and leaves the state -- the world,
    the trace of requests, sleeps and log records, the table -- untouched,
    and the cycle runs exactly as if the entry were not in the list. *)
Theorem blank_locations_are_skipped (cfg : ConfigT)
    (self : WeatherETLPipeline) (before after : list pystr) (entry : pystr)
    (s : ProgramState World) :
  forallb Py_UNICODE_ISSPACE entry = true ->
  location_outcome env cfg self entry s = ([], s)
  /\ _process_locations env (set_LOCATIONS (before ++ entry :: after) cfg)
       self s
     = _process_locations env (set_LOCATIONS (before ++ after) cfg) self s.
Proof.
  intros Hblank. pose proof (strip_all_whitespace entry Hblank) as Hs. split.
  - unfold location_outcome. rewrite Hs. reflexivity.
  - unfold _process_locations, bind, log. cbn [LOCATIONS set_LOCATIONS].
    rewrite !process_loop_outcomes, !cycle_outcomes_set_LOCATIONS.
    rewrite (cycle_outcomes_skip_blank env cfg self before after entry _ Hs).
    reflexivity.
Qed.

End Whole.

(** C7.  [_save_observations] never raises.  Every observation of the list
    is offered to the store once, in order, whatever became of the ones
    before it, and the count returned is the number of offers the store
    accepted: between zero and the number of observations and, with the
    store of [models.py], the number of rows the table has gained.  The
    count can be smaller than the number of observations. *)
Theorem failed_save_does_not_block_the_rest :
  (forall (World : Type) (self : @WeatherETLPipeline World)
          (observations : list WeatherObservation) (s : ProgramState World),
      let s0 :=
        emit (EvLog INFO "Saving {len(observations)} observations to database") s in
      _save_observations self observations s
      = (Ok (fst (save_outcomes self observations s0)),
         emit (EvLog INFO "Successfully saved {saved_count}/{len(observations)} observations")
              (snd (save_outcomes self observations s0)))
      /\ 0 <= fst (save_outcomes self observations s0)
           <= Z.of_nat (List.length observations))
  /\ (forall (World : Type) (env : Environment World) (api : ApiClient)
             (observations : list WeatherObservation) (s : ProgramState World),
        let self := {| db_manager := DatabaseManager env; api_client := api |} in
        Z.of_nat (List.length (table (snd (save_outcomes self observations s))))
        = Z.of_nat (List.length (table s))
          + fst (save_outcomes self observations s))
  /\ (let env := second_commit_fails sample_payload in
      let self := {| db_manager := DatabaseManager env;
                     api_client := WeatherAPIClient env default_config |} in
      let observations :=
        [row 0 (py "Colombo,Sri Lanka") 1; row 0 (py "Kandy,Sri Lanka") 2;
         row 0 (py "London,UK") 3] in
      exists s',
        _save_observations self observations sim_start = (Ok 2, s')
        /\ List.map location (table s')
           = [py "Colombo,Sri Lanka"; py "London,UK"]).
Proof.
  split; [|split].
  - intros World self observations s s0. split.
    + unfold _save_observations, bind, log. fold s0.
      rewrite save_loop_outcomes. reflexivity.
    + apply save_outcomes_bounds.
  - intros World env api observations s. apply save_outcomes_rows.
  - eexists. split; vm_compute; reflexivity.
Qed.

(* ================================================================== *)
(** ** The properties at concrete inputs *)



(** With the defaults of [config.py] and the source down: three requests,
    two pauses of five seconds, no observation. *)
Lemma retries_exhausted_when_source_unavailable_witness :
  exists s',
    fetch_and_transform_location source_down default_config
      (py "Kandy,Sri Lanka") (WeatherAPIClient source_down default_config)
      sim_start = (Ok None, s')
    /\ Z.of_nat (requests_made (trace s')) = 3
    /\ sleeps (trace s') = [5; 5].
Proof.
  destruct (retries_exhausted_when_source_unavailable source_down
              default_config (py "Kandy,Sri Lanka") sim_start)
    as (s' & Hrun & _ & Hreq & Hsleep).
  - cbn. lia.
  - cbn. lia.
  - intros; reflexivity.
  - exists s'. split; [exact Hrun|]. split; [exact Hreq | exact Hsleep].
Defined.

(** With every response undecodable the three attempts are made all the
    same; with a client that rejects the observation, one request is all. *)
Lemma undecodable_payload_retried_rejection_not_witness :
  (exists s',
     fetch_and_transform_location source_garbled default_config
       (py "Kandy,Sri Lanka") (WeatherAPIClient source_garbled default_config)
       sim_start = (Ok None, s')
     /\ Z.of_nat (requests_made (trace s')) = 3)
  /\ (exists s',
        fetch_and_transform_location (source_up sample_payload) default_config
          (py "Kandy,Sri Lanka")
          (rejecting_client (source_up sample_payload) default_config)
          sim_start
        = (Ok None, s')
        /\ requests_made (trace s') = 1%nat
        /\ sleeps (trace s') = []).
Proof.
  split.
  - destruct (undecodable_payload_retried_rejection_not source_garbled
                default_config (py "Kandy,Sri Lanka") sim_start)
      as [Hgarbled _].
    + cbn. lia.
    + cbn. lia.
    + destruct Hgarbled as (s' & Hrun & _ & Hreq).
      * intros; reflexivity.
      * exists s'. split; [exact Hrun | exact Hreq].
  - destruct (undecodable_payload_retried_rejection_not
                (source_up sample_payload) default_config
                (py "Kandy,Sri Lanka") sim_start)
      as [_ Hrejected].
    + cbn. lia.
    + cbn. lia.
    + eexists. split; [|split].
      * eapply (Hrejected
                  (rejecting_client (source_up sample_payload) default_config)).
        -- cbn. lia.
        -- reflexivity.
        -- reflexivity.
        -- reflexivity.
      * reflexivity.
      * reflexivity.
Defined.

(** Four hours after the first fetch of [stored_rows], with a threshold of
    ninety minutes: Colombo, last fetched two hours before, is in the list
    [get_stale_locations] returns; a location with no row is not. *)
Lemma stale_iff_newest_fetch_before_threshold_witness :
  let s := {| world := {| sim_requests := 0; sim_commits := 0;
                          sim_time := 1700000000000000 + 4 * HOUR |};
              trace := [];
              table := stored_rows |} in
  exists result s',
    DatabaseManager_get_stale_locations source_down 90 s = (Ok result, s')
    /\ In (py "Colombo,Sri Lanka", 1700000000000000 + 2 * HOUR) result
    /\ ~ In (py "Galle,Sri Lanka") (List.map fst result).
Proof.
  intros s.
  destruct (stale_iff_newest_fetch_before_threshold source_down 90 s)
    as (result & s' & Hrun & _ & Hiff & Hnone).
  - lia.
  - reflexivity.
  - exists result, s'. split; [exact Hrun|]. split.
    + apply Hiff. split; [|split].
      * exists (row 4 (py "Colombo,Sri Lanka") (1700000000000000 + 2 * HOUR)).
        split; [do 3 right; left; reflexivity | split; reflexivity].
      * intros r Hr _. cbn in Hr.
        destruct Hr as [<-|[<-|[<-|[<-|[]]]]]; cbn; unfold HOUR; lia.
      * cbn. unfold HOUR. lia.
    + apply Hnone. intros r Hr. cbn in Hr.
      destruct Hr as [<-|[<-|[<-|[<-|[]]]]]; cbn; discriminate.
Defined.

(** The database is unreachable, so every cycle raises while the pipeline
    is being built.  The scheduler has been running for an hour, sixty
    passes of its loop, and its job is due: the pass that follows runs the
    cycle, the failure is caught and logged, and the loop is still running
    after that pass and two more. *)
Lemma scheduler_survives_failed_cycle_witness :
  let env := database_unreachable in
  let cycle := run_pipeline env default_config in
  let started := start_scheduler env (WeatherScheduler_init default_config)
                                 sim_start in
  let after_an_hour := _run_scheduler env cycle 60 (fst started)
                                      (snd started) in
  let self := snd (fst after_an_hour) in
  let s := snd after_an_hour in
  let s1 := snd (cycle (emit (EvLog INFO "Starting scheduled ETL job") s)) in
  cycle (emit (EvLog INFO "Starting scheduled ETL job") s)
  = (Raise SQLAlchemyError, s1)
  /\ _run_etl_job cycle s
     = (Ok tt, emit (EvLog ERROR "Error in scheduled ETL job: {e}") s1)
  /\ exists self'' s'',
       _run_scheduler env cycle 3 self s = (Ok LoopStillRunning, self'', s'')
       /\ _running self'' = true
       /\ List.map period_us (jobs self'') = [3600000000].
Proof.
  intros env cycle started after_an_hour self s s1.
  assert (Hraise : cycle (emit (EvLog INFO "Starting scheduled ETL job") s)
                   = (Raise SQLAlchemyError, s1))
    by (vm_compute; reflexivity).
  assert (Hjobs : jobs self = [{| period_us := 3600000000;
                                  next_run := 1700003600000000 |}])
    by (vm_compute; reflexivity).
  assert (Hdue : 1700003600000000 <= clock_us env (world s))
    by (vm_compute; discriminate).
  destruct (scheduler_survives_failed_cycle env cycle self s s1
              {| period_us := 3600000000; next_run := 1700003600000000 |}
              SQLAlchemyError 2 eq_refl eq_refl Hjobs Hdue Hraise)
    as (Hjob & _ & _ & Hloop & _).
  split; [exact Hraise|]. split; [exact Hjob|]. exact Hloop.
Defined.

(** An entry of a space, a tab and a no-break space changes nothing. *)
Lemma blank_locations_are_skipped_witness :
  let env := source_down in
  let self := {| db_manager := DatabaseManager env;
                 api_client := WeatherAPIClient env default_config |} in
  let blank := [0x20; 0x09; 0xA0]%N in
  _process_locations env
    (set_LOCATIONS ([py "Colombo,Sri Lanka"] ++ blank :: [py "London,UK"])
                   default_config) self sim_start
  = _process_locations env
      (set_LOCATIONS ([py "Colombo,Sri Lanka"] ++ [py "London,UK"])
                     default_config) self sim_start.
Proof.
  intros env self blank.
  exact (proj2 (blank_locations_are_skipped env default_config self
                  [py "Colombo,Sri Lanka"] [py "London,UK"] blank sim_start
                  eq_refl)).
Defined.

(* ================================================================== *)
(** ** Where the code departs from the specification *)

(** C1 as the specification states it fails: the first response does not
    decode, and the function sleeps and asks again; here the second
    response is good, so the outcome is an observation after two requests
    and one pause. *)
Lemma undecodable_first_response_is_retried :
  let env := source_recovers (Ok response_undecodable) sample_payload in
  malformed_response
    (fst (requests_get env (OWM_API_BASE_URL default_config) [] 20
            (world sim_start))) = true
  /\ exists o s',
       fetch_and_transform_location env default_config (py "Kandy,Sri Lanka")
         (WeatherAPIClient env default_config) sim_start = (Ok (Some o), s')
       /\ requests_made (trace s') = 2%nat
       /\ sleeps (trace s') = [5].
Proof.
  intros env. split; [reflexivity|].
  eexists _, _. split; [|split].
  - reflexivity.
  - reflexivity.
  - reflexivity.
Qed.

(** C3 as the specification states it fails: the match is SQLite's LIKE, so
    a query in another case finds the row, and so does a query with a
    wildcard in it; neither is a prefix of the stored location. *)
Lemma like_match_is_not_exact_prefix :
  let kandy := row 3 (py "Kandy,Sri Lanka") (1700000000000000 + HOUR) in
  (latest_for stored_rows (py "kandy") = Some kandy
   /\ startswith (py "kandy") (location kandy) = false)
  /\ (latest_for stored_rows (py "K_ndy") = Some kandy
      /\ startswith (py "K_ndy") (location kandy) = false)
  /\ (latest_for stored_rows (py "%dy,") = Some kandy
      /\ startswith (py "%dy,") (location kandy) = false).
Proof. repeat split; reflexivity. Qed.

(* ================================================================== *)
(** ** The end-to-end scenarios of the specification *)

(** Colombo is answered, Kandy is down: one observation, one row, and two
    requests for Kandy after the one for Colombo. *)
Example one_city_down :
  let env := source_goes_down sample_payload in
  exists self s',
    fst (WeatherETLPipeline_init env two_city_config sim_start) = Ok self
    /\ run_etl env two_city_config self sim_start = (Ok true, s')
    /\ List.map location (table s') = [py "Colombo,Sri Lanka"]
    /\ filter is_request (trace s')
       = [request_for env two_city_config (py "Colombo,Sri Lanka");
          request_for env two_city_config (py "Kandy,Sri Lanka");
          request_for env two_city_config (py "Kandy,Sri Lanka")].
Proof.
  intros env. eexists _, _. split; [reflexivity|].
  split; [vm_compute; reflexivity|]. split; reflexivity.
Qed.

(** An exception out of [fetch_and_transform_location] -- here the
    [ValueError] of [time.sleep(-1)] after the first failed request for
    Colombo -- is caught by the cycle, which goes on to Kandy. *)
Example exception_in_one_location :
  let env := source_recovers (Raise Timeout) sample_payload in
  let self := {| db_manager := DatabaseManager env;
                 api_client := WeatherAPIClient env negative_delay_config |} in
  let run := _process_locations env negative_delay_config self sim_start in
  fst (fetch_and_transform_location env negative_delay_config
         (py "Colombo,Sri Lanka") (api_client self) sim_start)
  = Raise ValueError
  /\ match fst run with
     | Ok observations =>
         List.map location observations = [py "Kandy,Sri Lanka"]
     | Raise _ => False
     end
  /\ existsb (fun ev => match ev with
                        | EvLog ERROR "Failed to process location {location}: {e}" => true
                        | _ => false
                        end) (trace (snd run)) = true.
Proof. repeat split; vm_compute; reflexivity. Qed.

(** Three rows for Colombo fetched at T, T + 1 h and T + 2 h: the query for
    ["Colombo"] yields the last. *)
Example newest_of_three :
  latest_for stored_rows (py "Colombo")
  = Some (row 4 (py "Colombo,Sri Lanka") (1700000000000000 + 2 * HOUR)).
Proof. reflexivity. Qed.

(** [get_latest_observations] takes no location: it yields the most
    recently fetched rows, several of which can be of one location. *)
Example recent_rows_repeat_locations :
  exists s',
    DatabaseManager_get_latest_observations source_down 3
      {| world := world sim_start; trace := []; table := stored_rows |}
    = (Ok [row 4 (py "Colombo,Sri Lanka") (1700000000000000 + 2 * HOUR);
           row 2 (py "Colombo,Sri Lanka") (1700000000000000 + HOUR);
           row 3 (py "Kandy,Sri Lanka") (1700000000000000 + HOUR)],
       s').
Proof. eexists. reflexivity. Qed.

(** An hour of passes with the database unreachable: the job has run once,
    its failure is in the log, and the loop is still going. *)
Example an_hour_of_ticks :
  let env := database_unreachable in
  let cycle := run_pipeline env default_config in
  let started := start_scheduler env (WeatherScheduler_init default_config)
                                 sim_start in
  exists self' s',
    _run_scheduler env cycle 61 (fst started) (snd started)
    = (Ok LoopStillRunning, self', s')
    /\ List.length (filter (fun ev => match ev with
                                      | EvLog ERROR "Error in scheduled ETL job: {e}" => true
                                      | _ => false
                                      end) (trace s')) = 1%nat
    /\ List.length (sleeps (trace s')) = 61%nat.
Proof.
  intros env cycle started. eexists _, _.
  split; [vm_compute; reflexivity|]. split; vm_compute; reflexivity.
Qed.

(* ================================================================== *)
(** ** Further properties at concrete inputs *)

(** The source down, the defaults of [config.py]: the call returns. *)
Lemma fetch_and_transform_location_contains_errors_witness :
  exists r s',
    fetch_and_transform_location source_down default_config
      (py "Kandy,Sri Lanka") (WeatherAPIClient source_down default_config)
      sim_start = (Ok r, s').
Proof.
  apply (fetch_and_transform_location_contains_errors source_down
           default_config).
  cbn. lia.
Defined.

(** The source down, the defaults of [config.py]: at most three requests. *)
Lemma attempts_bounded_by_MAX_RETRIES_witness :
  exists r s',
    fetch_and_transform_location source_down default_config
      (py "Kandy,Sri Lanka") (WeatherAPIClient source_down default_config)
      sim_start = (Ok r, s')
    /\ (requests_made (trace s') <= 3)%nat
    /\ table s' = [].
Proof.
  destruct (attempts_bounded_by_MAX_RETRIES source_down default_config
              (py "Kandy,Sri Lanka") sim_start)
    as (r & s' & j & Hrun & Hj & _ & Hreq & _ & Ht).
  - cbn. lia.
  - exists r, s'. split; [exact Hrun|]. split; [|exact Ht].
    rewrite Hreq. exact Hj.
Defined.

(** Two locations, two attempts each, the source down: at most four
    requests and two observations. *)
Lemma cycle_requests_bounded_witness :
  let self := {| db_manager := DatabaseManager source_down;
                 api_client := WeatherAPIClient source_down two_city_config |} in
  exists observations s',
    _process_locations source_down two_city_config self sim_start
    = (Ok observations, s')
    /\ (requests_made (trace s') <= 4)%nat
    /\ (List.length observations <= 2)%nat
    /\ table s' = [].
Proof.
  intros self.
  apply (cycle_requests_bounded source_down two_city_config self sim_start).
  - reflexivity.
  - cbn. lia.
Defined.

(** No attempt allowed: nothing is requested, though the source is up. *)
Lemma no_attempt_without_retries_witness :
  fetch_and_transform_location (source_up sample_payload) no_retry_config
    (py "Kandy,Sri Lanka")
    (WeatherAPIClient (source_up sample_payload) no_retry_config) sim_start
  = (Ok None, sim_start).
Proof.
  apply (no_attempt_without_retries (source_up sample_payload)
           no_retry_config).
  cbn. lia.
Defined.

(** A delay of -1 second and the source down: [ValueError] after one
    request. *)
Lemma negative_delay_raises_witness :
  exists s',
    fetch_and_transform_location source_down negative_delay_config
      (py "Kandy,Sri Lanka")
      (WeatherAPIClient source_down negative_delay_config) sim_start
    = (Raise ValueError, s')
    /\ actions (trace s')
       = [request_for source_down negative_delay_config
            (py "Kandy,Sri Lanka")].
Proof.
  apply (negative_delay_raises source_down negative_delay_config
           (py "Kandy,Sri Lanka") sim_start).
  - cbn. lia.
  - cbn. lia.
  - reflexivity.
Defined.

(** The source up with the payload of the unit test: one request, one
    observation. *)
Lemma first_attempt_success_witness :
  let env := source_up sample_payload in
  exists o s',
    fetch_and_transform_location env default_config (py "Kandy,Sri Lanka")
      (WeatherAPIClient env default_config) sim_start
    = (Ok (Some o), s')
    /\ location o = py "Kandy,Sri Lanka"
    /\ id o = None
    /\ requests_made (trace s') = 1%nat
    /\ sleeps (trace s') = [].
Proof.
  intros env.
  destruct (first_attempt_success env default_config (py "Kandy,Sri Lanka")
              sim_start sample_payload)
    as (o & s' & Hrun & Hloc & Hid & _ & Hact & _).
  - cbn. lia.
  - reflexivity.
  - reflexivity.
  - exists o, s'. split; [exact Hrun|]. split; [exact Hloc|].
    split; [exact Hid|].
    rewrite <- requests_made_actions, <- sleeps_actions, Hact.
    split; reflexivity.
Defined.

(** The source answers with a payload whose [main] is a number: one
    request, no observation, no second attempt. *)
Lemma malformed_payload_not_retried_witness :
  let env := source_up malformed_payload in
  exists s',
    fetch_and_transform_location env default_config (py "Kandy,Sri Lanka")
      (WeatherAPIClient env default_config) sim_start
    = (Ok None, s')
    /\ actions (trace s')
       = [request_for env default_config (py "Kandy,Sri Lanka")].
Proof.
  intros env.
  destruct (malformed_payload_not_retried env default_config
              (py "Kandy,Sri Lanka") sim_start malformed_payload)
    as (s' & Hrun & Hact & _).
  - intros f. cbn. discriminate.
  - cbn. lia.
  - reflexivity.
  - reflexivity.
  - exists s'. split; [exact Hrun | exact Hact].
Defined.

(** The two most recent of [stored_rows]. *)
Lemma latest_observations_are_the_most_recent_witness :
  exists rows s',
    DatabaseManager_get_latest_observations source_down 2 stored_state
    = (Ok rows, s')
    /\ List.length rows = 2%nat
    /\ StronglySorted not_older rows.
Proof.
  destruct (latest_observations_are_the_most_recent source_down 2
              stored_state)
    as (rows & s' & Hrun & _ & _ & Hlen & Hsorted & _).
  - lia.
  - reflexivity.
  - exists rows, s'. split; [exact Hrun|]. split; [exact Hlen | exact Hsorted].
Defined.

(** Colombo, stale under a threshold of 100 minutes, is stale under one of
    90 minutes. *)
Lemma staleness_monotone_in_threshold_witness :
  let now := 1700000000000000 + 4 * HOUR in
  In (py "Colombo,Sri Lanka", 1700000000000000 + 2 * HOUR)
     (select_stale stored_rows (sqlite_now_minus_minutes now 90)).
Proof.
  intros now.
  apply (staleness_monotone_in_threshold stored_rows now 90 100
           (py "Colombo,Sri Lanka") (1700000000000000 + 2 * HOUR)).
  - lia.
  - left. reflexivity.
Defined.

(** [Colombo] is a prefix of a stored location. *)
Lemma exact_prefix_query_is_answered_witness :
  (exists r',
     latest_for stored_rows (py "Colombo") = Some r'
     /\ In r' stored_rows
     /\ 1700000000000000 <= fetched_at_utc r')
  /\ fst (get_weather_by_location source_down (py "Colombo") stored_state)
     <> Ok Reply404.
Proof.
  apply (exact_prefix_query_is_answered source_down (py "Colombo")
           stored_state (row 1 (py "Colombo,Sri Lanka") 1700000000000000)).
  - left. reflexivity.
  - reflexivity.
Defined.

(** [colombo], in small letters, selects the rows of Colombo. *)
Lemma query_ignores_ascii_case_witness :
  (exists r',
     latest_for stored_rows (py "colombo") = Some r'
     /\ In r' stored_rows
     /\ 1700000000000000 <= fetched_at_utc r')
  /\ fst (get_weather_by_location source_down (py "colombo") stored_state)
     <> Ok Reply404.
Proof.
  apply (query_ignores_ascii_case source_down (py "colombo")
           stored_state (row 1 (py "Colombo,Sri Lanka") 1700000000000000)).
  - left. reflexivity.
  - reflexivity.
Defined.

(** Two locations, the source up: the observations are for them. *)
Lemma observations_are_for_configured_locations_witness :
  let env := source_up sample_payload in
  let self := {| db_manager := DatabaseManager env;
                 api_client := WeatherAPIClient env two_city_config |} in
  exists observations s',
    _process_locations env two_city_config self sim_start
    = (Ok observations, s')
    /\ forall o, In o observations ->
         id o = None
         /\ exists l, In l (LOCATIONS two_city_config)
                      /\ location o = strip l /\ strip l <> [].
Proof.
  intros env self.
  apply (observations_are_for_configured_locations env two_city_config self
           sim_start).
  reflexivity.
Defined.

(** Two locations, the source up, the table holding [stored_rows]: the
    cycle adds rows after them. *)
Lemma run_etl_only_appends_witness :
  let env := source_up sample_payload in
  let self := {| db_manager := DatabaseManager env;
                 api_client := WeatherAPIClient env two_city_config |} in
  exists ok s' added,
    run_etl env two_city_config self stored_state = (Ok ok, s')
    /\ table s' = stored_rows ++ added
    /\ (forall r, In r added ->
          exists l, In l (LOCATIONS two_city_config)
                    /\ location r = strip l /\ strip l <> [])
    /\ (ids_sequential stored_rows -> ids_sequential (table s')).
Proof.
  intros env self.
  apply (run_etl_only_appends env two_city_config stored_state).
  cbn. lia.
Defined.

(** The scheduler just started: its job is due in an hour, and a pass
    through the loop only sleeps. *)
Lemma jobs_not_due_are_not_run_witness :
  let env := source_up sample_payload in
  let started := start_scheduler env (WeatherScheduler_init default_config)
                                 sim_start in
  scheduler_tick env (run_pipeline env default_config) (fst started)
                 (snd started)
  = (Ok tt, fst started,
     set_world (after_sleep env 60 (world (snd started)))
               (emit (EvSleep 60) (snd started))).
Proof.
  intros env started.
  apply (jobs_not_due_are_not_run env (run_pipeline env default_config)
           (fst started) (snd started)).
  intros j Hj. cbn in Hj. destruct Hj as [<-|[]]. reflexivity.
Defined.

(** The scheduler of the default configuration: one job, every hour. *)
Lemma start_scheduler_registers_one_job_witness :
  let env := source_up sample_payload in
  let started := start_scheduler env (WeatherScheduler_init default_config)
                                 sim_start in
  _running (fst started) = true
  /\ jobs (fst started)
     = [{| period_us := 3600000000;
           next_run := 1700000000000000 + 3600000000 |}]
  /\ fst (start_scheduler env (fst started) (snd started)) = fst started
  /\ table (snd started) = []
  /\ world (snd started) = world sim_start.
Proof.
  intros env started.
  apply (start_scheduler_registers_one_job env
           (WeatherScheduler_init default_config) sim_start);
    reflexivity.
Defined.

(** Started, then stopped: the loop ends at once. *)
Lemma stop_scheduler_ends_the_loop_witness :
  let env := source_up sample_payload in
  let started := start_scheduler env (WeatherScheduler_init default_config)
                                 sim_start in
  let stopped := stop_scheduler env (fst started) (snd started) in
  _running (fst stopped) = false
  /\ jobs (fst stopped) = []
  /\ _run_scheduler env (run_pipeline env default_config) 3 (fst stopped)
                    (snd stopped)
     = (Ok LoopExited, fst stopped, snd stopped).
Proof.
  intros env started stopped.
  apply (stop_scheduler_ends_the_loop env (run_pipeline env default_config)
           (fst started) (snd started) 2);
    reflexivity.
Defined.

(** [LOCATIONS] set to blanks and separators: nothing is requested. *)
Lemma blank_LOCATIONS_setting_processes_nothing_witness :
  let env := source_up sample_payload in
  let self := {| db_manager := DatabaseManager env;
                 api_client := WeatherAPIClient env blank_config |} in
  _process_locations env blank_config self sim_start
  = (Ok [],
     emit (EvLog INFO "Processing {len(Config.LOCATIONS)} locations")
          sim_start).
Proof.
  intros env self.
  apply (blank_LOCATIONS_setting_processes_nothing env blank_config self
           (py " ; ;") sim_start);
    reflexivity.
Defined.

(** Every upload refused: for objects that were not saved [_push_to_s3]
    says [True] all the same; with an object a commit has expired it says
    [False]. *)
Lemma push_outcome_does_not_depend_on_uploads_witness :
  let self := {| db_manager := DatabaseManager uploads_refused;
                 api_client := WeatherAPIClient uploads_refused s3_config |} in
  let colombo := {| expired := false;
                    attributes := unsaved (py "Colombo,Sri Lanka")
                                          1700000000000000 |} in
  let kandy := {| expired := true;
                  attributes := row 1 (py "Kandy,Sri Lanka")
                                    1700000000000000 |} in
  (exists s',
     _push_to_s3 uploads_refused s3_config self [colombo; colombo] sim_start
     = (Ok true, s')
     /\ table s' = [])
  /\ (exists s',
        _push_to_s3 uploads_refused s3_config self [colombo; kandy] sim_start
        = (Ok false, s')
        /\ table s' = []).
Proof.
  intros self colombo kandy. split.
  - apply (push_outcome_does_not_depend_on_uploads uploads_refused s3_config
             self [colombo; colombo] sim_start);
      reflexivity.
  - apply (push_outcome_does_not_depend_on_uploads uploads_refused s3_config
             self [colombo; kandy] sim_start);
      reflexivity.
Defined.

(** Both locations answered and saved, the archive switched on: the objects
    handed to [_push_to_s3] are expired, the push is given up at the first
    of them, and the cycle reports success. *)
Example saved_observations_are_not_pushed :
  let env := uploads_refused in
  let self := {| db_manager := DatabaseManager env;
                 api_client := WeatherAPIClient env s3_config |} in
  let run := run_etl env s3_config self sim_start in
  fst run = Ok true
  /\ List.map location (table (snd run))
     = [py "Colombo,Sri Lanka"; py "Kandy,Sri Lanka"]
  /\ filter (fun ev => match ev with EvLog ERROR _ => true | _ => false end)
            (trace (snd run))
     = [EvLog ERROR "Failed to initialize S3 client: {e}"].
Proof.
  intros env self run. split; [|split]; vm_compute; reflexivity.
Qed.
